(** * pyxfoil: the command-script builder and the naming scheme

    A shallow embedding of [pyxfoil.py]: the [Xfoil] class, which queues
    the command lines of one XFOIL session in a text buffer and pipes
    them to the executable, and the functions that name its output
    files.

    How Python is modelled.
    - [str] is [string], a character being one code point below 256;
      [int] is [Z]; [float] is a binary64 value, [spec_float].
    - [str.format] is an interpreter of templates, and the number
      formats [e], [f] and [str] print the exact value of a float,
      rounded half to even, the way CPython does.
    - [re.search] is a matcher for the two patterns [FindBetween]
      builds; the arguments pasted into them are read as patterns of
      literals, dots, escapes and alternation, and the rest of the
      pattern syntax is [Unsupported].
    - A method of [Xfoil] is a function from the object and the world
      (file system, console, started processes) to an outcome and the
      object and world it leaves behind; an exception is an outcome, and
      the state it is raised in is kept.
    - The file system is keyed by the path strings the program writes:
      two spellings of one file are two keys, and an executable is a
      file under the name it is started by.  The XFOIL executable
      itself is a parameter. *)

From Stdlib Require Import ZArith String Ascii List Lia DecimalString.
From Stdlib Require Import Floats.SpecFloat.
From stdpp Require Import gmap strings.

Open Scope Z_scope.

(** ** Exceptions and outcomes *)

Inductive exn :=
| SystemExit (msg : string)   (* sys.exit(msg) *)
| IndexError                  (* alfs[0] on an empty sequence *)
| OverflowError               (* int too large to convert to float *)
| ValueError                  (* format code that does not fit the value *)
| FileNotFoundError           (* Popen of a missing executable *)
| FileExistsError             (* mkdir of a path that exists *)
| re_error                    (* re.error: look-behind requires fixed-width pattern *)
| Unsupported.                (* library behaviour outside the embedded fragment *)

Inductive outcome (A : Type) :=
| Ret (a : A)
| Raise (e : exn).
Arguments Ret {A} a.
Arguments Raise {A} e.

Definition obind {A B} (x : outcome A) (f : A -> outcome B) : outcome B :=
  match x with
  | Ret a => f a
  | Raise e => Raise e
  end.

#[global] Instance outcome_ret : MRet outcome := @Ret.
#[global] Instance outcome_bind : MBind outcome := fun A B f x => obind x f.

(** ** Strings *)

Definition newline : ascii := ascii_of_nat 10.
Definition carriage_return : ascii := ascii_of_nat 13.
Definition nl : string := String newline EmptyString.

(** [str.split(sep)] for a one-character separator: never empty. *)
Fixpoint split (sep : ascii) (s : string) : list string :=
  match s with
  | EmptyString => [EmptyString]
  | String c s' =>
      if Ascii.eqb c sep then EmptyString :: split sep s'
      else match split sep s' with
           | [] => [String c EmptyString]
           | w :: ws => String c w :: ws
           end
  end.

(** [l[:-1]] *)
Definition but_last {A} (l : list A) : list A := removelast l.

(** Each line followed by a line feed: the text that a run of
    [AddInput] calls appends. *)
Fixpoint unlines (l : list string) : string :=
  match l with
  | [] => EmptyString
  | x :: r => x +:+ nl +:+ unlines r
  end.

(** The command lines of a buffer: the text between line feeds, without
    the empty remainder after the last one. *)
Definition commands (buf : string) : list string := but_last (split newline buf).

Definition count_command (c : string) (buf : string) : nat :=
  List.length (List.filter (String.eqb c) (commands buf)).

(** Number of lines Python reads from a text file (universal newlines:
    a line ends at LF, at CR, or at CR LF; a last line needs no end). *)
Fixpoint count_lines_from (open_line : bool) (s : string) : nat :=
  match s with
  | EmptyString => if open_line then 1%nat else 0%nat
  | String c s' =>
      if Ascii.eqb c newline then S (count_lines_from false s')
      else if Ascii.eqb c carriage_return then
        match s' with
        | String c' s'' =>
            if Ascii.eqb c' newline then S (count_lines_from false s'')
            else S (count_lines_from false s')
        | EmptyString => 1%nat
        end
      else count_lines_from true s'
  end.

Definition count_lines (s : string) : nat := count_lines_from false s.

(** ** Numbers and their formatting *)

Inductive pynum :=
| PyInt (z : Z)
| PyFloat (f : spec_float).

Inductive pyval :=
| VStr (s : string)
| VNum (n : pynum).

(** [x != 0] *)
Definition py_nonzero (x : pynum) : bool :=
  match x with
  | PyInt z => negb (z =? 0)
  | PyFloat (S754_zero _) => false
  | PyFloat _ => true
  end.

(** [float(z)]: nearest binary64 value, ties to even. *)
Definition float_of_int (z : Z) : outcome spec_float :=
  match binary_normalize 53 1024 z 0 false with
  | S754_infinity _ => Raise OverflowError
  | f => Ret f
  end.

(** Decimal digits of a natural number. *)
Definition dec (z : Z) : string := NilZero.string_of_uint (N.to_uint (Z.to_N z)).

Fixpoint zeros (n : nat) : string :=
  match n with
  | O => EmptyString
  | S n' => String "0" (zeros n')
  end.

Definition zfill (n : nat) (s : string) : string :=
  zeros (n - String.length s) +:+ s.

Definition sign_text (neg : bool) : string := if neg then "-" else "".

(** [b ^ x], and 1 when [x] is negative. *)
Definition pow (b x : Z) : Z := b ^ Z.max x 0.

(** Nearest integer to [n/d], ties to even ([0 <= n], [0 < d]). *)
Definition round_half_even (n d : Z) : Z :=
  let q := n / d in
  match 2 * (n mod d) ?= d with
  | Lt => q
  | Gt => q + 1
  | Eq => if Z.even q then q else q + 1
  end.

(** [k] printed with a point before its last [prec] digits. *)
Definition point_digits (prec : nat) (k : Z) : string :=
  let ds := zfill (S prec) (dec k) in
  let cut := (String.length ds - prec)%nat in
  match prec with
  | O => ds
  | _ => substring 0 cut ds +:+ "." +:+ substring cut prec ds
  end.

(** Presentation type [f]: [n/d] with [prec] digits after the point. *)
Definition fixed_text (prec : nat) (n d : Z) : string :=
  point_digits prec (round_half_even (n * pow 10 (Z.of_nat prec)) d).

(** [floor (log10 (n/d))] for positive [n] and [d]; 0 for [n = 0]. *)
Definition decimal_exponent (n d : Z) : Z :=
  let x := Z.of_nat (String.length (dec n)) - Z.of_nat (String.length (dec d)) in
  if n =? 0 then 0
  else if d * pow 10 x <=? n * pow 10 (- x) then x else x - 1.

Definition exponent_text (x : Z) : string :=
  "e" +:+ (if x <? 0 then "-" else "+") +:+ zfill 2 (dec (Z.abs x)).

(** Presentation type [e]: one digit, the point, [prec] digits, and the
    decimal exponent with at least two digits. *)
Definition sci_text (prec : nat) (n d : Z) : string :=
  let x := decimal_exponent n d in
  let shift := Z.of_nat prec - x in
  let k := round_half_even (n * pow 10 shift) (d * pow 10 (- shift)) in
  let '(k, x) :=
    if k =? pow 10 (Z.of_nat (S prec)) then (pow 10 (Z.of_nat prec), x + 1) else (k, x) in
  match zfill (S prec) (dec k) with
  | String c ds => String c (match prec with O => "" | _ => "." +:+ ds end) +:+ exponent_text x
  | EmptyString => EmptyString
  end.

(** The exact value of a finite float as a fraction [n/d]. *)
Definition fraction (m : positive) (e : Z) : Z * Z :=
  (Z.pos m * pow 2 e, pow 2 (- e)).

Inductive presentation := Fixed | Scientific.

Definition float_text (p : presentation) (prec : nat) (f : spec_float) : string :=
  match f with
  | S754_nan => "nan"
  | S754_infinity s => sign_text s +:+ "inf"
  | S754_zero s =>
      sign_text s +:+
      match p with Fixed => fixed_text prec 0 1 | Scientific => sci_text prec 0 1 end
  | S754_finite s m e =>
      let '(n, d) := fraction m e in
      sign_text s +:+
      match p with Fixed => fixed_text prec n d | Scientific => sci_text prec n d end
  end.

(** *** [repr] of a float: the shortest digits that read back as the
    same binary64 value, the nearest to it among the shortest. *)

Fixpoint strip_zeros (s : string) : string :=
  match s with
  | EmptyString => EmptyString
  | String c r =>
      match strip_zeros r with
      | EmptyString => if Ascii.eqb c "0" then EmptyString else String c EmptyString
      | r' => String c r'
      end
  end.

Section Shortest.
(** The float is [X * 2^g]; the reals between [LO * 2^g] and
    [HI * 2^g] round to it, the ends too when [closed]. *)
Variables (X LO HI g : Z) (closed : bool).

Definition inside (A B c : Z) : bool :=
  if closed then (LO * A <=? c * B) && (c * B <=? HI * A)
  else (LO * A <? c * B) && (c * B <? HI * A).

(** Digits [c] and exponent [t] with [c * 10^t] the result, trying
    [p], [p+1], ... significant digits. *)
Fixpoint shortest_from (fuel : nat) (E p : Z) : Z * Z :=
  let t := E - p + 1 in
  let A := pow 2 g * pow 10 (- t) in
  let B := pow 2 (- g) * pow 10 t in
  let c0 := (X * A) / B in
  let c1 := c0 + 1 in
  match fuel with
  | O => (c0, t)
  | S fuel' =>
      match inside A B c0, inside A B c1 with
      | true, true =>
          match X * A - c0 * B ?= c1 * B - X * A with
          | Lt => (c0, t)
          | Gt => (c1, t)
          | Eq => (if Z.even c0 then c0 else c1, t)
          end
      | true, false => (c0, t)
      | false, true => (c1, t)
      | false, false => shortest_from fuel' E (p + 1)
      end
  end.
End Shortest.

(** Digits without trailing zeros and the position of the point after
    them, for the positive float [m * 2^e]. *)
Definition shortest_digits (m : positive) (e : Z) : string * Z :=
  match binary_normalize 53 1024 (Z.pos m) e false with
  | S754_finite _ m' u =>
      let X := 4 * Z.pos m' in
      let LO := if (Z.pos m' =? 2 ^ 52) && (-1074 <? u) then X - 1 else X - 2 in
      let g := u - 2 in
      let E := decimal_exponent (X * pow 2 g) (pow 2 (- g)) in
      let '(c, t) := shortest_from X LO (X + 2) g (Z.even (Z.pos m')) 17 E 1 in
      (strip_zeros (dec c), Z.of_nat (String.length (dec c)) + t)
  | _ => ("0", 1)
  end.

Definition repr_finite (m : positive) (e : Z) : string :=
  let '(ds, decpt) := shortest_digits m e in
  if (decpt <=? -4) || (16 <? decpt) then
    match ds with
    | String c EmptyString => ds +:+ exponent_text (decpt - 1)
    | String c r => String c ("." +:+ r) +:+ exponent_text (decpt - 1)
    | EmptyString => ds
    end
  else if decpt <=? 0 then "0." +:+ zeros (Z.to_nat (- decpt)) +:+ ds
  else
    let n := Z.to_nat decpt in
    let len := String.length ds in
    if (len <=? n)%nat then ds +:+ zeros (n - len) +:+ ".0"
    else substring 0 n ds +:+ "." +:+ substring n (len - n) ds.

Definition float_repr (f : spec_float) : string :=
  match f with
  | S754_nan => "nan"
  | S754_infinity s => sign_text s +:+ "inf"
  | S754_zero s => sign_text s +:+ "0.0"
  | S754_finite s m e => sign_text s +:+ repr_finite m e
  end.

(** [str(x)] *)
Definition py_str (x : pynum) : string :=
  match x with
  | PyInt z => sign_text (z <? 0) +:+ dec (Z.abs z)
  | PyFloat f => float_repr f
  end.

Definition as_float (x : pynum) : outcome spec_float :=
  match x with
  | PyInt z => float_of_int z
  | PyFloat f => Ret f
  end.

(** *** [format(value, spec)] and [template.format(args...)]

    The embedded fragment: replacement fields [{}] and [{:spec}], taken
    in order, where [spec] is empty or [width.precision] followed by
    [e] or [f]. *)

Definition is_digit (c : ascii) : bool :=
  (48 <=? nat_of_ascii c)%nat && (nat_of_ascii c <=? 57)%nat.

Fixpoint read_digits (acc : nat) (s : string) : nat * string :=
  match s with
  | String c r =>
      if is_digit c then read_digits (10 * acc + (nat_of_ascii c - 48)) r
      else (acc, s)
  | EmptyString => (acc, s)
  end.

Record format_spec := { width : nat; precision : nat; kind : presentation }.

Definition parse_spec (s : string) : option format_spec :=
  let '(w, r) := read_digits 0 s in
  match s, r with
  | String "0" _, _ => None     (* a leading zero asks for zero padding *)
  | _, String "." r1 =>
      match r1 with
      | String c _ =>
          if is_digit c then
            match read_digits 0 r1 with
            | (p, "e") => Some {| width := w; precision := p; kind := Scientific |}
            | (p, "f") => Some {| width := w; precision := p; kind := Fixed |}
            | _ => None
            end
          else None
      | EmptyString => None
      end
  | _, _ => None
  end.

Fixpoint spaces (n : nat) : string :=
  match n with
  | O => EmptyString
  | S n' => String " " (spaces n')
  end.

(** Numbers are right-aligned in the field width. *)
Definition pad_left (w : nat) (s : string) : string :=
  spaces (w - String.length s) +:+ s.

Definition py_format (v : pyval) (spec : string) : outcome string :=
  match spec with
  | EmptyString =>
      Ret (match v with VStr s => s | VNum x => py_str x end)
  | _ =>
      match parse_spec spec with
      | None => Raise Unsupported
      | Some sp =>
          match v with
          | VStr _ => Raise ValueError
          | VNum x =>
              obind (as_float x) (fun f =>
              Ret (pad_left (width sp) (float_text (kind sp) (precision sp) f)))
          end
      end
  end.

Inductive piece :=
| Text (c : ascii)
| Field (spec : string).

(** The text up to the closing brace, and what follows it. *)
Fixpoint read_field (s : string) : option (string * string) :=
  match s with
  | EmptyString => None
  | String c r =>
      if Ascii.eqb c "}" then Some (EmptyString, r)
      else if Ascii.eqb c "{" then None
      else match read_field r with
           | Some (f, rest) => Some (String c f, rest)
           | None => None
           end
  end.

Fixpoint parse_template (fuel : nat) (s : string) : option (list piece) :=
  match fuel with
  | O => None
  | S fuel' =>
      match s with
      | EmptyString => Some []
      | String c r =>
          if Ascii.eqb c "{" then
            match read_field r with
            | Some (EmptyString, rest) =>
                option_map (cons (Field EmptyString)) (parse_template fuel' rest)
            | Some (String ":" spec, rest) =>
                option_map (cons (Field spec)) (parse_template fuel' rest)
            | _ => None
            end
          else if Ascii.eqb c "}" then None
          else option_map (cons (Text c)) (parse_template fuel' r)
      end
  end.

Fixpoint render (ps : list piece) (args : list pyval) : outcome string :=
  match ps with
  | [] => Ret EmptyString
  | Text c :: ps' => obind (render ps' args) (fun r => Ret (String c r))
  | Field spec :: ps' =>
      match args with
      | [] => Raise IndexError
      | v :: args' =>
          obind (py_format v spec) (fun t =>
          obind (render ps' args') (fun r => Ret (t +:+ r)))
      end
  end.

(** [tpl.format(args...)] *)
Definition str_format (tpl : string) (args : list pyval) : outcome string :=
  match parse_template (S (String.length tpl)) tpl with
  | Some ps => render ps args
  | None => Raise Unsupported
  end.

(** ** Regular expressions

    [FindBetween] pastes its arguments into a pattern, so a path is read
    as a regular expression.  The embedded fragment: ordinary
    characters, the dot (any character but a line feed), a backslash
    before a character that is no letter or digit, and alternation.
    The remaining syntax ( ^ $ * + ? and the brackets, and a backslash
    before a letter or digit) raises [Unsupported]. *)

Inductive atom :=
| Lit (c : ascii)
| AnyChar.

Definition is_alnum (c : ascii) : bool :=
  let n := nat_of_ascii c in
  is_digit c || ((65 <=? n) && (n <=? 90) || (97 <=? n) && (n <=? 122))%nat.

Definition is_special (c : ascii) : bool :=
  existsb (Ascii.eqb c) (list_ascii_of_string "^$*+?{}[]()").

Definition push_atom (a : atom) (bs : list (list atom)) : list (list atom) :=
  match bs with
  | [] => [[a]]
  | b :: bs' => (a :: b) :: bs'
  end.

(** The alternatives of a pattern, each a sequence of atoms. *)
Fixpoint parse_pattern (s : string) : outcome (list (list atom)) :=
  match s with
  | EmptyString => Ret [[]]
  | String c r =>
      if Ascii.eqb c "|" then obind (parse_pattern r) (fun bs => Ret ([] :: bs))
      else if Ascii.eqb c "." then obind (parse_pattern r) (fun bs => Ret (push_atom AnyChar bs))
      else if Ascii.eqb c "\" then
        match r with
        | String c' r' =>
            if is_alnum c' then Raise Unsupported
            else obind (parse_pattern r') (fun bs => Ret (push_atom (Lit c') bs))
        | EmptyString => Raise Unsupported
        end
      else if is_special c then Raise Unsupported
      else obind (parse_pattern r) (fun bs => Ret (push_atom (Lit c) bs))
  end.

Definition atom_matches (a : atom) (c : ascii) : bool :=
  match a with
  | Lit x => Ascii.eqb x c
  | AnyChar => negb (Ascii.eqb c newline)
  end.

(** The atoms match a prefix of the characters; what is left. *)
Fixpoint match_atoms (b : list atom) (cs : list ascii) : option (list ascii) :=
  match b with
  | [] => Some cs
  | a :: b' =>
      match cs with
      | c :: cs' => if atom_matches a c then match_atoms b' cs' else None
      | [] => None
      end
  end.

(** [(?=after)] at the head of [s]. *)
Definition look_ahead (after : list (list atom)) (s : list ascii) : bool :=
  existsb (fun b => bool_decide (is_Some (match_atoms b s))) after.

(** [(?<=before)] where [seen] holds the characters passed, last first. *)
Definition look_behind (before : list (list atom)) (seen : list ascii) : bool :=
  existsb (fun b => bool_decide (is_Some (match_atoms (rev b) seen))) before.

(** [(?P<value>.*?)(?=after)]: the shortest run without a line feed
    that [after] follows. *)
Fixpoint lazy_value (after : list (list atom)) (s : list ascii) : option (list ascii) :=
  if look_ahead after s then Some []
  else match s with
       | c :: r =>
           if Ascii.eqb c newline then None
           else option_map (cons c) (lazy_value after r)
       | [] => None
       end.

(** [re.search] of [(?<=before)(?P<value>.*?)(?=after)]: the leftmost
    position where it matches. *)
Fixpoint search_between (before after : list (list atom)) (seen s : list ascii)
  : option (list ascii) :=
  match (if look_behind before seen then lazy_value after s else None) with
  | Some v => Some v
  | None =>
      match s with
      | c :: r => search_between before after (c :: seen) r
      | [] => None
      end
  end.

(** A look-behind must have one width. *)
Definition fixed_width (bs : list (list atom)) : bool :=
  match bs with
  | [] => true
  | b :: bs' => forallb (fun b' => (List.length b' =? List.length b)%nat) bs'
  end.

(** The greedy group and the end-of-text anchor at the head of [s]:
    every character up to a line feed, when the text ends there or with
    that line feed. *)
Fixpoint rest_of_line (s : list ascii) : option (list ascii) :=
  match s with
  | [] => Some []
  | c :: r =>
      if Ascii.eqb c newline then (match r with [] => Some [] | _ => None end)
      else option_map (cons c) (rest_of_line r)
  end.

(** [re.search] of [before], the greedy group and the anchor, for a
    pattern of one alternative. *)
Fixpoint search_after (before : list atom) (s : list ascii) : option (list ascii) :=
  match
    (match match_atoms before s with Some r => rest_of_line r | None => None end)
  with
  | Some v => Some v
  | None =>
      match s with
      | c :: r => search_after before r
      | [] => None
      end
  end.

(** ** General file and process utilities *)

(** [str(x)] for a string or [None]. *)
Definition py_str_opt (x : option string) : string :=
  match x with Some s => s | None => "None" end.

(** Every directory of the path, each with its slash: the path up to
    and with its last slash. *)
Definition GetParentDir (savename : string) : string :=
  let splitstring := split "/" savename in
  fold_left (fun parent s => parent +:+ s +:+ "/") (but_last splitstring) "".

(** The text between [before] and [after], or after [before] to the
    end of the line when [after] is [None]; [No Match] when the search
    fails.  [None] for [before] prints as the word. *)
Definition FindBetween (text : string) (before after : option string) : outcome string :=
  match after, before with
  | None, Some before =>
      obind (parse_pattern before) (fun bs =>
      match bs with
      | [b] =>
          match search_after b (list_ascii_of_string text) with
          | Some v => Ret (string_of_list_ascii v)
          | None => Ret "No Match"
          end
      | _ => Raise Unsupported
      end)
  | _, _ =>
      obind (parse_pattern (py_str_opt before)) (fun bs =>
      obind (parse_pattern (py_str_opt after)) (fun as_ =>
      if fixed_width bs then
        match search_between bs as_ [] (list_ascii_of_string text) with
        | Some v => Ret (string_of_list_ascii v)
        | None => Ret "No Match"
        end
      else Raise re_error))
  end.

Definition stars : string :=
  "********************************************************************".

(** The text between two lines of stars, with blank lines around. *)
Definition ErrorMessage (text : string) : outcome string :=
  str_format (nl +:+ nl +:+ stars +:+ nl +:+ "{}" +:+ nl +:+ stars +:+ nl +:+ nl) [VStr text].

(** ** The world outside the program *)

Record filesystem := {
  files : gmap string string;   (* regular files and their text *)
  dirs : gset string            (* directories, without a trailing slash *)
}.

Record process := {
  exe : string;                 (* the path it was started by *)
  stdin_data : list Byte.byte   (* what was written to its input *)
}.

Record world := {
  os_name : string;             (* os.name *)
  fs : filesystem;
  console : list string;        (* what was printed, oldest first *)
  started : list process        (* subprocesses run, oldest first *)
}.

Definition with_fs (f : filesystem) (w : world) : world :=
  {| os_name := os_name w; fs := f; console := console w; started := started w |}.
Definition with_console (c : list string) (w : world) : world :=
  {| os_name := os_name w; fs := fs w; console := c; started := started w |}.
Definition with_started (p : list process) (w : world) : world :=
  {| os_name := os_name w; fs := fs w; console := console w; started := p |}.

(** [os.path.isfile(p)] *)
Definition isfile (w : world) (p : string) : bool :=
  bool_decide (is_Some (files (fs w) !! p)).

(** [os.remove(p)] *)
Definition os_remove (p : string) (w : world) : world :=
  with_fs {| files := delete p (files (fs w)); dirs := dirs (fs w) |} w.

Fixpoint strip_slashes_rev (s : list ascii) : list ascii :=
  match s with
  | c :: r => if Ascii.eqb c "/" then strip_slashes_rev r else s
  | [] => []
  end.

(** The path without its trailing slashes. *)
Definition strip_slashes (p : string) : string :=
  string_of_list_ascii (rev (strip_slashes_rev (rev (list_ascii_of_string p)))).

Definition isdir (w : world) (d : string) : bool :=
  String.eqb d "" || bool_decide (d ∈ dirs (fs w)).

(** [os.mkdir(p)]: the path must be new and its parent a directory (the
    root and the working directory always are). *)
Definition os_mkdir (p : string) (w : world) : outcome unit * world :=
  let d := strip_slashes p in
  if isdir w d || isfile w d then (Raise FileExistsError, w)
  else if isdir w (strip_slashes (GetParentDir d)) then
    (Ret tt, with_fs {| files := files (fs w); dirs := {[ d ]} ∪ dirs (fs w) |} w)
  else (Raise FileNotFoundError, w).

(** [print(text)] *)
Definition print (text : string) (w : world) : world :=
  with_console (console w ++ [text]) w.

(** [text.encode('utf-8')] for code points below 256. *)
Definition encode_char (c : ascii) : list Byte.byte :=
  let n := N_of_ascii c in
  if (n <? 128)%N then [byte_of_ascii c]
  else [byte_of_ascii (ascii_of_N (192 + n / 64)); byte_of_ascii (ascii_of_N (128 + n mod 64))].

Definition encode_utf8 (s : string) : list Byte.byte :=
  flat_map encode_char (list_ascii_of_string s).

(** Each level of the path is made in turn; a level that cannot be
    made (it exists already, say) is passed over. *)
Definition MakeOutputDir (savedir : string) (w : world) : world :=
  let splitstring := split "/" savedir in
  snd (fold_left
         (fun '(prestring, w) s =>
            let prestring := prestring +:+ s +:+ "/" in
            (prestring, snd (os_mkdir prestring w)))
         splitstring ("", w)).

(** [os.name == 'nt'] *)
Definition IsItWindows (w : world) : bool := String.eqb (os_name w) "nt".

(** ** The [Xfoil] class *)

Inductive angles :=
| Scalar (alf : pynum)            (* a bare float or int *)
| Sequence (alfs : list pynum).

Record Xfoil := {
  win : bool;
  xfoilpath : string;
  Re : pynum;
  Iter : pynum;
  naca : bool;
  name : string;
  savepath : string;
  input : string;
  foil : string;
  alfs : option (list pynum);
  xf : option nat                (* the subprocess: its place in [started] *)
}.

(** The object before [__init__] has assigned anything. *)
Definition blank : Xfoil :=
  {| win := false; xfoilpath := ""; Re := PyInt 0; Iter := PyInt 0; naca := false;
     name := ""; savepath := ""; input := ""; foil := ""; alfs := None; xf := None |}.

(** [self.field = v] *)
Definition set_win (v : bool) (o : Xfoil) : Xfoil :=
  {| win := v; xfoilpath := xfoilpath o; Re := Re o; Iter := Iter o;
     naca := naca o; name := name o; savepath := savepath o; input := input o;
     foil := foil o; alfs := alfs o; xf := xf o |}.

Definition set_xfoilpath (v : string) (o : Xfoil) : Xfoil :=
  {| win := win o; xfoilpath := v; Re := Re o; Iter := Iter o;
     naca := naca o; name := name o; savepath := savepath o; input := input o;
     foil := foil o; alfs := alfs o; xf := xf o |}.

Definition set_Re (v : pynum) (o : Xfoil) : Xfoil :=
  {| win := win o; xfoilpath := xfoilpath o; Re := v; Iter := Iter o;
     naca := naca o; name := name o; savepath := savepath o; input := input o;
     foil := foil o; alfs := alfs o; xf := xf o |}.

Definition set_Iter (v : pynum) (o : Xfoil) : Xfoil :=
  {| win := win o; xfoilpath := xfoilpath o; Re := Re o; Iter := v;
     naca := naca o; name := name o; savepath := savepath o; input := input o;
     foil := foil o; alfs := alfs o; xf := xf o |}.

Definition set_naca (v : bool) (o : Xfoil) : Xfoil :=
  {| win := win o; xfoilpath := xfoilpath o; Re := Re o; Iter := Iter o;
     naca := v; name := name o; savepath := savepath o; input := input o;
     foil := foil o; alfs := alfs o; xf := xf o |}.

Definition set_name (v : string) (o : Xfoil) : Xfoil :=
  {| win := win o; xfoilpath := xfoilpath o; Re := Re o; Iter := Iter o;
     naca := naca o; name := v; savepath := savepath o; input := input o;
     foil := foil o; alfs := alfs o; xf := xf o |}.

Definition set_savepath (v : string) (o : Xfoil) : Xfoil :=
  {| win := win o; xfoilpath := xfoilpath o; Re := Re o; Iter := Iter o;
     naca := naca o; name := name o; savepath := v; input := input o;
     foil := foil o; alfs := alfs o; xf := xf o |}.

Definition set_input (v : string) (o : Xfoil) : Xfoil :=
  {| win := win o; xfoilpath := xfoilpath o; Re := Re o; Iter := Iter o;
     naca := naca o; name := name o; savepath := savepath o; input := v;
     foil := foil o; alfs := alfs o; xf := xf o |}.

Definition set_foil (v : string) (o : Xfoil) : Xfoil :=
  {| win := win o; xfoilpath := xfoilpath o; Re := Re o; Iter := Iter o;
     naca := naca o; name := name o; savepath := savepath o; input := input o;
     foil := v; alfs := alfs o; xf := xf o |}.

Definition set_alfs (v : option (list pynum)) (o : Xfoil) : Xfoil :=
  {| win := win o; xfoilpath := xfoilpath o; Re := Re o; Iter := Iter o;
     naca := naca o; name := name o; savepath := savepath o; input := input o;
     foil := foil o; alfs := v; xf := xf o |}.

Definition set_xf (v : option nat) (o : Xfoil) : Xfoil :=
  {| win := win o; xfoilpath := xfoilpath o; Re := Re o; Iter := Iter o;
     naca := naca o; name := name o; savepath := savepath o; input := input o;
     foil := foil o; alfs := alfs o; xf := v |}.

(** A method: it reads and updates the object and the world, and
    returns or raises. *)
Definition M (A : Type) : Type := Xfoil * world -> outcome A * (Xfoil * world).

#[global] Instance M_ret : MRet M := fun A a st => (Ret a, st).
#[global] Instance M_bind : MBind M := fun A B f m st =>
  match m st with
  | (Ret a, st') => f a st'
  | (Raise e, st') => (Raise e, st')
  end.

Definition lift {A} (x : outcome A) : M A := fun st => (x, st).
Definition raise {A} (e : exn) : M A := lift (Raise e).
Definition self : M Xfoil := fun st => (Ret (fst st), st).
Definition the_world : M world := fun st => (Ret (snd st), st).
Definition assign (f : Xfoil -> Xfoil) : M unit := fun st => (Ret tt, (f (fst st), snd st)).
Definition act (f : world -> world) : M unit := fun st => (Ret tt, (fst st, f (snd st))).

(** [sys.exit(ErrorMessage(txt))] *)
Definition exit_with (txt : string) : M unit :=
  msg ← lift (ErrorMessage txt); raise (SystemExit msg).

(** [for x in l: body(x)] *)
Fixpoint for_each {A} (l : list A) (body : A -> M unit) : M unit :=
  match l with
  | [] => mret tt
  | x :: r => body x;; for_each r body
  end.

(** The command and a line feed are added to the buffer. *)
Definition AddInput (cmd : string) : M unit :=
  line ← lift (str_format ("{}" +:+ nl) [VStr cmd]);
  assign (fun o => set_input (input o +:+ line) o).

(** The plotting menu, graphics off, back to the top menu. *)
Definition TurnOffGraphics : M unit :=
  AddInput "plop";;
  AddInput "g f";;
  AddInput "".

(** The NACA digits are loaded as they are; a geometry file must exist
    and hold two lines or more. *)
Definition LoadGeom : M unit :=
  o ← self;
  if naca o then
    cmd ← lift (str_format "naca {}" [VStr (foil o)]);
    AddInput cmd
  else
    w ← the_world;
    (if negb (isfile w (foil o)) then
       txt ← lift (str_format
                ("PYXFOIL ERROR: Geometry input file does not exist/"
                 +:+ "in wrong location" +:+ nl +:+ "({})") [VStr (foil o)]);
       exit_with txt
     else mret tt);;
    n ← lift (match files (fs w) !! foil o with
              | Some text => Ret (count_lines text)
              | None => Raise FileNotFoundError
              end);
    (if (n <? 2)%nat then
       txt ← lift (str_format
                ("PYXFOIL ERROR: Geometry input file is empty (no data)"
                 +:+ nl +:+ "Download or create new file: ({})") [VStr (foil o)]);
       exit_with txt
     else mret tt);;
    cmd ← lift (str_format "load {}" [VStr (foil o)]);
    AddInput cmd.

(** The three names, each a template filled from the object. *)
Definition SaveNameGeom (o : Xfoil) : outcome string :=
  str_format "{}/{}.dat" [VStr (savepath o); VStr (name o)].

Definition SaveNameSurfCp (o : Xfoil) (alf : pynum) : outcome string :=
  str_format "{}/{}_surfCP_Re{:1.2e}a{:1.1f}.dat"
    [VStr (savepath o); VStr (name o); VNum (Re o); VNum alf].

(** A bare number stands for the one-element list. *)
Definition as_sequence (a : angles) : list pynum :=
  match a with
  | Scalar alf => [alf]
  | Sequence l => l
  end.

(** [l[0]] and [l[-1]] *)
Definition first_item {A} (l : list A) : outcome A :=
  match l with
  | x :: _ => Ret x
  | [] => Raise IndexError
  end.
Definition last_item {A} (l : list A) : outcome A :=
  match rev l with
  | x :: _ => Ret x
  | [] => Raise IndexError
  end.

Definition SaveNamePolar (o : Xfoil) (alfs : angles) : outcome string :=
  let alfs := as_sequence alfs in
  alfrange ←
    (if (List.length alfs =? 1)%nat then
       a0 ← first_item alfs;
       str_format "a{:1.2f}" [VNum a0]
     else
       a0 ← first_item alfs;
       a1 ← last_item alfs;
       str_format "a{:1.1f}-{:1.1f}" [VNum a0; VNum a1]);
  str_format "{}/{}_polar_Re{:1.2e}{}.dat"
    [VStr (savepath o); VStr (name o); VNum (Re o); VStr alfrange].

(** The test reads: not a file, and [overwrite]. *)
Definition SaveGeom (overwrite : bool) : M unit :=
  o ← self;
  savename ← lift (SaveNameGeom o);
  w ← the_world;
  if negb (isfile w savename) && overwrite then
    cmd ← lift (str_format "save {}" [VStr savename]);
    AddInput cmd
  else mret tt.

(** The menu, the Reynolds number unless it is zero, the iterations. *)
Definition EnterOperMenu : M unit :=
  AddInput "oper";;
  o ← self;
  (if py_nonzero (Re o) then
     cmd ← lift (str_format "visc {}" [VNum (Re o)]);
     AddInput cmd
   else mret tt);;
  cmd ← lift (str_format "iter {}" [VNum (Iter o)]);
  AddInput cmd.

(** One angle, and the file of its surface pressures when asked for. *)
Definition SingleAlfa (alf : pynum) (SaveCP : bool) : M unit :=
  cmd ← lift (str_format "alfa {}" [VNum alf]);
  AddInput cmd;;
  if SaveCP then
    o ← self;
    savename ← lift (SaveNameSurfCp o alf);
    cmd ← lift (str_format "cpwr {}" [VStr savename]);
    AddInput cmd
  else mret tt.

(** [Polar] up to the accumulation commands: it stores the angles,
    enters the operations menu, names the polar file and removes it
    when it is to be overwritten. *)
Definition Polar_prepare (alfs : angles) (overwrite : bool) : M string :=
  let alfs := as_sequence alfs in
  assign (set_alfs (Some alfs));;
  EnterOperMenu;;
  o ← self;
  savename ← lift (SaveNamePolar o (Sequence alfs));
  w ← the_world;
  (if isfile w savename && overwrite then act (os_remove savename) else mret tt);;
  mret savename.

(** The rest of [Polar]: accumulation on, the polar file, no dump file,
    each angle, accumulation off. *)
Definition Polar_accumulate (savename : string) (alfs : angles) (SaveCP : bool) : M unit :=
  AddInput "pacc";;
  AddInput savename;;
  AddInput "";;
  for_each (as_sequence alfs) (fun alf => SingleAlfa alf SaveCP);;
  AddInput "pacc".

Definition Polar (alfs : angles) (SaveCP overwrite : bool) : M unit :=
  savename ← Polar_prepare alfs overwrite;
  Polar_accumulate savename alfs SaveCP.

(** Four blank lines lead to the top menu from any other. *)
Definition Quit : M unit :=
  AddInput "";;
  AddInput "";;
  AddInput "";;
  AddInput "";;
  AddInput "quit".

(** Where Xfoil.app keeps the executable. *)
Definition mac_xfoil : string := "/Applications/Xfoil.app/Contents/Resources/xfoil".

(** [Xfoil.__init__], run on the [blank] object. *)
Definition init (foil : string) (naca : bool) (Re Iter : pynum)
    (xfoilpath : option string) (headless : bool) : M unit :=
  w ← the_world;
  assign (set_win (IsItWindows w));;
  o ← self;
  match xfoilpath with
  | Some p => assign (set_xfoilpath p)
  | None =>
      if win o then
        assign (set_xfoilpath "xfoil.exe");;
        if negb (isfile w "xfoil.exe") then
          exit_with "PYXFOIL ERROR: Put xfoil.exe in same folder as pyxfoil.py"
        else mret tt
      else
        assign (set_xfoilpath mac_xfoil);;
        (if negb (isfile w mac_xfoil) then
           exit_with "PYXFOIL ERROR: Xfoil.app is not installed"
         else mret tt);;
        if negb (isfile w "/opt/X11/bin/xquartz") then
          msg ← lift (ErrorMessage "PYXFOIL ERROR: X11/xquartz not installed");
          act (print msg)
        else mret tt
  end;;
  assign (set_Re Re);;
  assign (set_Iter Iter);;
  assign (set_naca naca);;
  (if naca then assign (set_name ("naca" +:+ foil))
   else
     let parent := GetParentDir foil in
     nm ← lift (FindBetween foil (Some parent) (Some "\."));
     assign (set_name nm));;
  o ← self;
  sp ← lift (str_format "Data/{}" [VStr (name o)]);
  assign (set_savepath sp);;
  act (MakeOutputDir sp);;
  assign (set_input "");;
  (if headless then TurnOffGraphics else mret tt);;
  assign (set_foil foil);;
  LoadGeom.

Section ExternalTool.
(** The executable is opaque: given the path it was started by, its
    input and the file system, it leaves a file system and the text
    it wrote to its standard output. *)
Variable xfoil_program : string -> list Byte.byte -> filesystem -> filesystem * string.

(** A new process each time, fed the whole buffer; its output reaches
    the console unless [quiet].  [Popen] is modelled for a path that
    names a regular file, which is run, and for a path at which there
    is nothing; that it looks a bare name up on PATH, and what it
    raises for a directory, is outside the model. *)
Definition RunXfoil (quiet : bool) : M unit :=
  o ← self;
  w ← the_world;
  (if isfile w (xfoilpath o) then mret tt else raise FileNotFoundError);;
  assign (set_xf (Some (List.length (started w))));;
  let data := encode_utf8 (input o) in
  let '(fs', out) := xfoil_program (xfoilpath o) data (fs w) in
  act (fun w => with_started (started w ++ [{| exe := xfoilpath o; stdin_data := data |}]) w);;
  act (with_fs fs');;
  (if quiet then mret tt else act (print out));;
  if negb quiet then act (print (nl +:+ nl +:+ nl)) else mret tt.

Definition GetPolar (foil : string) (naca : bool) (alfs : angles) (Re : pynum)
    (SaveCP : bool) (Iter : pynum) (pane overwrite quiet : bool) : M unit :=
  init foil naca Re Iter None true;;
  (if pane then AddInput "pane" else mret tt);;
  SaveGeom true;;
  Polar alfs SaveCP overwrite;;
  Quit;;
  RunXfoil quiet.

Definition main (foil : string) (naca : bool) (alfs : list pynum) (Re Iter : pynum) : M unit :=
  init foil naca Re Iter None true;;
  SaveGeom true;;
  EnterOperMenu;;
  a0 ← lift (first_item alfs);
  SingleAlfa a0 true;;
  Polar (Sequence alfs) true true;;
  Quit;;
  RunXfoil true;;
  act (print "done").
End ExternalTool.

(** ** XFOIL file output *)

(** Left-aligned in the field width. *)
Definition pad_right (w : nat) (s : string) : string :=
  s +:+ spaces (w - String.length s).

(** [format(x, spec)] for the spec [<w.pf]: a left-aligned fixed-point
    number. *)
Definition format_left_fixed (w prec : nat) (x : pynum) : outcome string :=
  f ← as_float x;
  Ret (pad_right w (float_text Fixed prec f)).

(** One row of the file: four blanks and two columns, each fourteen
    wide with seven decimals, left-aligned. *)
Definition point_line (xx zz : pynum) : outcome string :=
  a ← format_left_fixed 14 7 xx;
  b ← format_left_fixed 14 7 zz;
  Ret ("    " +:+ a +:+ b +:+ nl).

(** [os.linesep]: what a text file holds for a line feed written. *)
Definition linesep (w : world) : string :=
  if IsItWindows w then String carriage_return nl else nl.

Fixpoint text_mode (w : world) (s : string) : string :=
  match s with
  | EmptyString => EmptyString
  | String c r =>
      (if Ascii.eqb c newline then linesep w else String c EmptyString) +:+ text_mode w r
  end.

Definition set_file (p text : string) (w : world) : world :=
  with_fs {| files := <[p := text]> (files (fs w)); dirs := dirs (fs w) |} w.

(** [open(p, 'w')]: the file is made, or emptied, when [p] names no
    directory (it does not end with a slash, either) and lies in one.
    The [OSError] raised otherwise depends on the platform and is not
    told apart. *)
Definition open_w (p : string) (w : world) : outcome unit * world :=
  if String.eqb (List.last (split "/" p) "") "" || isdir w p then (Raise Unsupported, w)
  else if isdir w (strip_slashes (GetParentDir p)) then (Ret tt, set_file p "" w)
  else (Raise Unsupported, w).

(** [ofile.write(s)] on the open file [p]. *)
Definition file_write (p s : string) (w : world) : world :=
  set_file p (default "" (files (fs w) !! p) +:+ text_mode w s) w.

(** The loop over [zip(x, z)]: a row that cannot be formatted ends it,
    and the rows before it stay written. *)
Fixpoint write_points (l : list (pynum * pynum)) (p : string) (w : world)
  : outcome unit * world :=
  match l with
  | [] => (Ret tt, w)
  | (xx, zz) :: r =>
      match point_line xx zz with
      | Ret line => write_points r p (file_write p line w)
      | Raise e => (Raise e, w)
      end
  end.

(** The title line is the word foil, whatever the file is called. *)
Definition WriteXfoilFile (fname : string) (x z : list pynum) (w : world)
  : outcome unit * world :=
  match open_w fname w with
  | (Ret _, w1) => write_points (combine x z) fname (file_write fname ("foil" +:+ nl) w1)
  | (Raise e, w1) => (Raise e, w1)
  end.

(** * Vocabulary of the statements

    Functions that say, outside the monad, what a method queues or
    leaves behind; the lemmas of the next part prove that the methods
    compute them.  Then the sessions and worlds of the examples. *)

(** The text of [ErrorMessage]. *)
Definition banner (text : string) : string :=
  nl +:+ nl +:+ stars +:+ nl +:+ text +:+ nl +:+ stars +:+ nl +:+ nl.

(** The texts of the two geometry errors of [LoadGeom]. *)
Definition missing_text (path : string) : string :=
  "PYXFOIL ERROR: Geometry input file does not exist/in wrong location"
  +:+ nl +:+ "(" +:+ path +:+ ")".

Definition empty_text (path : string) : string :=
  "PYXFOIL ERROR: Geometry input file is empty (no data)"
  +:+ nl +:+ "Download or create new file: (" +:+ path +:+ ")".

(** The commands of [EnterOperMenu]. *)
Definition oper_commands (o : Xfoil) : list string :=
  ["oper"] ++ (if py_nonzero (Re o) then ["visc " +:+ py_str (Re o)] else [])
  ++ ["iter " +:+ py_str (Iter o)].

(** The name of a surface-pressure file, given the texts of the
    Reynolds number and of the angle. *)
Definition surface_name (o : Xfoil) (r a : string) : string :=
  savepath o +:+ "/" +:+ name o +:+ "_surfCP_Re" +:+ r +:+ "a" +:+ a +:+ ".dat".

(** The name of a polar file, given the text of the angle range. *)
Definition polar_name (o : Xfoil) (range : string) : outcome string :=
  r ← py_format (VNum (Re o)) "1.2e";
  Ret (savepath o +:+ "/" +:+ name o +:+ "_polar_Re" +:+ r +:+ range +:+ ".dat").

(** The commands of the angle loop of [Polar], and the exception that
    ends it early, if any. *)
Fixpoint alfa_commands (o : Xfoil) (SaveCP : bool) (alfs : list pynum)
  : list string * option exn :=
  match alfs with
  | [] => ([], None)
  | alf :: r =>
      let line := "alfa " +:+ py_str alf in
      if SaveCP then
        match SaveNameSurfCp o alf with
        | Ret p =>
            let '(cs, e) := alfa_commands o SaveCP r in
            (line :: ("cpwr " +:+ p) :: cs, e)
        | Raise e => ([line], Some e)
        end
      else
        let '(cs, e) := alfa_commands o SaveCP r in (line :: cs, e)
  end.

Definition ended (e : option exn) : outcome unit :=
  match e with
  | None => Ret tt
  | Some e => Raise e
  end.

(** The commands of the accumulation bracket of [Polar]. *)
Definition polar_commands (o : Xfoil) (savename : string) (SaveCP : bool)
    (alfs : list pynum) : list string :=
  ["pacc"; savename; ""] ++ fst (alfa_commands o SaveCP alfs)
  ++ match snd (alfa_commands o SaveCP alfs) with None => ["pacc"] | Some _ => [] end.

(** The dependency check of [__init__] passes. *)
Definition executable_found (w : world) (xfoilpath : option string) : bool :=
  match xfoilpath with
  | Some _ => true
  | None => if IsItWindows w then isfile w "xfoil.exe" else isfile w mac_xfoil
  end.

(** The path [__init__] settles on. *)
Definition resolved_path (w : world) (xfoilpath : option string) : string :=
  match xfoilpath with
  | Some p => p
  | None => if IsItWindows w then "xfoil.exe" else mac_xfoil
  end.

(** The world after the dependency check: a warning is printed when the
    default Mac location is used and XQuartz is missing. *)
Definition checked (w : world) (xfoilpath : option string) : world :=
  match xfoilpath with
  | Some _ => w
  | None =>
      if IsItWindows w then w
      else if isfile w "/opt/X11/bin/xquartz" then w
      else print (banner "PYXFOIL ERROR: X11/xquartz not installed") w
  end.

(** The name [__init__] derives. *)
Definition derived_name (path : string) (naca : bool) : outcome string :=
  if naca then Ret ("naca" +:+ path)
  else FindBetween path (Some (GetParentDir path)) (Some "\.").

(** The object when [__init__] reaches [LoadGeom]. *)
Definition configured (w : world) (path : string) (naca : bool) (Re Iter : pynum)
    (xfoilpath : option string) (headless : bool) (nm : string) : Xfoil :=
  {| win := IsItWindows w; xfoilpath := resolved_path w xfoilpath; Re := Re; Iter := Iter;
     naca := naca; name := nm; savepath := "Data/" +:+ nm;
     input := if headless then unlines ["plop"; "g f"; ""] else "";
     foil := path; alfs := None; xf := None |}.

(** The builder methods, and [AddInput] under them. *)
Inductive builder :=
| DoAddInput (cmd : string)
| DoLoadGeom
| DoSaveGeom (overwrite : bool)
| DoEnterOperMenu
| DoSingleAlfa (alf : pynum) (SaveCP : bool)
| DoPolar (alfs : angles) (SaveCP overwrite : bool)
| DoQuit
| DoTurnOffGraphics.

Definition build (b : builder) : M unit :=
  match b with
  | DoAddInput cmd => AddInput cmd
  | DoLoadGeom => LoadGeom
  | DoSaveGeom overwrite => SaveGeom overwrite
  | DoEnterOperMenu => EnterOperMenu
  | DoSingleAlfa alf SaveCP => SingleAlfa alf SaveCP
  | DoPolar alfs SaveCP overwrite => Polar alfs SaveCP overwrite
  | DoQuit => Quit
  | DoTurnOffGraphics => TurnOffGraphics
  end.

(** [o'] holds the buffer of [o] and the commands [cs] after it. *)
Definition grown_by (cs : list string) (o o' : Xfoil) : Prop :=
  input o' = input o +:+ unlines cs.

(** What one run of [RunXfoil] hands to the executable. *)
Definition transmitted (o : Xfoil) : process :=
  {| exe := xfoilpath o; stdin_data := encode_utf8 (input o) |}.

(** A character that stands for itself in a pattern, or the dot. *)
Definition ordinary (c : ascii) : bool :=
  negb (is_special c || Ascii.eqb c "|" || Ascii.eqb c "\").

Definition plain (s : string) : bool := forallb ordinary (list_ascii_of_string s).

Definition not_dot (c : ascii) : bool := negb (Ascii.eqb c ".").

Definition dotless (s : string) : bool := forallb not_dot (list_ascii_of_string s).

(** The text after the last slash of a path. *)
Definition file_part (path : string) : string := List.last (split "/" path) "".

(** ** Sessions and worlds of the examples *)

(** The scenario: [Xfoil('0012', True, 0, 100, xfoilpath, True)],
    [SaveGeom()], [EnterOperMenu()], [Polar([0, 10])], [Quit()]. *)
Definition scenario (xfoilpath : option string) : M unit :=
  init "0012" true (PyInt 0) (PyInt 100) xfoilpath true;;
  SaveGeom true;;
  EnterOperMenu;;
  Polar (Sequence [PyInt 0; PyInt 10]) true true;;
  Quit.

(** What the buffer holds after the scenario. *)
Definition scenario_script : list string :=
  [ "plop"; "g f"; "";
    "naca 0012";
    "save Data/naca0012/naca0012.dat";
    "oper"; "iter 100";
    "oper"; "iter 100";
    "pacc"; "Data/naca0012/naca0012_polar_Re0.00e+00a0.0-10.0.dat"; "";
    "alfa 0"; "cpwr Data/naca0012/naca0012_surfCP_Re0.00e+00a0.0.dat";
    "alfa 10"; "cpwr Data/naca0012/naca0012_surfCP_Re0.00e+00a10.0.dat";
    "pacc";
    ""; ""; ""; ""; "quit" ].

(** The same with the menu entered once. *)
Definition listed_script : list string :=
  [ "plop"; "g f"; "";
    "naca 0012";
    "save Data/naca0012/naca0012.dat";
    "oper"; "iter 100";
    "pacc"; "Data/naca0012/naca0012_polar_Re0.00e+00a0.0-10.0.dat"; "";
    "alfa 0"; "cpwr Data/naca0012/naca0012_surfCP_Re0.00e+00a0.0.dat";
    "alfa 10"; "cpwr Data/naca0012/naca0012_surfCP_Re0.00e+00a10.0.dat";
    "pacc";
    ""; ""; ""; ""; "quit" ].

(** A world with the given files and their text, and nothing else. *)
Definition world_of (l : list (string * string)) : world :=
  {| os_name := "posix";
     fs := {| files := list_to_map l; dirs := ∅ |};
     console := []; started := [] |}.

Definition world_with (paths : list string) : world :=
  world_of (map (fun p => (p, "")) paths).

(** A Mac with Xfoil.app installed. *)
Definition mac_world : world := world_with [mac_xfoil].

(** The session of NACA 0012 after [__init__]. *)
Definition stored : Xfoil :=
  {| win := false; xfoilpath := "xfoil"; Re := PyInt 0; Iter := PyInt 100; naca := true;
     name := "naca0012"; savepath := "Data/naca0012";
     input := unlines ["plop"; "g f"; ""; "naca 0012"];
     foil := "0012"; alfs := None; xf := None |}.

(** A geometry file of two lines. *)
Definition two_lines : string := "s1223" +:+ nl +:+ " 1.0 0.0" +:+ nl.

(** An executable that writes nothing. *)
Definition silent_tool (path : string) (data : list Byte.byte) (f : filesystem)
  : filesystem * string := (f, "").

(** ** Paths *)

Definition not_slash (c : ascii) : bool := negb (Ascii.eqb c "/").

(** No slash in the text: one level of a path. *)
Definition slashless (s : string) : bool := forallb not_slash (list_ascii_of_string s).



Definition not_newline (c : ascii) : bool := negb (Ascii.eqb c newline).

(** No line feed in the text. *)
Definition one_line (s : string) : bool := forallb not_newline (list_ascii_of_string s).

(** One round of the loop of [MakeOutputDir]. *)
Definition make_level : string * world -> string -> string * world :=
  fun '(prestring, w) s =>
    let prestring := prestring +:+ s +:+ "/" in
    (prestring, snd (os_mkdir prestring w)).



(** ** What [__init__] queues *)

(** The lines of [TurnOffGraphics], when asked for. *)
Definition graphics_block (headless : bool) : list string :=
  if headless then ["plop"; "g f"; ""] else [].

(** The line of [LoadGeom]. *)
Definition load_command (path : string) (naca : bool) : string :=
  (if naca then "naca " else "load ") +:+ path.

(** The messages of the dependency check. *)
Definition missing_executable_text (w : world) : string :=
  if IsItWindows w then "PYXFOIL ERROR: Put xfoil.exe in same folder as pyxfoil.py"
  else "PYXFOIL ERROR: Xfoil.app is not installed".

(** ** What [Polar] queues when it returns *)

(** The number is a float, or an int that [float()] accepts. *)
Definition converts (x : pynum) : bool :=
  match as_float x with Ret _ => true | Raise _ => false end.

(** The commands of one angle. *)
Definition angle_lines (o : Xfoil) (SaveCP : bool) (alf : pynum) : list string :=
  ("alfa " +:+ py_str alf) ::
  (if SaveCP then
     match SaveNameSurfCp o alf with Ret p => ["cpwr " +:+ p] | Raise _ => [] end
   else []).

(** The commands of a polar: the menu, accumulation on, the polar
    file, no dump file, the angles in turn, accumulation off. *)
Definition polar_script (o : Xfoil) (savename : string) (SaveCP : bool)
    (alfs : list pynum) : list string :=
  oper_commands o ++ ["pacc"; savename; ""]
  ++ concat (map (angle_lines o SaveCP) alfs) ++ ["pacc"].

(** How often a command is among the commands. *)
Definition occurrences (c : string) (l : list string) : nat :=
  List.length (List.filter (String.eqb c) l).

(** ** The text of a geometry file *)

Definition is_break (c : ascii) : bool := Ascii.eqb c newline || Ascii.eqb c carriage_return.

(** No line feed and no carriage return in the text. *)
Definition unbroken (s : string) : bool :=
  forallb (fun c => negb (is_break c)) (list_ascii_of_string s).

(** The rows of the points, one after the other. *)
Fixpoint points_text (l : list (pynum * pynum)) : outcome string :=
  match l with
  | [] => Ret ""
  | (xx, zz) :: r =>
      line ← point_line xx zz;
      rest ← points_text r;
      Ret (line +:+ rest)
  end.

(** * Properties *)

(** ** Strings *)

Lemma append_cons c (a b : string) : String c a +:+ b = String c (a +:+ b).
Proof. reflexivity. Qed.

Lemma append_nil_l (s : string) : "" +:+ s = s.
Proof. reflexivity. Qed.

Lemma append_nil_r (s : string) : s +:+ "" = s.
Proof. induction s as [|c s IH]; [reflexivity | now rewrite append_cons, IH]. Qed.

Lemma append_assoc (a b c : string) : (a +:+ b) +:+ c = a +:+ (b +:+ c).
Proof. induction a as [|x a IH]; [reflexivity | now rewrite !append_cons, IH]. Qed.

Create Rewrite HintDb str.
#[local] Hint Rewrite append_cons append_nil_l append_nil_r append_assoc : str.

Lemma prefix_append (s t : string) : String.prefix s (s +:+ t) = true.
Proof.
  induction s as [|c s IH].
  - destruct t; reflexivity.
  - rewrite append_cons. simpl.
    destruct (ascii_dec c c) as [_|n]; [exact IH | now destruct n].
Qed.

Lemma unlines_app (a b : list string) : unlines (a ++ b) = unlines a +:+ unlines b.
Proof.
  induction a as [|x a IH]; [reflexivity|].
  cbn [app unlines]. rewrite IH. now autorewrite with str.
Qed.

Lemma chars_append (a b : string) :
  list_ascii_of_string (a +:+ b) = list_ascii_of_string a ++ list_ascii_of_string b.
Proof.
  induction a as [|c a IH]; [reflexivity|].
  rewrite append_cons. cbn [list_ascii_of_string app]. now rewrite IH.
Qed.

Lemma chars_length (s : string) : List.length (list_ascii_of_string s) = String.length s.
Proof. induction s as [|c s IH]; [reflexivity|]. cbn. now rewrite IH. Qed.

Lemma last_default {A} (l : list A) (c d d' : A) :
  List.last (c :: l) d = List.last (c :: l) d'.
Proof. revert c. induction l as [|b l IH]; intros c; [reflexivity|]. exact (IH b). Qed.

Lemma last_item_cons {A} (a : A) (l : list A) : last_item (a :: l) = Ret (List.last l a).
Proof.
  unfold last_item. revert a. induction l as [|b l IH]; intros a; [reflexivity|].
  specialize (IH b). cbn [rev] in *.
  destruct (rev l ++ [b]) as [|x r] eqn:E; [discriminate IH|].
  cbn [app]. injection IH as ->.
  destruct l; [reflexivity | f_equal; apply (last_default l)].
Qed.

(** ** Numbers: what the formats print *)

Example format_int_scientific :
  py_format (VNum (PyInt 200000)) "1.2e" = Ret "2.00e+05".
Proof. reflexivity. Qed.

Example format_int_fixed : py_format (VNum (PyInt 10)) "1.1f" = Ret "10.0".
Proof. reflexivity. Qed.

Example format_tie_to_even : py_format (VNum (PyInt 99950)) "1.2e" = Ret "1.00e+05".
Proof. reflexivity. Qed.

(** [2.5] and [0.1], the latter as the binary64 value nearest to it. *)
Example format_float_fixed :
  py_format (VNum (PyFloat (S754_finite false 5 (-1)))) "1.2f" = Ret "2.50" /\
  py_format (VNum (PyFloat (S754_finite false 3602879701896397 (-55)))) "1.1f" = Ret "0.1".
Proof. split; reflexivity. Qed.

Example str_of_numbers :
  py_str (PyInt (-12)) = "-12" /\
  py_str (PyFloat (S754_finite false 5 (-1))) = "2.5" /\
  py_str (PyFloat (S754_finite false 3602879701896397 (-55))) = "0.1" /\
  py_str (PyFloat (S754_finite false 200000 0)) = "200000.0" /\
  py_str (PyFloat (S754_finite false 1 60)) = "1.152921504606847e+18".
Proof. repeat split; vm_compute; reflexivity. Qed.

Example format_huge_int_overflows :
  py_format (VNum (PyInt (10 ^ 400))) "1.2e" = Raise OverflowError.
Proof. vm_compute. reflexivity. Qed.

(** ** Templates *)

Lemma py_format_str s : py_format (VStr s) "" = Ret s.
Proof. reflexivity. Qed.

Lemma py_format_num x : py_format (VNum x) "" = Ret (py_str x).
Proof. reflexivity. Qed.

#[local] Arguments py_format : simpl never.
#[local] Arguments py_str : simpl never.

(** Parse the template, render it, and flatten the text. *)
Ltac format_eval :=
  unfold str_format;
  match goal with
  | |- context [parse_template ?n ?t] =>
      let v := eval vm_compute in (parse_template n t) in
      change (parse_template n t) with v
  end;
  cbn;
  repeat (rewrite ?py_format_str, ?py_format_num; cbn);
  autorewrite with str.

Lemma format_line (cmd : string) : str_format ("{}" +:+ nl) [VStr cmd] = Ret (cmd +:+ nl).
Proof. reflexivity. Qed.

Lemma format_naca s : str_format "naca {}" [VStr s] = Ret ("naca " +:+ s).
Proof. now format_eval. Qed.

Lemma format_load s : str_format "load {}" [VStr s] = Ret ("load " +:+ s).
Proof. now format_eval. Qed.

Lemma format_save s : str_format "save {}" [VStr s] = Ret ("save " +:+ s).
Proof. now format_eval. Qed.

Lemma format_cpwr s : str_format "cpwr {}" [VStr s] = Ret ("cpwr " +:+ s).
Proof. now format_eval. Qed.

Lemma format_data s : str_format "Data/{}" [VStr s] = Ret ("Data/" +:+ s).
Proof. now format_eval. Qed.

Lemma format_visc x : str_format "visc {}" [VNum x] = Ret ("visc " +:+ py_str x).
Proof. now format_eval. Qed.

Lemma format_iter x : str_format "iter {}" [VNum x] = Ret ("iter " +:+ py_str x).
Proof. now format_eval. Qed.

Lemma format_alfa x : str_format "alfa {}" [VNum x] = Ret ("alfa " +:+ py_str x).
Proof. now format_eval. Qed.

Lemma format_missing path :
  str_format ("PYXFOIL ERROR: Geometry input file does not exist/"
              +:+ "in wrong location" +:+ nl +:+ "({})") [VStr path]
  = Ret (missing_text path).
Proof. unfold missing_text. format_eval. unfold nl. now autorewrite with str. Qed.

Lemma format_empty path :
  str_format ("PYXFOIL ERROR: Geometry input file is empty (no data)"
              +:+ nl +:+ "Download or create new file: ({})") [VStr path]
  = Ret (empty_text path).
Proof. unfold empty_text. format_eval. unfold nl. now autorewrite with str. Qed.

Lemma ErrorMessage_banner text : ErrorMessage text = Ret (banner text).
Proof.
  unfold ErrorMessage, banner. format_eval. unfold nl, stars. now autorewrite with str.
Qed.

Lemma format_polar o range :
  str_format "{}/{}_polar_Re{:1.2e}{}.dat"
    [VStr (savepath o); VStr (name o); VNum (Re o); VStr range] = polar_name o range.
Proof.
  unfold polar_name. format_eval.
  destruct (py_format (VNum (Re o)) "1.2e"); cbn; [|reflexivity].
  now autorewrite with str.
Qed.

Lemma format_single a :
  str_format "a{:1.2f}" [VNum a] = t ← py_format (VNum a) "1.2f"; Ret ("a" +:+ t).
Proof.
  format_eval. destruct (py_format (VNum a) "1.2f"); cbn; [|reflexivity].
  now autorewrite with str.
Qed.

Lemma format_range a b :
  str_format "a{:1.1f}-{:1.1f}" [VNum a; VNum b] =
  t ← py_format (VNum a) "1.1f"; u ← py_format (VNum b) "1.1f"; Ret ("a" +:+ t +:+ "-" +:+ u).
Proof.
  format_eval. destruct (py_format (VNum a) "1.1f"); cbn; [|reflexivity].
  destruct (py_format (VNum b) "1.1f"); cbn; [|reflexivity].
  now autorewrite with str.
Qed.

(** ** Names of the output files *)

Lemma SaveNameGeom_eq o : SaveNameGeom o = Ret (savepath o +:+ "/" +:+ name o +:+ ".dat").
Proof. unfold SaveNameGeom. now format_eval. Qed.

Lemma SaveNameSurfCp_eq o alf :
  SaveNameSurfCp o alf =
  r ← py_format (VNum (Re o)) "1.2e";
  a ← py_format (VNum alf) "1.1f";
  Ret (surface_name o r a).
Proof.
  unfold SaveNameSurfCp, surface_name. format_eval.
  destruct (py_format (VNum (Re o)) "1.2e"); cbn; [|reflexivity].
  destruct (py_format (VNum alf) "1.1f"); cbn; [|reflexivity].
  now autorewrite with str.
Qed.

Lemma SaveNamePolar_single o a :
  SaveNamePolar o (Sequence [a]) =
  t ← py_format (VNum a) "1.2f"; polar_name o ("a" +:+ t).
Proof.
  unfold SaveNamePolar. cbn [as_sequence List.length Nat.eqb first_item].
  cbn [mbind outcome_bind obind]. rewrite format_single.
  destruct (py_format (VNum a) "1.2f"); cbn [mbind outcome_bind obind]; [|reflexivity].
  apply format_polar.
Qed.

Lemma SaveNamePolar_range o a b rest :
  SaveNamePolar o (Sequence (a :: b :: rest)) =
  t ← py_format (VNum a) "1.1f";
  u ← py_format (VNum (List.last (b :: rest) a)) "1.1f";
  polar_name o ("a" +:+ t +:+ "-" +:+ u).
Proof.
  unfold SaveNamePolar. cbn [as_sequence List.length Nat.eqb first_item].
  rewrite last_item_cons. cbn [mbind outcome_bind obind]. rewrite format_range.
  destruct (py_format (VNum a) "1.1f"); cbn [mbind outcome_bind obind]; [|reflexivity].
  destruct (py_format (VNum (List.last (b :: rest) a)) "1.1f");
    cbn [mbind outcome_bind obind]; [|reflexivity].
  apply format_polar.
Qed.

Lemma SaveNamePolar_under o alfs p :
  SaveNamePolar o alfs = Ret p -> exists rest, p = savepath o +:+ "/" +:+ rest.
Proof.
  unfold SaveNamePolar.
  match goal with |- mbind _ ?x = _ -> _ => destruct x as [range|e] end;
    [|discriminate].
  change (str_format "{}/{}_polar_Re{:1.2e}{}.dat"
            [VStr (savepath o); VStr (name o); VNum (Re o); VStr range] = Ret p ->
          exists rest, p = savepath o +:+ "/" +:+ rest).
  rewrite format_polar. unfold polar_name.
  destruct (py_format (VNum (Re o)) "1.2e") as [r|e]; [|discriminate].
  intros H. injection H as <-. eexists. reflexivity.
Qed.

Lemma SaveNameSurfCp_under o alf p :
  SaveNameSurfCp o alf = Ret p -> exists rest, p = savepath o +:+ "/" +:+ rest.
Proof.
  rewrite SaveNameSurfCp_eq.
  destruct (py_format (VNum (Re o)) "1.2e") as [r|e]; [|discriminate].
  destruct (py_format (VNum alf) "1.1f") as [a|e]; [|discriminate].
  intros H. injection H as <-. eexists. reflexivity.
Qed.

Example polar_name_keeps_the_order :
  SaveNamePolar stored (Sequence [PyInt 10; PyInt 5; PyInt 0])
  = Ret "Data/naca0012/naca0012_polar_Re0.00e+00a10.0-0.0.dat".
Proof. vm_compute. reflexivity. Qed.

Example polar_name_of_a_scalar :
  SaveNamePolar stored (Scalar (PyInt 4)) = Ret "Data/naca0012/naca0012_polar_Re0.00e+00a4.00.dat".
Proof. vm_compute. reflexivity. Qed.

Example polar_name_of_nothing : SaveNamePolar stored (Sequence []) = Raise IndexError.
Proof. reflexivity. Qed.

(** ** Running a method *)

#[local] Arguments str_format : simpl never.
#[local] Arguments ErrorMessage : simpl never.
#[local] Arguments MakeOutputDir : simpl never.
#[local] Arguments isfile : simpl never.
#[local] Arguments FindBetween : simpl never.
#[local] Arguments GetParentDir : simpl never.
#[local] Arguments SaveNameGeom : simpl never.
#[local] Arguments SaveNameSurfCp : simpl never.
#[local] Arguments SaveNamePolar : simpl never.
#[local] Arguments encode_utf8 : simpl never.

Lemma run_bind {A B} (m : M A) (f : A -> M B) st :
  (m ≫= f) st =
  match m st with
  | (Ret a, st') => f a st'
  | (Raise e, st') => (Raise e, st')
  end.
Proof. reflexivity. Qed.

Lemma run_ret {A} (a : A) st : (mret a : M A) st = (Ret a, st).
Proof. reflexivity. Qed.

Lemma run_lift {A} (x : outcome A) st : lift x st = (x, st).
Proof. reflexivity. Qed.

Lemma run_self st : self st = (Ret (fst st), st).
Proof. reflexivity. Qed.

Lemma run_the_world st : the_world st = (Ret (snd st), st).
Proof. reflexivity. Qed.

Lemma run_assign f st : assign f st = (Ret tt, (f (fst st), snd st)).
Proof. reflexivity. Qed.

Lemma run_act f st : act f st = (Ret tt, (fst st, f (snd st))).
Proof. reflexivity. Qed.

Lemma run_raise {A} e st : @raise A e st = (Raise e, st).
Proof. reflexivity. Qed.

Lemma exit_with_run txt st : exit_with txt st = (Raise (SystemExit (banner txt)), st).
Proof. unfold exit_with. now rewrite run_bind, run_lift, ErrorMessage_banner. Qed.

Lemma set_input_twice a b o : set_input a (set_input b o) = set_input a o.
Proof. reflexivity. Qed.

Lemma input_set_input a o : input (set_input a o) = a.
Proof. reflexivity. Qed.

Lemma input_set_alfs a o : input (set_alfs a o) = input o.
Proof. reflexivity. Qed.

Lemma set_input_same o : set_input (input o) o = o.
Proof. now destruct o. Qed.

Lemma SaveNameSurfCp_set_input a o alf :
  SaveNameSurfCp (set_input a o) alf = SaveNameSurfCp o alf.
Proof. reflexivity. Qed.

Lemma SaveNamePolar_set_input a o alfs :
  SaveNamePolar (set_input a o) alfs = SaveNamePolar o alfs.
Proof. reflexivity. Qed.

Lemma SaveNamePolar_set_alfs a o alfs :
  SaveNamePolar (set_alfs a o) alfs = SaveNamePolar o alfs.
Proof. reflexivity. Qed.

Lemma SaveNamePolar_as_sequence o alfs :
  SaveNamePolar o (Sequence (as_sequence alfs)) = SaveNamePolar o alfs.
Proof. reflexivity. Qed.

Lemma oper_commands_set_alfs a o : oper_commands (set_alfs a o) = oper_commands o.
Proof. reflexivity. Qed.

Lemma oper_commands_set_input a o : oper_commands (set_input a o) = oper_commands o.
Proof. reflexivity. Qed.

Lemma AddInput_run cmd o w :
  AddInput cmd (o, w) = (Ret tt, (set_input (input o +:+ cmd +:+ nl) o, w)).
Proof. unfold AddInput. now rewrite run_bind, run_lift, format_line. Qed.

Create Rewrite HintDb run.
#[local] Hint Rewrite @run_bind @run_ret @run_lift run_self run_the_world run_assign run_act
  @run_raise exit_with_run AddInput_run set_input_twice input_set_input input_set_alfs
  SaveNameSurfCp_set_input SaveNamePolar_set_input SaveNamePolar_set_alfs
  SaveNamePolar_as_sequence oper_commands_set_alfs oper_commands_set_input : run.

(** Step through the binds of a method. *)
Ltac mrun := repeat (autorewrite with run; cbn [fst snd]).

(** Compare two buffers. *)
Ltac strings := unfold unlines; autorewrite with str; try reflexivity.

Lemma TurnOffGraphics_run o w :
  TurnOffGraphics (o, w)
  = (Ret tt, (set_input (input o +:+ unlines ["plop"; "g f"; ""]) o, w)).
Proof. unfold TurnOffGraphics. mrun. now strings. Qed.

Lemma Quit_run o w :
  Quit (o, w) = (Ret tt, (set_input (input o +:+ unlines [""; ""; ""; ""; "quit"]) o, w)).
Proof. unfold Quit. mrun. now strings. Qed.

Lemma EnterOperMenu_run o w :
  EnterOperMenu (o, w) = (Ret tt, (set_input (input o +:+ unlines (oper_commands o)) o, w)).
Proof.
  unfold EnterOperMenu, oper_commands. mrun. cbn [Re Iter set_input].
  destruct (py_nonzero (Re o)); mrun; rewrite ?format_visc, ?format_iter; mrun;
    cbn [app]; now strings.
Qed.

Lemma SaveGeom_run overwrite o w :
  SaveGeom overwrite (o, w) =
  (Ret tt,
   (if negb (isfile w (savepath o +:+ "/" +:+ name o +:+ ".dat")) && overwrite
    then set_input
           (input o +:+ unlines ["save " +:+ savepath o +:+ "/" +:+ name o +:+ ".dat"]) o
    else o, w)).
Proof.
  unfold SaveGeom. mrun. rewrite SaveNameGeom_eq. mrun.
  destruct (negb _ && overwrite); mrun; [|reflexivity].
  rewrite format_save. mrun. now strings.
Qed.

Lemma SingleAlfa_run alf SaveCP o w :
  SingleAlfa alf SaveCP (o, w) =
  if SaveCP then
    match SaveNameSurfCp o alf with
    | Ret p =>
        (Ret tt,
         (set_input (input o +:+ unlines ["alfa " +:+ py_str alf; "cpwr " +:+ p]) o, w))
    | Raise e => (Raise e, (set_input (input o +:+ unlines ["alfa " +:+ py_str alf]) o, w))
    end
  else (Ret tt, (set_input (input o +:+ unlines ["alfa " +:+ py_str alf]) o, w)).
Proof.
  unfold SingleAlfa. mrun. rewrite format_alfa. mrun.
  destruct SaveCP; mrun; [|now strings].
  destruct (SaveNameSurfCp o alf); mrun; [|now strings].
  rewrite format_cpwr. mrun. now strings.
Qed.

Lemma isfile_lookup w p :
  isfile w p = match files (fs w) !! p with Some _ => true | None => false end.
Proof.
  unfold isfile. destruct (files (fs w) !! p) eqn:E.
  - apply bool_decide_eq_true. eauto.
  - apply bool_decide_eq_false. intros [x Hx]. discriminate.
Qed.

Lemma isfile_os_remove p w : isfile (os_remove p w) p = false.
Proof. rewrite isfile_lookup. cbn. now rewrite lookup_delete_eq. Qed.

Lemma LoadGeom_naca o w :
  naca o = true ->
  LoadGeom (o, w) = (Ret tt, (set_input (input o +:+ unlines ["naca " +:+ foil o]) o, w)).
Proof.
  intros H. unfold LoadGeom. mrun. rewrite H, format_naca. mrun. now strings.
Qed.

Lemma LoadGeom_file o w :
  naca o = false ->
  LoadGeom (o, w) =
  match files (fs w) !! foil o with
  | None => (Raise (SystemExit (banner (missing_text (foil o)))), (o, w))
  | Some text =>
      if (count_lines text <? 2)%nat
      then (Raise (SystemExit (banner (empty_text (foil o)))), (o, w))
      else (Ret tt, (set_input (input o +:+ unlines ["load " +:+ foil o]) o, w))
  end.
Proof.
  intros H. unfold LoadGeom. mrun. rewrite H. mrun. rewrite isfile_lookup.
  destruct (files (fs w) !! foil o) as [text|]; cbn [negb]; mrun.
  - destruct (count_lines text <? 2)%nat; mrun.
    + now rewrite format_empty; mrun.
    + rewrite format_load. mrun. now strings.
  - now rewrite format_missing; mrun.
Qed.

Lemma LoadGeom_keeps o w : exists s, fst (snd (LoadGeom (o, w))) = set_input s o.
Proof.
  destruct (naca o) eqn:Hn.
  - rewrite LoadGeom_naca by exact Hn. eexists. reflexivity.
  - rewrite LoadGeom_file by exact Hn.
    destruct (files (fs w) !! foil o) as [text|].
    + destruct (count_lines text <? 2)%nat; cbn [fst snd];
        [exists (input o); now rewrite set_input_same | eexists; reflexivity].
    + exists (input o). cbn [fst snd]. now rewrite set_input_same.
Qed.

(** ** What [Polar] queues *)

Lemma alfa_commands_set_input a o cp alfs :
  alfa_commands (set_input a o) cp alfs = alfa_commands o cp alfs.
Proof.
  induction alfs as [|alf r IH]; [reflexivity|].
  cbn [alfa_commands]. now rewrite IH, SaveNameSurfCp_set_input.
Qed.

Lemma alfa_commands_set_alfs a o cp alfs :
  alfa_commands (set_alfs a o) cp alfs = alfa_commands o cp alfs.
Proof.
  induction alfs as [|alf r IH]; [reflexivity|].
  cbn [alfa_commands]. now rewrite IH.
Qed.

Lemma for_each_SingleAlfa_run alfs cp o w :
  for_each alfs (fun alf => SingleAlfa alf cp) (o, w) =
  (ended (snd (alfa_commands o cp alfs)),
   (set_input (input o +:+ unlines (fst (alfa_commands o cp alfs))) o, w)).
Proof.
  revert o. induction alfs as [|alf r IH]; intros o.
  - cbn [for_each alfa_commands fst snd unlines ended]. mrun.
    now rewrite append_nil_r, set_input_same.
  - cbn [for_each alfa_commands]. rewrite run_bind, SingleAlfa_run.
    destruct cp.
    + destruct (SaveNameSurfCp o alf) as [p|e]; [|reflexivity].
      rewrite IH, alfa_commands_set_input.
      destruct (alfa_commands o true r) as [cs e]. cbn [fst snd]. mrun.
      cbn [unlines]. now autorewrite with str.
    + rewrite IH, alfa_commands_set_input.
      destruct (alfa_commands o false r) as [cs e]. cbn [fst snd]. mrun.
      cbn [unlines]. now autorewrite with str.
Qed.

Lemma Polar_prepare_run alfs overwrite o w :
  Polar_prepare alfs overwrite (o, w) =
  let o1 := set_input (input o +:+ unlines (oper_commands o))
              (set_alfs (Some (as_sequence alfs)) o) in
  match SaveNamePolar o alfs with
  | Ret p => (Ret p, (o1, if isfile w p && overwrite then os_remove p w else w))
  | Raise e => (Raise e, (o1, w))
  end.
Proof.
  unfold Polar_prepare. mrun. rewrite EnterOperMenu_run. mrun.
  destruct (SaveNamePolar o alfs) as [p|e]; mrun; [|reflexivity].
  destruct (isfile w p && overwrite); mrun; reflexivity.
Qed.

Lemma Polar_accumulate_run savename alfs cp o w :
  Polar_accumulate savename alfs cp (o, w) =
  (ended (snd (alfa_commands o cp (as_sequence alfs))),
   (set_input (input o +:+ unlines (polar_commands o savename cp (as_sequence alfs))) o, w)).
Proof.
  unfold Polar_accumulate, polar_commands. mrun.
  rewrite for_each_SingleAlfa_run, !alfa_commands_set_input.
  destruct (alfa_commands o cp (as_sequence alfs)) as [cs [e|]]; cbn [fst snd ended]; mrun;
    rewrite !unlines_app; cbn [unlines]; now autorewrite with str.
Qed.

Lemma Polar_run alfs cp overwrite o w :
  Polar alfs cp overwrite (o, w) =
  let o1 := set_alfs (Some (as_sequence alfs)) o in
  match SaveNamePolar o alfs with
  | Raise e => (Raise e, (set_input (input o +:+ unlines (oper_commands o)) o1, w))
  | Ret p =>
      (ended (snd (alfa_commands o cp (as_sequence alfs))),
       (set_input
          (input o +:+
           unlines (oper_commands o ++ polar_commands o p cp (as_sequence alfs))) o1,
        if isfile w p && overwrite then os_remove p w else w))
  end.
Proof.
  unfold Polar. rewrite run_bind, Polar_prepare_run. cbv zeta.
  destruct (SaveNamePolar o alfs) as [p|e]; [|reflexivity].
  rewrite Polar_accumulate_run. mrun. unfold polar_commands.
  rewrite !alfa_commands_set_input, !alfa_commands_set_alfs, !unlines_app.
  now autorewrite with str.
Qed.

(** ** The world under [__init__] *)

Lemma files_os_mkdir p w : files (fs (snd (os_mkdir p w))) = files (fs w).
Proof.
  unfold os_mkdir.
  destruct (isdir w (strip_slashes p) || isfile w (strip_slashes p)); [reflexivity|].
  destruct (isdir w _); reflexivity.
Qed.

Lemma mkdir_each_keeps_files (l : list string) (pre : string) (w : world) :
  files (fs (snd (fold_left
                    (fun '(prestring, w) s =>
                       let prestring := prestring +:+ s +:+ "/" in
                       (prestring, snd (os_mkdir prestring w)))
                    l (pre, w))))
  = files (fs w).
Proof.
  revert pre w. induction l as [|s l IH]; intros pre w; cbn [fold_left snd].
  - reflexivity.
  - pose proof (IH (pre +:+ s +:+ "/") (snd (os_mkdir (pre +:+ s +:+ "/") w))) as H.
    cbv zeta in H |- *. now rewrite H, files_os_mkdir.
Qed.

Lemma files_MakeOutputDir savedir w : files (fs (MakeOutputDir savedir w)) = files (fs w).
Proof. apply mkdir_each_keeps_files. Qed.

Lemma files_checked w xfoilpath : files (fs (checked w xfoilpath)) = files (fs w).
Proof.
  unfold checked. destruct xfoilpath; [reflexivity|].
  destruct (IsItWindows w); [reflexivity|].
  destruct (isfile w "/opt/X11/bin/xquartz"); reflexivity.
Qed.

Lemma isfile_MakeOutputDir savedir w p : isfile (MakeOutputDir savedir w) p = isfile w p.
Proof. unfold isfile. now rewrite files_MakeOutputDir. Qed.

Lemma isfile_checked w xfoilpath p : isfile (checked w xfoilpath) p = isfile w p.
Proof. unfold isfile. now rewrite files_checked. Qed.

Example MakeOutputDir_makes_each_level :
  dirs (fs (MakeOutputDir "Data/naca0012" mac_world)) = {[ "Data"; "Data/naca0012" ]} /\
  MakeOutputDir "Data/naca0012" (MakeOutputDir "Data/naca0012" mac_world)
  = MakeOutputDir "Data/naca0012" mac_world.
Proof. split; vm_compute; reflexivity. Qed.

(** From the name on, [__init__] is the same on every branch. *)
Ltac name_and_buffer Hn :=
  match goal with
  | |- context [if ?naca then assign _ else _] => destruct naca
  end;
  mrun;
  [ injection Hn as <- | rewrite Hn; mrun ];
  rewrite format_data; mrun;
  match goal with
  | |- context [if ?headless then TurnOffGraphics else _] => destruct headless
  end;
  mrun; rewrite ?TurnOffGraphics_run; mrun; reflexivity.

Lemma init_reaches_LoadGeom path naca Re Iter xfoilpath headless w nm :
  executable_found w xfoilpath = true ->
  derived_name path naca = Ret nm ->
  init path naca Re Iter xfoilpath headless (blank, w) =
  LoadGeom (configured w path naca Re Iter xfoilpath headless nm,
            MakeOutputDir ("Data/" +:+ nm) (checked w xfoilpath)).
Proof.
  intros Hx Hn. unfold init, configured, derived_name in *. mrun. cbn [win set_win].
  destruct xfoilpath as [p|]; cbn [executable_found resolved_path checked] in *; mrun.
  - name_and_buffer Hn.
  - destruct (IsItWindows w); mrun; rewrite Hx; cbn [negb]; mrun.
    + name_and_buffer Hn.
    + destruct (isfile w "/opt/X11/bin/xquartz"); cbn [negb]; mrun;
        rewrite ?ErrorMessage_banner; mrun; name_and_buffer Hn.
Qed.

Lemma init_without_executable path naca Re Iter headless w :
  executable_found w None = false ->
  exists txt o,
    init path naca Re Iter None headless (blank, w) = (Raise (SystemExit (banner txt)), (o, w))
    /\ input o = "".
Proof.
  intros Hx. unfold init. mrun. cbn [win set_win]. cbn [executable_found] in Hx.
  destruct (IsItWindows w); mrun; rewrite Hx; cbn [negb]; mrun;
    eexists; eexists; split; reflexivity.
Qed.

(** ** The pattern of [FindBetween] *)

Example name_of_a_geometry_file :
  FindBetween "Data/s1223.dat" (Some (GetParentDir "Data/s1223.dat")) (Some "\.")
  = Ret "s1223" /\
  FindBetween "s1223.dat" (Some (GetParentDir "s1223.dat")) (Some "\.") = Ret "s1223" /\
  FindBetween "a.b/c.d.e" (Some (GetParentDir "a.b/c.d.e")) (Some "\.") = Ret "c" /\
  FindBetween "Data/s1223" (Some (GetParentDir "Data/s1223")) (Some "\.") = Ret "No Match".
Proof. repeat split; vm_compute; reflexivity. Qed.

Example name_of_odd_directories :
  FindBetween "x|yy/f.dat" (Some (GetParentDir "x|yy/f.dat")) (Some "\.") = Raise re_error /\
  FindBetween "a|/f.d" (Some (GetParentDir "a|/f.d")) (Some "\.") = Ret "|/f" /\
  FindBetween "c++/f.d" (Some (GetParentDir "c++/f.d")) (Some "\.") = Raise Unsupported.
Proof. repeat split; vm_compute; reflexivity. Qed.

Lemma parse_plain s :
  plain s = true ->
  exists b, parse_pattern s = Ret [b] /\ List.length b = String.length s.
Proof.
  unfold plain. induction s as [|c s IH]; intros H.
  - exists []. split; reflexivity.
  - cbn [list_ascii_of_string forallb] in H. apply andb_prop in H as [Hc Hs].
    destruct (IH Hs) as (b & Hb & Hl).
    unfold ordinary in Hc. apply negb_true_iff in Hc.
    apply orb_false_elim in Hc as [Hc Hback].
    apply orb_false_elim in Hc as [Hspecial Hbar].
    cbn [parse_pattern]. rewrite Hbar, Hback, Hspecial, Hb. cbn [obind push_atom].
    destruct (Ascii.eqb c "."); eexists; (split; [reflexivity|]); cbn; now rewrite Hl.
Qed.

Lemma match_atoms_length b cs r :
  match_atoms b cs = Some r -> List.length cs = (List.length b + List.length r)%nat.
Proof.
  revert cs. induction b as [|a b IH]; intros cs H; cbn [match_atoms] in H.
  - now injection H as ->.
  - destruct cs as [|c cs]; [discriminate|].
    destruct (atom_matches a c); [|discriminate].
    cbn [List.length]. now rewrite (IH _ H).
Qed.

(** The look-behind needs as many characters as the pattern is wide. *)
Lemma look_behind_length b seen :
  look_behind [b] seen = true -> (List.length b <= List.length seen)%nat.
Proof.
  unfold look_behind. cbn [existsb]. rewrite orb_false_r. intros H.
  apply bool_decide_eq_true in H as [r Hr]. apply match_atoms_length in Hr.
  rewrite length_rev in Hr. lia.
Qed.

(** The look-ahead for a dot fails where no dot is left. *)
Lemma lazy_value_dotless s :
  forallb not_dot s = true -> lazy_value [[Lit "."]] s = None.
Proof.
  induction s as [|c s IH]; intros H; [reflexivity|].
  cbn [forallb] in H. apply andb_prop in H as [Hc Hs].
  cbn [lazy_value look_ahead existsb match_atoms atom_matches].
  unfold not_dot in Hc. apply negb_true_iff in Hc.
  rewrite Ascii.eqb_sym in Hc. rewrite Hc. cbn.
  destruct (Ascii.eqb c newline); [reflexivity|]. now rewrite (IH Hs).
Qed.

(** No match when every dot lies within the first [length b]
    characters of the text. *)
Lemma search_between_dotless b seen s :
  forallb not_dot (skipn (List.length b - List.length seen) s) = true ->
  search_between [b] [[Lit "."]] seen s = None.
Proof.
  revert seen. induction s as [|c s IH]; intros seen H.
  - cbn [search_between]. destruct (look_behind [b] seen); reflexivity.
  - cbn [search_between].
    assert (E : (if look_behind [b] seen then lazy_value [[Lit "."]] (c :: s) else None)
                = None).
    { destruct (look_behind [b] seen) eqn:L; [|reflexivity].
      apply look_behind_length in L.
      replace (List.length b - List.length seen)%nat with 0%nat in H by lia.
      now apply lazy_value_dotless. }
    rewrite E. apply IH. cbn [List.length].
    destruct (List.length b - List.length seen)%nat as [|k] eqn:K.
    + replace (List.length b - S (List.length seen))%nat with 0%nat by lia.
      cbn [skipn forallb] in *. now apply andb_prop in H as [_ H].
    + replace (List.length b - S (List.length seen))%nat with k by lia. exact H.
Qed.

Lemma split_nonempty sep s : split sep s <> [].
Proof.
  destruct s as [|c s]; cbn [split]; [discriminate|].
  destruct (Ascii.eqb c sep); [discriminate|]. destruct (split sep s); discriminate.
Qed.

Lemma parent_and_file_from acc s :
  fold_left (fun parent x => parent +:+ x +:+ "/") (but_last (split "/" s)) acc
  +:+ List.last (split "/" s) "" = acc +:+ s.
Proof.
  revert acc. induction s as [|c s IH]; intros acc; [reflexivity|].
  cbn [split]. destruct (Ascii.eqb c "/") eqn:Ec.
  - apply Ascii.eqb_eq in Ec as ->.
    pose proof (split_nonempty "/" s) as Hne.
    destruct (split "/" s) as [|w ws] eqn:Es; [contradiction|].
    unfold but_last in *. cbn [removelast fold_left List.last] in *.
    rewrite IH. now autorewrite with str.
  - pose proof (split_nonempty "/" s) as Hne.
    destruct (split "/" s) as [|w ws] eqn:Es; [contradiction|].
    unfold but_last in *. destruct ws as [|w' ws].
    + cbn [removelast fold_left List.last] in *.
      specialize (IH ""). rewrite !append_nil_l in IH. now subst.
    + cbn [removelast fold_left List.last] in *.
      specialize (IH (acc +:+ String c "")). autorewrite with str in IH.
      now autorewrite with str.
Qed.

(** A path is its parent directory followed by its file part. *)
Lemma parent_and_file path : GetParentDir path +:+ file_part path = path.
Proof. unfold GetParentDir, file_part. now rewrite parent_and_file_from. Qed.

Lemma FindBetween_no_extension path :
  plain (GetParentDir path) = true ->
  dotless (file_part path) = true ->
  FindBetween path (Some (GetParentDir path)) (Some "\.") = Ret "No Match".
Proof.
  intros Hp Hd. unfold FindBetween. cbn [py_str_opt].
  destruct (parse_plain _ Hp) as (b & Hb & Hl). rewrite Hb.
  change (parse_pattern "\.") with (Ret [[Lit "."]]).
  cbn [obind fixed_width forallb].
  rewrite search_between_dotless; [reflexivity|].
  rewrite <- (parent_and_file path) at 1. rewrite chars_append.
  cbn [List.length]. rewrite Nat.sub_0_r, Hl, <- chars_length, skipn_app, skipn_all.
  rewrite Nat.sub_diag. exact Hd.
Qed.

(** ** The scenario: initialise, save, enter the menu, run a polar, quit *)

(** C1, as listed, fails.  On a Mac with Xfoil.app and no geometry file
    on disk the scenario returns, and its buffer is not the listed
    script: [oper] and [iter 100] are there twice, not once. *)
Lemma scenario_listed_script_fails :
  isfile mac_world "Data/naca0012/naca0012.dat" = false /\
  fst (scenario None (blank, mac_world)) = Ret tt /\
  commands (input (fst (snd (scenario None (blank, mac_world))))) <> listed_script /\
  count_command "oper" (input (fst (snd (scenario None (blank, mac_world))))) <> 1%nat /\
  count_command "iter 100" (input (fst (snd (scenario None (blank, mac_world))))) <> 1%nat.
Proof. vm_compute. repeat split; discriminate. Qed.

(** C1, amended.  Whenever the executable is found and the geometry
    file is absent, the scenario returns with the buffer holding, in
    order: the three graphics lines, [naca 0012], the save command,
    [oper] and [iter 100] from [EnterOperMenu], [oper] and [iter 100]
    again from [Polar], the accumulation bracket with the two angles and
    their pressure files, four blank lines and [quit]; [oper] and
    [iter 100] are there exactly twice. *)
Theorem scenario_buffer xfoilpath w :
  executable_found w xfoilpath = true ->
  isfile w "Data/naca0012/naca0012.dat" = false ->
  exists o w',
    scenario xfoilpath (blank, w) = (Ret tt, (o, w')) /\
    input o = unlines scenario_script /\
    commands (input o) = scenario_script /\
    count_command "oper" (input o) = 2%nat /\
    count_command "iter 100" (input o) = 2%nat.
Proof.
  intros Hx Hg. unfold scenario.
  rewrite run_bind,
    (init_reaches_LoadGeom "0012" true (PyInt 0) (PyInt 100) xfoilpath true w "naca0012"
       Hx eq_refl).
  rewrite LoadGeom_naca by reflexivity.
  rewrite run_bind, SaveGeom_run.
  cbn [savepath name configured set_input input]. autorewrite with str.
  rewrite isfile_MakeOutputDir, isfile_checked, Hg. cbn [negb andb].
  rewrite run_bind, EnterOperMenu_run, run_bind, Polar_run. cbv zeta.
  rewrite !SaveNamePolar_set_input.
  match goal with
  | |- context [SaveNamePolar ?o ?a] =>
      let r := eval vm_compute in (SaveNamePolar o a) in change (SaveNamePolar o a) with r
  end.
  cbv iota beta.
  match goal with
  | |- context [alfa_commands ?o ?c ?a] =>
      let r := eval vm_compute in (alfa_commands o c a) in
      change (alfa_commands o c a) with r
  end.
  cbn [snd ended]. rewrite Quit_run.
  eexists. eexists. split; [reflexivity|].
  repeat split; vm_compute; reflexivity.
Qed.

(** The scenario on a Mac with Xfoil.app and an empty working directory. *)
Lemma scenario_buffer_witness :
  executable_found mac_world None = true /\
  isfile mac_world "Data/naca0012/naca0012.dat" = false /\
  exists o w',
    scenario None (blank, mac_world) = (Ret tt, (o, w')) /\
    input o = unlines scenario_script /\
    commands (input o) = scenario_script /\
    count_command "oper" (input o) = 2%nat /\
    count_command "iter 100" (input o) = 2%nat.
Proof.
  split; [reflexivity|]. split; [reflexivity|].
  apply (scenario_buffer None mac_world); reflexivity.
Defined.

(** ** SaveGeom *)

(** C2.  With the geometry file on disk, [SaveGeom(overwrite=True)]
    leaves the buffer as it was: no save command is queued.  Nor is
    one queued by [SaveGeom(overwrite=False)] when the file is absent. *)
Theorem SaveGeom_overwrite_existing :
  let w := world_with ["Data/naca0012/naca0012.dat"] in
  SaveNameGeom stored = Ret "Data/naca0012/naca0012.dat" /\
  isfile w "Data/naca0012/naca0012.dat" = true /\
  SaveGeom true (stored, w) = (Ret tt, (stored, w)) /\
  isfile (world_with []) "Data/naca0012/naca0012.dat" = false /\
  SaveGeom false (stored, world_with []) = (Ret tt, (stored, world_with [])).
Proof. vm_compute. repeat split. Qed.

(** What the code does in general: the save command is queued when the
    file is absent and [overwrite] is set, and only then. *)
Lemma SaveGeom_queues_iff overwrite o w p :
  SaveNameGeom o = Ret p ->
  SaveGeom overwrite (o, w) =
  (Ret tt,
   (if negb (isfile w p) && overwrite then set_input (input o +:+ "save " +:+ p +:+ nl) o
    else o, w)).
Proof.
  intros Hp. rewrite SaveNameGeom_eq in Hp. injection Hp as <-. rewrite SaveGeom_run.
  destruct (negb _ && overwrite); [|reflexivity]. cbn [unlines]. now autorewrite with str.
Qed.

(** ** EnterOperMenu *)

(** C6.  [EnterOperMenu] appends [oper], then one [visc <Re>] command
    when [Re != 0] and none when [Re == 0], then [iter <N>], and
    nothing else: [oper] is first and [iter <N>] is last. *)
Theorem EnterOperMenu_commands o w :
  let visc := if py_nonzero (Re o) then ["visc " +:+ py_str (Re o)] else [] in
  let cmds := ["oper"] ++ visc ++ ["iter " +:+ py_str (Iter o)] in
  EnterOperMenu (o, w) = (Ret tt, (set_input (input o +:+ unlines cmds) o, w)) /\
  List.length visc = (if py_nonzero (Re o) then 1 else 0)%nat /\
  List.length (List.filter (String.prefix "visc ") cmds)
    = (if py_nonzero (Re o) then 1 else 0)%nat /\
  List.head cmds = Some "oper" /\
  List.last cmds "" = "iter " +:+ py_str (Iter o).
Proof.
  cbv zeta. split; [apply EnterOperMenu_run|].
  destruct (py_nonzero (Re o)); cbn [app List.length List.filter List.head List.last];
    rewrite ?prefix_append; repeat split; reflexivity.
Qed.

Example EnterOperMenu_viscous :
  let o := set_Re (PyFloat (S754_finite false 200000 0)) stored in
  fst (snd (EnterOperMenu (o, mac_world))) =
  set_input (input o +:+ unlines ["oper"; "visc 200000.0"; "iter 100"]) o.
Proof. vm_compute. reflexivity. Qed.

(** ** The names of the polar and of the pressure files *)

(** C4.  The name of the polar file of a sequence [first :: rest] is
    built from [first] alone, with two decimals, when there is nothing
    else, and otherwise from [first] and the last element, each with
    one decimal and a hyphen between them, in the order given. *)
Theorem SaveNamePolar_first_last o first rest :
  SaveNamePolar o (Sequence (first :: rest)) =
  match rest with
  | [] =>
      t ← py_format (VNum first) "1.2f";
      polar_name o ("a" +:+ t)
  | _ :: _ =>
      t ← py_format (VNum first) "1.1f";
      u ← py_format (VNum (List.last rest first)) "1.1f";
      polar_name o ("a" +:+ t +:+ "-" +:+ u)
  end.
Proof.
  destruct rest as [|b rest]; [apply SaveNamePolar_single | apply SaveNamePolar_range].
Qed.

(** C5, as stated, fails: the name has no underscore between the
    Reynolds number and the angle. *)
Lemma SaveNameSurfCp_separator_fails :
  SaveNameSurfCp stored (PyInt 0) = Ret "Data/naca0012/naca0012_surfCP_Re0.00e+00a0.0.dat" /\
  SaveNameSurfCp stored (PyInt 0) <> Ret "Data/naca0012/naca0012_surfCP_Re0.00e+00_a0.0.dat".
Proof. vm_compute. split; [reflexivity | discriminate]. Qed.

(** C5, amended.  When the Reynolds number prints as [r] in format
    [1.2e] and the angle as [a] in format [1.1f], the name of the
    pressure file is the output directory, a slash, the airfoil name,
    [_surfCP_Re], [r], the letter a, [a] and [.dat], with nothing
    between [r] and the letter. *)
Theorem SaveNameSurfCp_no_separator o alf r a :
  py_format (VNum (Re o)) "1.2e" = Ret r ->
  py_format (VNum alf) "1.1f" = Ret a ->
  SaveNameSurfCp o alf =
  Ret (savepath o +:+ "/" +:+ name o +:+ "_surfCP_Re" +:+ r +:+ "a" +:+ a +:+ ".dat").
Proof. intros Hr Ha. rewrite SaveNameSurfCp_eq, Hr, Ha. reflexivity. Qed.

(** The pressure file of NACA 0012 at ten degrees. *)
Lemma SaveNameSurfCp_no_separator_witness :
  py_format (VNum (Re stored)) "1.2e" = Ret "0.00e+00" /\
  py_format (VNum (PyInt 10)) "1.1f" = Ret "10.0" /\
  SaveNameSurfCp stored (PyInt 10) =
  Ret (savepath stored +:+ "/" +:+ name stored +:+ "_surfCP_Re" +:+ "0.00e+00" +:+ "a"
       +:+ "10.0" +:+ ".dat").
Proof.
  split; [reflexivity|]. split; [reflexivity|].
  apply (SaveNameSurfCp_no_separator stored (PyInt 10)); reflexivity.
Defined.

(** ** Polar *)

(** C7.  When the polar file named for the angles exists and
    [overwrite] is set, [Polar], up to the point where it queues the
    first [pacc], has removed the file and queued only the commands of
    [EnterOperMenu]; [pacc] is the next command queued, in a world
    without the file, and the file is still absent when [Polar] ends. *)
Theorem Polar_removes_before_pacc alfs SaveCP o w p :
  SaveNamePolar o alfs = Ret p ->
  isfile w p = true ->
  exists o1 w1,
    Polar_prepare alfs true (o, w) = (Ret p, (o1, w1)) /\
    input o1 = input o +:+ unlines (oper_commands o) /\
    isfile w1 p = false /\
    Polar alfs SaveCP true (o, w) = Polar_accumulate p alfs SaveCP (o1, w1) /\
    Polar_accumulate p alfs SaveCP (o1, w1) =
      (AddInput p;; AddInput "";;
       for_each (as_sequence alfs) (fun alf => SingleAlfa alf SaveCP);;
       AddInput "pacc") (set_input (input o1 +:+ "pacc" +:+ nl) o1, w1) /\
    isfile (snd (snd (Polar alfs SaveCP true (o, w)))) p = false.
Proof.
  intros Hp Hf.
  exists (set_input (input o +:+ unlines (oper_commands o))
            (set_alfs (Some (as_sequence alfs)) o)), (os_remove p w).
  assert (E : Polar_prepare alfs true (o, w) =
              (Ret p, (set_input (input o +:+ unlines (oper_commands o))
                         (set_alfs (Some (as_sequence alfs)) o), os_remove p w))).
  { rewrite Polar_prepare_run, Hp, Hf. reflexivity. }
  split; [exact E|]. split; [reflexivity|]. split; [apply isfile_os_remove|].
  split; [unfold Polar; now rewrite run_bind, E|].
  split; [unfold Polar_accumulate; now rewrite run_bind, AddInput_run|].
  rewrite Polar_run, Hp, Hf. cbv zeta. cbn [snd andb]. apply isfile_os_remove.
Qed.

(** A polar of NACA 0012 whose file is on disk. *)
Lemma Polar_removes_before_pacc_witness :
  let w := world_with ["Data/naca0012/naca0012_polar_Re0.00e+00a0.0-10.0.dat"] in
  let alfs := Sequence [PyInt 0; PyInt 10] in
  let p := "Data/naca0012/naca0012_polar_Re0.00e+00a0.0-10.0.dat" in
  SaveNamePolar stored alfs = Ret p /\
  isfile w p = true /\
  exists o1 w1,
    Polar_prepare alfs true (stored, w) = (Ret p, (o1, w1)) /\
    input o1 = input stored +:+ unlines (oper_commands stored) /\
    isfile w1 p = false /\
    Polar alfs true true (stored, w) = Polar_accumulate p alfs true (o1, w1) /\
    Polar_accumulate p alfs true (o1, w1) =
      (AddInput p;; AddInput "";;
       for_each (as_sequence alfs) (fun alf => SingleAlfa alf true);;
       AddInput "pacc") (set_input (input o1 +:+ "pacc" +:+ nl) o1, w1) /\
    isfile (snd (snd (Polar alfs true true (stored, w)))) p = false.
Proof.
  cbv zeta. split; [reflexivity|]. split; [reflexivity|].
  apply Polar_removes_before_pacc; reflexivity.
Defined.

(** Without [overwrite] the file stays. *)
Example Polar_keeps_without_overwrite :
  let w := world_with ["Data/naca0012/naca0012_polar_Re0.00e+00a0.0-10.0.dat"] in
  snd (snd (Polar (Sequence [PyInt 0; PyInt 10]) true false (stored, w))) = w.
Proof. vm_compute. reflexivity. Qed.

(** ** The buffer only grows *)

Lemma grown_by_nil o : grown_by [] o o.
Proof. unfold grown_by. cbn [unlines]. now rewrite append_nil_r. Qed.

Lemma grown_by_set_input cs o o0 : grown_by cs o (set_input (input o +:+ unlines cs) o0).
Proof. reflexivity. Qed.

Lemma grown_by_AddInput cmd o : grown_by [cmd] o (set_input (input o +:+ cmd +:+ nl) o).
Proof. unfold grown_by. cbn [unlines input set_input]. now autorewrite with str. Qed.

Create HintDb grow.
#[local] Hint Resolve grown_by_nil grown_by_set_input grown_by_AddInput : grow.

Ltac grow := cbn [fst snd]; eauto with grow.

(** Every builder leaves the old buffer followed by whole command
    lines, whether it returns or raises. *)
Lemma build_grows b o w : exists cs, grown_by cs o (fst (snd (build b (o, w)))).
Proof.
  destruct b as [cmd| |ow| |alf cp|alfs cp ow| |]; cbn [build].
  - rewrite AddInput_run. grow.
  - destruct (naca o) eqn:Hn.
    + rewrite LoadGeom_naca by exact Hn. grow.
    + rewrite LoadGeom_file by exact Hn.
      destruct (files (fs w) !! foil o) as [text|]; [|grow].
      destruct (count_lines text <? 2)%nat; grow.
  - rewrite SaveGeom_run. destruct (negb _ && ow); grow.
  - rewrite EnterOperMenu_run. grow.
  - rewrite SingleAlfa_run. destruct cp; [|grow].
    destruct (SaveNameSurfCp o alf); grow.
  - rewrite Polar_run. cbv zeta. destruct (SaveNamePolar o alfs); grow.
  - rewrite Quit_run. grow.
  - rewrite TurnOffGraphics_run. grow.
Qed.

(** C9.  For each of [LoadGeom], [SaveGeom], [EnterOperMenu],
    [SingleAlfa], [Polar], [Quit] and [TurnOffGraphics] (and [AddInput]
    under them), in every state and for every argument, the buffer
    before the call is a prefix of the buffer after it. *)
Theorem builders_only_append b o w :
  String.prefix (input o) (input (fst (snd (build b (o, w))))) = true.
Proof.
  destruct (build_grows b o w) as [cs H]. rewrite H. apply prefix_append.
Qed.

(** ** RunXfoil *)

Section Flush.
Variable tool : string -> list Byte.byte -> filesystem -> filesystem * string.

Lemma RunXfoil_run quiet o w :
  isfile w (xfoilpath o) = true ->
  exists w',
    RunXfoil tool quiet (o, w) = (Ret tt, (set_xf (Some (List.length (started w))) o, w')) /\
    started w' = started w ++ [transmitted o] /\
    fs w' = fst (tool (xfoilpath o) (encode_utf8 (input o)) (fs w)).
Proof.
  intros Hx. unfold RunXfoil. mrun. rewrite Hx. mrun.
  destruct (tool (xfoilpath o) (encode_utf8 (input o)) (fs w)) as [fs' out] eqn:E.
  mrun. destruct quiet; cbn [negb]; mrun; eexists; (split; [reflexivity|]); split;
    reflexivity.
Qed.

Lemma RunXfoil_keeps_buffer quiet o w :
  input (fst (snd (RunXfoil tool quiet (o, w)))) = input o.
Proof.
  destruct (isfile w (xfoilpath o)) eqn:Hx.
  - destruct (RunXfoil_run quiet o w Hx) as (w' & E & _). now rewrite E.
  - unfold RunXfoil. mrun. rewrite Hx. now mrun.
Qed.

(** C3, amended.  [RunXfoil] leaves the buffer as it is, and each call
    that finds the executable starts it once more with the whole
    buffer: after a second call the executable has been started twice
    on the same input. *)
Theorem RunXfoil_transmits_again q1 q2 o w :
  isfile w (xfoilpath o) = true ->
  isfile (snd (snd (RunXfoil tool q1 (o, w)))) (xfoilpath o) = true ->
  let st1 := snd (RunXfoil tool q1 (o, w)) in
  let st2 := snd (RunXfoil tool q2 st1) in
  input (fst st1) = input o /\
  started (snd st1) = started w ++ [transmitted o] /\
  input (fst st2) = input o /\
  started (snd st2) = started w ++ [transmitted o; transmitted o].
Proof.
  intros H1 H2. cbv zeta.
  destruct (RunXfoil_run q1 o w H1) as (w1 & E1 & S1 & _).
  rewrite E1 in H2 |- *. cbn [fst snd] in *.
  destruct (RunXfoil_run q2 (set_xf (Some (List.length (started w))) o) w1 H2)
    as (w2 & E2 & S2 & _).
  rewrite E2. cbn [fst snd]. rewrite S2, S1, <- app_assoc. repeat split; reflexivity.
Qed.
End Flush.

(** Two flushes of the session of NACA 0012, the executable writing nothing. *)
Lemma RunXfoil_transmits_again_witness :
  let w := world_with ["xfoil"] in
  isfile w (xfoilpath stored) = true /\
  isfile (snd (snd (RunXfoil silent_tool true (stored, w)))) (xfoilpath stored) = true /\
  let st1 := snd (RunXfoil silent_tool true (stored, w)) in
  let st2 := snd (RunXfoil silent_tool true st1) in
  input (fst st1) = input stored /\
  started (snd st1) = started w ++ [transmitted stored] /\
  input (fst st2) = input stored /\
  started (snd st2) = started w ++ [transmitted stored; transmitted stored].
Proof.
  cbv zeta. split; [reflexivity|]. split; [reflexivity|].
  apply (RunXfoil_transmits_again silent_tool true true stored (world_with ["xfoil"]));
    reflexivity.
Defined.

(** C3, as stated, fails: the second flush of a session returns and
    has started a second process, which received the whole buffer. *)
Lemma second_flush_transmits :
  let w := world_with ["xfoil"] in
  let st1 := snd (RunXfoil silent_tool true (stored, w)) in
  let st2 := snd (RunXfoil silent_tool true st1) in
  fst (RunXfoil silent_tool true st1) = Ret tt /\
  started (snd st2) <> started (snd st1) /\
  List.length (started (snd st1)) = 1%nat /\
  List.length (started (snd st2)) = 2%nat /\
  option_map stdin_data (List.nth_error (started (snd st2)) 1)
    = Some (encode_utf8 (unlines ["plop"; "g f"; ""; "naca 0012"])).
Proof. vm_compute. repeat split; discriminate. Qed.

Example GetPolar_pipes_the_script :
  let st := GetPolar silent_tool "0012" true (Scalar (PyInt 4)) (PyInt 0) false (PyInt 100)
              true true true (blank, mac_world) in
  fst st = Ret tt /\
  map stdin_data (started (snd (snd st))) = [encode_utf8 (input (fst (snd st)))] /\
  commands (input (fst (snd st))) =
  [ "plop"; "g f"; ""; "naca 0012"; "pane"; "save Data/naca0012/naca0012.dat";
    "oper"; "iter 100"; "pacc"; "Data/naca0012/naca0012_polar_Re0.00e+00a4.00.dat"; "";
    "alfa 4"; "pacc"; ""; ""; ""; ""; "quit" ].
Proof. vm_compute. repeat split. Qed.

(** ** Errors of [__init__] *)

(** C8, as stated, fails: with [headless] set and the geometry file
    missing, the error is raised with three commands in the buffer. *)
Lemma init_error_after_graphics :
  let st := init "Data/s1223.dat" false (PyInt 0) (PyInt 100) (Some "xfoil") true
              (blank, world_with ["xfoil"]) in
  isfile (world_with ["xfoil"]) "Data/s1223.dat" = false /\
  (exists msg, fst st = Raise (SystemExit msg)) /\
  input (fst (snd st)) = unlines ["plop"; "g f"; ""] /\
  input (fst (snd st)) <> "".
Proof.
  vm_compute. split; [reflexivity|]. split; [eexists; reflexivity|].
  split; [reflexivity | discriminate].
Qed.

(** C8, amended.  For a geometry file, once the executable is found and
    the name is derived: if the file is missing, or has fewer than two
    lines, [__init__] exits with the formatted message that names the
    file, before the load command is queued; the buffer is then empty
    without [headless] and holds the three graphics lines with it. *)
Theorem init_rejects_geometry path Re Iter xfoilpath headless w nm :
  executable_found w xfoilpath = true ->
  FindBetween path (Some (GetParentDir path)) (Some "\.") = Ret nm ->
  (files (fs w) !! path = None \/
   exists text, files (fs w) !! path = Some text /\ (count_lines text < 2)%nat) ->
  exists txt msg o w',
    txt = (if isfile w path
           then "PYXFOIL ERROR: Geometry input file is empty (no data)"
                +:+ nl +:+ "Download or create new file: (" +:+ path +:+ ")"
           else "PYXFOIL ERROR: Geometry input file does not exist/in wrong location"
                +:+ nl +:+ "(" +:+ path +:+ ")") /\
    ErrorMessage txt = Ret msg /\
    init path false Re Iter xfoilpath headless (blank, w) = (Raise (SystemExit msg), (o, w')) /\
    input o = (if headless then unlines ["plop"; "g f"; ""] else "").
Proof.
  intros Hx Hn Hf.
  rewrite (init_reaches_LoadGeom path false Re Iter xfoilpath headless w nm Hx Hn).
  rewrite LoadGeom_file by reflexivity. cbn [foil configured].
  rewrite files_MakeOutputDir, files_checked, isfile_lookup.
  destruct Hf as [Hf | (text & Hf & Hlt)]; rewrite Hf.
  - do 4 eexists. split; [reflexivity|]. split; [apply ErrorMessage_banner|].
    split; reflexivity.
  - apply Nat.ltb_lt in Hlt. rewrite Hlt.
    do 4 eexists. split; [reflexivity|]. split; [apply ErrorMessage_banner|].
    split; reflexivity.
Qed.

(** A geometry file of one line. *)
Lemma init_rejects_geometry_witness :
  let w := world_of [("xfoil", ""); ("Data/s1223.dat", "s1223" +:+ nl)] in
  executable_found w (Some "xfoil") = true /\
  FindBetween "Data/s1223.dat" (Some (GetParentDir "Data/s1223.dat")) (Some "\.")
    = Ret "s1223" /\
  (files (fs w) !! "Data/s1223.dat" = None \/
   exists text, files (fs w) !! "Data/s1223.dat" = Some text /\ (count_lines text < 2)%nat) /\
  exists txt msg o w',
    txt = (if isfile w "Data/s1223.dat"
           then "PYXFOIL ERROR: Geometry input file is empty (no data)"
                +:+ nl +:+ "Download or create new file: (" +:+ "Data/s1223.dat" +:+ ")"
           else "PYXFOIL ERROR: Geometry input file does not exist/in wrong location"
                +:+ nl +:+ "(" +:+ "Data/s1223.dat" +:+ ")") /\
    ErrorMessage txt = Ret msg /\
    init "Data/s1223.dat" false (PyInt 0) (PyInt 100) (Some "xfoil") false (blank, w)
      = (Raise (SystemExit msg), (o, w')) /\
    input o = (if false then unlines ["plop"; "g f"; ""] else "").
Proof.
  cbv zeta.
  assert (H : files (fs (world_of [("xfoil", ""); ("Data/s1223.dat", "s1223" +:+ nl)]))
              !! "Data/s1223.dat" = None \/
              exists text,
                files (fs (world_of [("xfoil", ""); ("Data/s1223.dat", "s1223" +:+ nl)]))
                !! "Data/s1223.dat" = Some text /\ (count_lines text < 2)%nat).
  { right. exists ("s1223" +:+ nl). split; [reflexivity | vm_compute; lia]. }
  split; [reflexivity|]. split; [reflexivity|]. split; [exact H|].
  apply (init_rejects_geometry "Data/s1223.dat" (PyInt 0) (PyInt 100) (Some "xfoil") false
           (world_of [("xfoil", ""); ("Data/s1223.dat", "s1223" +:+ nl)]) "s1223");
    [reflexivity | reflexivity | exact H].
Defined.

Example init_accepts_two_lines :
  let w := world_of [("xfoil", ""); ("Data/s1223.dat", two_lines)] in
  let st := init "Data/s1223.dat" false (PyInt 0) (PyInt 100) (Some "xfoil") true (blank, w) in
  fst st = Ret tt /\
  name (fst (snd st)) = "s1223" /\
  commands (input (fst (snd st))) = ["plop"; "g f"; ""; "load Data/s1223.dat"].
Proof. vm_compute. repeat split. Qed.

(** ** The name of a file without an extension *)

(** C10.  For the geometry file [a/|./f], whose file part [f] has no
    dot, [__init__] returns with the name [|] and not [No Match], and
    the geometry file of the session is [Data/|/|.dat]: the parent
    directory is pasted into the look-behind as it stands, where it
    reads as the two alternatives [a/] and [./], and the first of them
    is followed in the path by a bar and a dot. *)
Lemma name_from_alternation :
  let path := "a/|./f" in
  let w := world_of [("xfoil", ""); (path, two_lines)] in
  let st := init path false (PyInt 0) (PyInt 100) (Some "xfoil") true (blank, w) in
  GetParentDir path = "a/|./" /\ file_part path = "f" /\ dotless (file_part path) = true /\
  fst st = Ret tt /\
  name (fst (snd st)) = "|" /\ name (fst (snd st)) <> "No Match" /\
  SaveNameGeom (fst (snd st)) = Ret "Data/|/|.dat".
Proof. vm_compute. repeat split; discriminate. Qed.

(** Where the parent directory reads as itself, the name is as meant.
    For a geometry file whose parent directory is made of characters
    that stand for themselves in a pattern, and dots, and whose file
    part has no dot: once the executable is found, [__init__] leaves
    the name [No Match], and every output path of the session lies
    under [Data/No Match/]. *)
Theorem init_name_without_extension path Re Iter xfoilpath headless w :
  executable_found w xfoilpath = true ->
  plain (GetParentDir path) = true ->
  dotless (file_part path) = true ->
  let o := fst (snd (init path false Re Iter xfoilpath headless (blank, w))) in
  name o = "No Match" /\
  savepath o = "Data/No Match" /\
  SaveNameGeom o = Ret "Data/No Match/No Match.dat" /\
  (forall alf p, SaveNameSurfCp o alf = Ret p -> String.prefix "Data/No Match/" p = true) /\
  (forall alfs p, SaveNamePolar o alfs = Ret p -> String.prefix "Data/No Match/" p = true).
Proof.
  intros Hx Hp Hd. cbv zeta.
  rewrite (init_reaches_LoadGeom path false Re Iter xfoilpath headless w "No Match" Hx
             (FindBetween_no_extension path Hp Hd)).
  destruct (LoadGeom_keeps (configured w path false Re Iter xfoilpath headless "No Match")
              (MakeOutputDir ("Data/" +:+ "No Match") (checked w xfoilpath))) as [s ->].
  split; [reflexivity|]. split; [reflexivity|]. split; [reflexivity|].
  split.
  - intros alf p H. apply SaveNameSurfCp_under in H as [rest ->].
    change (savepath _ +:+ "/" +:+ rest) with ("Data/No Match/" +:+ rest).
    apply prefix_append.
  - intros alfs p H. apply SaveNamePolar_under in H as [rest ->].
    change (savepath _ +:+ "/" +:+ rest) with ("Data/No Match/" +:+ rest).
    apply prefix_append.
Qed.

(** A geometry file without extension in a sibling directory. *)
Lemma init_name_without_extension_witness :
  let path := "../foils/s1223" in
  let w := world_of [("xfoil", ""); (path, two_lines)] in
  executable_found w (Some "xfoil") = true /\
  plain (GetParentDir path) = true /\
  dotless (file_part path) = true /\
  fst (init path false (PyInt 0) (PyInt 100) (Some "xfoil") true (blank, w)) = Ret tt /\
  let o := fst (snd (init path false (PyInt 0) (PyInt 100) (Some "xfoil") true (blank, w))) in
  name o = "No Match" /\
  savepath o = "Data/No Match" /\
  SaveNameGeom o = Ret "Data/No Match/No Match.dat" /\
  (forall alf p, SaveNameSurfCp o alf = Ret p -> String.prefix "Data/No Match/" p = true) /\
  (forall alfs p, SaveNamePolar o alfs = Ret p -> String.prefix "Data/No Match/" p = true).
Proof.
  cbv zeta. split; [reflexivity|]. split; [reflexivity|]. split; [reflexivity|].
  split; [reflexivity|].
  apply (init_name_without_extension "../foils/s1223" (PyInt 0) (PyInt 100) (Some "xfoil") true
           (world_of [("xfoil", ""); ("../foils/s1223", two_lines)]));
    reflexivity.
Defined.

(** * Further properties

    The path utilities, the output directory, [__init__] from end to
    end, the script of a polar, the run with [GetPolar] and [main], and
    the geometry file that [WriteXfoilFile] writes. *)

(** ** Paths and their parent directories *)

Lemma split_sep_app sep (a b : string) :
  split sep (a +:+ String sep b) = split sep a ++ split sep b.
Proof.
  induction a as [|c a IH]; cbn [split].
  - rewrite append_nil_l. cbn [split]. now rewrite Ascii.eqb_refl.
  - rewrite append_cons. cbn [split]. rewrite IH.
    destruct (Ascii.eqb c sep); [reflexivity|].
    pose proof (split_nonempty sep a) as Hne.
    destruct (split sep a) as [|x xs]; [contradiction | reflexivity].
Qed.

Lemma split_slashless s : slashless s = true -> split "/" s = [s].
Proof.
  unfold slashless. induction s as [|c s IH]; intros H; [reflexivity|].
  cbn [list_ascii_of_string forallb] in H. apply andb_prop in H as [Hc Hs].
  cbn [split]. unfold not_slash in Hc. apply negb_true_iff in Hc.
  now rewrite Hc, (IH Hs).
Qed.

Lemma slashless_split s : Forall (fun x => slashless x = true) (split "/" s).
Proof.
  induction s as [|c s IH]; cbn [split]; [repeat constructor|].
  destruct (Ascii.eqb c "/") eqn:Ec; [constructor; [reflexivity | exact IH]|].
  pose proof (split_nonempty "/" s) as Hne.
  destruct (split "/" s) as [|x xs]; [contradiction|].
  inversion IH as [|? ? Hx Hxs]; subst. constructor; [|exact Hxs].
  unfold slashless, not_slash in *. cbn [list_ascii_of_string forallb]. now rewrite Ec, Hx.
Qed.

Lemma slashless_file_part path : slashless (file_part path) = true.
Proof.
  unfold file_part. pose proof (slashless_split path) as H.
  pose proof (split_nonempty "/" path) as Hne.
  induction H as [|x l Hx Hl IH]; [contradiction|].
  destruct l as [|y l]; [exact Hx|]. apply IH. discriminate.
Qed.

Lemma but_last_snoc {A} (l : list A) (x : A) : but_last (l ++ [x]) = l.
Proof. apply removelast_last. Qed.

Lemma parent_fold_all s acc :
  fold_left (fun parent x => parent +:+ x +:+ "/") (split "/" s) acc = acc +:+ s +:+ "/".
Proof.
  pose proof (split_nonempty "/" s) as Hne.
  rewrite (app_removelast_last "" Hne), fold_left_app. cbn [fold_left].
  rewrite <- (append_assoc acc s "/"), <- (parent_and_file_from acc s). unfold but_last.
  now autorewrite with str.
Qed.

(** The parent directory is empty or ends with a slash. *)
Lemma GetParentDir_shape path :
  GetParentDir path = "" \/ exists d, GetParentDir path = d +:+ "/".
Proof.
  unfold GetParentDir. generalize (but_last (split "/" path)). intros l.
  induction l as [|x l _] using rev_ind; [now left | right].
  rewrite fold_left_app. cbn [fold_left]. eexists. now rewrite <- append_assoc.
Qed.

Lemma GetParentDir_snoc d f :
  slashless f = true -> GetParentDir (d +:+ "/" +:+ f) = d +:+ "/".
Proof.
  intros Hf. unfold GetParentDir.
  change (d +:+ "/" +:+ f) with (d +:+ String "/" f).
  rewrite split_sep_app, (split_slashless f Hf), but_last_snoc, parent_fold_all.
  reflexivity.
Qed.

Lemma GetParentDir_slashless f : slashless f = true -> GetParentDir f = "".
Proof. intros Hf. unfold GetParentDir. now rewrite (split_slashless f Hf). Qed.

(** ** The lines of a buffer *)

Lemma split_one_line s : one_line s = true -> split newline s = [s].
Proof.
  unfold one_line. induction s as [|c s IH]; intros H; [reflexivity|].
  cbn [list_ascii_of_string forallb] in H. apply andb_prop in H as [Hc Hs].
  cbn [split]. unfold not_newline in Hc. apply negb_true_iff in Hc.
  now rewrite Hc, (IH Hs).
Qed.

Lemma but_last_app {A} (a b : list A) : b <> [] -> but_last (a ++ b) = a ++ but_last b.
Proof. intros Hb. unfold but_last. now apply removelast_app. Qed.

(** A first line, and the lines of the rest. *)
Lemma commands_line x b : commands (x +:+ nl +:+ b) = split newline x ++ commands b.
Proof.
  unfold commands. change (x +:+ nl +:+ b) with (x +:+ String newline b).
  rewrite split_sep_app. apply but_last_app, split_nonempty.
Qed.

(** The lines of queued commands are the commands. *)
Lemma commands_unlines cs b :
  Forall (fun c => one_line c = true) cs ->
  commands (unlines cs +:+ b) = cs ++ commands b.
Proof.
  induction 1 as [|c cs Hc Hcs IH]; [reflexivity|].
  cbn [unlines]. rewrite !append_assoc, commands_line, (split_one_line c Hc), IH.
  reflexivity.
Qed.

Lemma commands_unlines_all cs :
  Forall (fun c => one_line c = true) cs -> commands (unlines cs) = cs.
Proof.
  intros H. rewrite <- (append_nil_r (unlines cs)), (commands_unlines cs "" H).
  apply app_nil_r.
Qed.
(** X1. [GetParentDir] cuts a path after its last slash: the path is
    the result followed by a text without a slash, and the result is
    empty or ends with a slash.  Applied to its own result it changes
    nothing. *)
Theorem GetParentDir_last_slash path :
  path = GetParentDir path +:+ file_part path /\
  slashless (file_part path) = true /\
  (GetParentDir path = "" \/ exists d, GetParentDir path = d +:+ "/") /\
  GetParentDir (GetParentDir path) = GetParentDir path.
Proof.
  split; [symmetry; apply parent_and_file|]. split; [apply slashless_file_part|].
  split; [apply GetParentDir_shape|].
  destruct (GetParentDir_shape path) as [-> | [d ->]]; [reflexivity|].
  rewrite <- (append_nil_r (d +:+ "/")) at 1. rewrite append_assoc.
  now apply GetParentDir_snoc.
Qed.

(** X2. For a directory [d] and a file name [f] without a slash, the
    parent directory of [d/f] is [d/] and its file part is [f]; a bare
    file name has the empty parent directory. *)
Theorem GetParentDir_joined d f :
  slashless f = true ->
  GetParentDir (d +:+ "/" +:+ f) = d +:+ "/" /\
  file_part (d +:+ "/" +:+ f) = f /\
  GetParentDir f = "" /\ file_part f = f.
Proof.
  intros Hf. split; [now apply GetParentDir_snoc|]. split.
  - unfold file_part. change (d +:+ "/" +:+ f) with (d +:+ String "/" f).
    now rewrite split_sep_app, (split_slashless f Hf), last_last.
  - split; [now apply GetParentDir_slashless|].
    unfold file_part. now rewrite (split_slashless f Hf).
Qed.

(** The geometry file of the repository's own example. *)
Lemma GetParentDir_joined_witness :
  slashless "s1223.dat" = true /\
  GetParentDir ("../Data" +:+ "/" +:+ "s1223.dat") = "../Data" +:+ "/" /\
  file_part ("../Data" +:+ "/" +:+ "s1223.dat") = "s1223.dat" /\
  GetParentDir "s1223.dat" = "" /\ file_part "s1223.dat" = "s1223.dat".
Proof. split; [reflexivity|]. apply (GetParentDir_joined "../Data" "s1223.dat"). reflexivity. Defined.

(** ** The name of a geometry file *)

Lemma match_atoms_app x y cs :
  match_atoms (x ++ y) cs =
  match match_atoms x cs with Some r => match_atoms y r | None => None end.
Proof.
  revert cs. induction x as [|a x IH]; intros cs; [reflexivity|].
  cbn [app match_atoms]. destruct cs as [|c cs]; [reflexivity|].
  destruct (atom_matches a c); [apply IH | reflexivity].
Qed.

(** A plain text, read as a pattern, matches itself. *)
Lemma parse_plain_self s :
  plain s = true ->
  exists b, parse_pattern s = Ret [b] /\ List.length b = String.length s /\
    forall seen, match_atoms (rev b) (rev (list_ascii_of_string s) ++ seen) = Some seen.
Proof.
  unfold plain. induction s as [|c s IH]; intros H.
  - exists []. repeat split; reflexivity.
  - cbn [list_ascii_of_string forallb] in H. apply andb_prop in H as [Hc Hs].
    destruct (IH Hs) as (b & Hb & Hl & Hm).
    unfold ordinary in Hc. apply negb_true_iff in Hc.
    apply orb_false_elim in Hc as [Hc Hback].
    apply orb_false_elim in Hc as [Hspecial Hbar].
    cbn [parse_pattern]. rewrite Hbar, Hback, Hspecial, Hb. cbn [obind push_atom].
    destruct (Ascii.eqb c ".") eqn:Ed; eexists; (split; [reflexivity|]);
      (split; [cbn; now rewrite Hl|]); intros seen;
      cbn [rev list_ascii_of_string]; rewrite match_atoms_app, <- app_assoc, Hm;
      cbn [app match_atoms atom_matches].
    + apply Ascii.eqb_eq in Ed as ->. reflexivity.
    + now rewrite Ascii.eqb_refl.
Qed.

(** The positions before the look-behind has its width are passed. *)
Lemma search_between_skip b after pre seen s :
  (List.length seen + List.length pre = List.length b)%nat ->
  search_between [b] after seen (pre ++ s) = search_between [b] after (rev pre ++ seen) s.
Proof.
  revert seen. induction pre as [|c pre IH]; intros seen Hl; [reflexivity|].
  cbn [app search_between].
  destruct (look_behind [b] seen) eqn:L.
  - apply look_behind_length in L. cbn [List.length] in Hl. lia.
  - rewrite IH by (cbn [List.length] in *; lia).
    cbn [rev]. now rewrite <- app_assoc.
Qed.

(** The value stops at the first dot. *)
Lemma lazy_value_stem stem rest :
  forallb not_dot stem = true -> forallb not_newline stem = true ->
  lazy_value [[Lit "."]] (stem ++ "."%char :: rest) = Some stem.
Proof.
  induction stem as [|c stem IH]; intros Hd Hn; [reflexivity|].
  cbn [forallb] in Hd, Hn. apply andb_prop in Hd as [Hc Hd]. apply andb_prop in Hn as [Hc' Hn].
  cbn [app lazy_value look_ahead existsb match_atoms atom_matches].
  unfold not_dot in Hc. apply negb_true_iff in Hc. rewrite Ascii.eqb_sym in Hc. rewrite Hc.
  unfold not_newline in Hc'. apply negb_true_iff in Hc'. rewrite Hc'.
  cbn [orb]. fold (lazy_value [[Lit "."]] (stem ++ "."%char :: rest)).
  now rewrite (IH Hd Hn).
Qed.

Lemma string_of_chars s : string_of_list_ascii (list_ascii_of_string s) = s.
Proof. apply string_of_list_ascii_of_string. Qed.

Lemma FindBetween_stem_of path stem rest :
  plain (GetParentDir path) = true ->
  file_part path = stem +:+ "." +:+ rest ->
  dotless stem = true -> one_line stem = true ->
  FindBetween path (Some (GetParentDir path)) (Some "\.") = Ret stem.
Proof.
  intros Hp Hf Hd Hn. unfold FindBetween. cbn [py_str_opt].
  destruct (parse_plain_self _ Hp) as (b & Hb & Hl & Hm). rewrite Hb.
  change (parse_pattern "\.") with (Ret [[Lit "."]]).
  cbn [obind fixed_width forallb].
  rewrite <- (parent_and_file path) at 1. rewrite Hf, chars_append.
  rewrite search_between_skip by (cbn [List.length]; now rewrite chars_length, Hl).
  rewrite app_nil_r.
  assert (L : look_behind [b] (rev (list_ascii_of_string (GetParentDir path))) = true).
  { unfold look_behind. cbn [existsb]. rewrite orb_false_r.
    apply bool_decide_eq_true. specialize (Hm []). rewrite app_nil_r in Hm.
    rewrite Hm. eauto. }
  assert (V : lazy_value [[Lit "."]] (list_ascii_of_string (stem +:+ "." +:+ rest))
              = Some (list_ascii_of_string stem)).
  { rewrite chars_append. change (list_ascii_of_string ("." +:+ rest))
      with ("."%char :: list_ascii_of_string rest).
    now apply lazy_value_stem. }
  destruct (list_ascii_of_string (stem +:+ "." +:+ rest)) as [|c r] eqn:E;
    cbn [search_between]; rewrite L, V; now rewrite string_of_chars.
Qed.

(** X3. For a geometry file whose parent directory is made of
    characters that stand for themselves in a pattern, and dots, the
    name [__init__] derives is the file name up to its first dot,
    provided that part holds no line feed. *)
Theorem FindBetween_stem path stem rest :
  plain (GetParentDir path) = true ->
  file_part path = stem +:+ "." +:+ rest ->
  dotless stem = true -> one_line stem = true ->
  FindBetween path (Some (GetParentDir path)) (Some "\.") = Ret stem /\
  derived_name path false = Ret stem.
Proof. intros Hp Hf Hd Hn. split; now apply (FindBetween_stem_of path stem rest). Qed.

(** A file with two extensions in a directory with a dot in its name. *)
Lemma FindBetween_stem_witness :
  let path := "../foils.v2/s1223.old.dat" in
  plain (GetParentDir path) = true /\
  file_part path = "s1223" +:+ "." +:+ "old.dat" /\
  dotless "s1223" = true /\ one_line "s1223" = true /\
  FindBetween path (Some (GetParentDir path)) (Some "\.") = Ret "s1223" /\
  derived_name path false = Ret "s1223".
Proof.
  cbv zeta. split; [reflexivity|]. split; [reflexivity|].
  split; [reflexivity|]. split; [reflexivity|].
  apply (FindBetween_stem "../foils.v2/s1223.old.dat" "s1223" "old.dat"); reflexivity.
Defined.
(** ** Making the output directory *)

Lemma MakeOutputDir_fold savedir w :
  MakeOutputDir savedir w = snd (fold_left make_level (split "/" savedir) ("", w)).
Proof. reflexivity. Qed.

Lemma chars_strip_slashes p :
  list_ascii_of_string (strip_slashes p)
  = rev (strip_slashes_rev (rev (list_ascii_of_string p))).
Proof. unfold strip_slashes. apply list_ascii_of_string_of_list_ascii. Qed.


Lemma strip_slashes_rev_head l c r : strip_slashes_rev l = c :: r -> Ascii.eqb c "/" = false.
Proof.
  induction l as [|x l IH]; cbn [strip_slashes_rev]; [discriminate|].
  destruct (Ascii.eqb x "/") eqn:E; [exact IH|]. intros H. now injection H as <- _.
Qed.

Lemma strip_slashes_rev_length l : (List.length (strip_slashes_rev l) <= List.length l)%nat.
Proof.
  induction l as [|x l IH]; cbn [strip_slashes_rev List.length]; [lia|].
  destruct (Ascii.eqb x "/"); cbn [List.length]; lia.
Qed.

Lemma strip_slashes_rev_app x y :
  (List.length (strip_slashes_rev y) <= List.length (strip_slashes_rev (x ++ y)))%nat.
Proof.
  induction x as [|c x IH]; cbn [app strip_slashes_rev]; [lia|].
  destruct (Ascii.eqb c "/"); [exact IH|].
  pose proof (strip_slashes_rev_length y). cbn [List.length]. rewrite length_app. lia.
Qed.

Lemma strip_slashes_length p : (String.length (strip_slashes p) <= String.length p)%nat.
Proof.
  rewrite <- !chars_length, chars_strip_slashes, length_rev.
  etransitivity; [apply strip_slashes_rev_length|]. now rewrite length_rev.
Qed.

(** More text after a path does not shorten what is left of it. *)
Lemma strip_slashes_app_length a b :
  (String.length (strip_slashes a) <= String.length (strip_slashes (a +:+ b)))%nat.
Proof.
  rewrite <- !chars_length, !chars_strip_slashes, !length_rev, chars_append, rev_app_distr.
  apply strip_slashes_rev_app.
Qed.

Lemma strip_slashes_no_slash p d : strip_slashes p <> d +:+ "/".
Proof.
  intros H. apply (f_equal list_ascii_of_string) in H.
  rewrite chars_strip_slashes, chars_append in H. apply (f_equal (@rev ascii)) in H.
  rewrite rev_involutive, rev_app_distr in H. cbn [list_ascii_of_string rev app] in H.
  apply strip_slashes_rev_head in H. discriminate.
Qed.





(** ** What [os.mkdir] and [MakeOutputDir] leave alone *)

Lemma os_mkdir_frame p w :
  os_name (snd (os_mkdir p w)) = os_name w /\
  files (fs (snd (os_mkdir p w))) = files (fs w) /\
  console (snd (os_mkdir p w)) = console w /\
  started (snd (os_mkdir p w)) = started w /\
  dirs (fs w) ⊆ dirs (fs (snd (os_mkdir p w))).
Proof.
  unfold os_mkdir.
  destruct (isdir w (strip_slashes p) || isfile w (strip_slashes p));
    [repeat split; reflexivity|].
  destruct (isdir w _); cbn; repeat split; try reflexivity. apply union_subseteq_r.
Qed.

Lemma make_levels_frame l pre w :
  os_name (snd (fold_left make_level l (pre, w))) = os_name w /\
  files (fs (snd (fold_left make_level l (pre, w)))) = files (fs w) /\
  console (snd (fold_left make_level l (pre, w))) = console w /\
  started (snd (fold_left make_level l (pre, w))) = started w /\
  dirs (fs w) ⊆ dirs (fs (snd (fold_left make_level l (pre, w)))).
Proof.
  revert pre w. induction l as [|s l IH]; intros pre w; cbn [fold_left make_level snd].
  - repeat split; reflexivity.
  - destruct (IH (pre +:+ s +:+ "/") (snd (os_mkdir (pre +:+ s +:+ "/") w)))
      as (H1 & H2 & H3 & H4 & H5).
    destruct (os_mkdir_frame (pre +:+ s +:+ "/") w) as (G1 & G2 & G3 & G4 & G5).
    rewrite H1, H2, H3, H4. repeat split; try assumption.
    intros x Hx. apply H5, G5, Hx.
Qed.

Lemma isdir_mono w w' d : dirs (fs w) ⊆ dirs (fs w') -> isdir w d = true -> isdir w' d = true.
Proof.
  unfold isdir. intros Hs H. apply orb_true_iff in H as [H|H]; [now rewrite H|].
  apply bool_decide_eq_true in H. apply orb_true_iff. right.
  apply bool_decide_eq_true. apply Hs, H.
Qed.

Lemma isfile_same w w' p : files (fs w') = files (fs w) -> isfile w' p = isfile w p.
Proof. unfold isfile. now intros ->. Qed.

(** X4. [MakeOutputDir] only adds directories: the files and their
    text, the console, the processes started and the platform are as
    before, and every directory that was there still is. *)
Theorem MakeOutputDir_only_adds_directories savedir w :
  os_name (MakeOutputDir savedir w) = os_name w /\
  files (fs (MakeOutputDir savedir w)) = files (fs w) /\
  console (MakeOutputDir savedir w) = console w /\
  started (MakeOutputDir savedir w) = started w /\
  dirs (fs w) ⊆ dirs (fs (MakeOutputDir savedir w)) /\
  (forall d, isdir w d = true -> isdir (MakeOutputDir savedir w) d = true).
Proof.
  rewrite MakeOutputDir_fold.
  destruct (make_levels_frame (split "/" savedir) "" w) as (H1 & H2 & H3 & H4 & H5).
  repeat split; try assumption. intros d. now apply isdir_mono.
Qed.

(** ** Every level is made *)












(** ** A second call *)

(** A directory made by the loop is at least as long as the path the
    loop had reached, without its slashes. *)
Lemma make_levels_new l pre w x :
  x ∈ dirs (fs (snd (fold_left make_level l (pre, w)))) ->
  x ∈ dirs (fs w) \/ (String.length (strip_slashes pre) <= String.length x)%nat.
Proof.
  revert pre w. induction l as [|s l IH]; intros pre w H; [now left|].
  cbn [fold_left make_level snd] in H. apply IH in H as [H|H].
  - unfold os_mkdir in H.
    destruct (isdir w (strip_slashes (pre +:+ s +:+ "/"))
              || isfile w (strip_slashes (pre +:+ s +:+ "/"))); [now left|].
    destruct (isdir w (strip_slashes (GetParentDir _))); [|now left].
    cbn in H. apply elem_of_union in H as [H|H]; [|now left].
    apply elem_of_singleton in H as ->. right. apply strip_slashes_app_length.
  - right. pose proof (strip_slashes_app_length pre (s +:+ "/")). lia.
Qed.

(** The parent of a path without trailing slashes is shorter. *)
Lemma parent_shorter p :
  strip_slashes p <> "" ->
  (String.length (strip_slashes (GetParentDir (strip_slashes p)))
   < String.length (strip_slashes p))%nat.
Proof.
  intros Hne. set (d := strip_slashes p) in *.
  pose proof (strip_slashes_length (GetParentDir d)) as H1.
  pose proof (parent_and_file d) as H2.
  assert (H3 : file_part d <> "").
  { intros E. rewrite E, append_nil_r in H2.
    destruct (GetParentDir_shape d) as [H|[x H]]; rewrite H in H2.
    - now symmetry in H2.
    - symmetry in H2. now apply strip_slashes_no_slash in H2. }
  apply (f_equal String.length) in H2. rewrite <- !chars_length, chars_append, length_app in H2.
  rewrite !chars_length in H2. destruct (file_part d); [contradiction|]. cbn [String.length] in H2.
  lia.
Qed.

Lemma isdir_false w d :
  isdir w d = false -> d <> "" /\ d ∉ dirs (fs w).
Proof.
  unfold isdir. intros H. apply orb_false_elim in H as [H1 H2]. split.
  - intros ->. discriminate.
  - now apply bool_decide_eq_false in H2.
Qed.

(** Once the loop has run on from a level, making that level again
    fails. *)
Lemma os_mkdir_again p w l :
  let W := snd (fold_left make_level l (p, snd (os_mkdir p w))) in
  snd (os_mkdir p W) = W.
Proof.
  cbv zeta. set (w1 := snd (os_mkdir p w)). set (W := snd (fold_left make_level l (p, w1))).
  destruct (make_levels_frame l p w1) as (_ & F2 & _ & _ & F5). fold W in F2, F5.
  destruct (os_mkdir_frame p w) as (_ & G2 & _ & _ & G5). fold w1 in G2, G5.
  unfold os_mkdir at 1.
  destruct (isdir W (strip_slashes p) || isfile W (strip_slashes p)) eqn:E; [reflexivity|].
  destruct (isdir W (strip_slashes (GetParentDir (strip_slashes p)))) eqn:P; [|reflexivity].
  exfalso. apply orb_false_elim in E as [Ed Ef].
  assert (Ed0 : isdir w (strip_slashes p) = false).
  { destruct (isdir w (strip_slashes p)) eqn:X; [|reflexivity].
    rewrite (isdir_mono w W) in Ed; [discriminate | | exact X].
    intros x Hx. apply F5, G5, Hx. }
  assert (Ef0 : isfile w (strip_slashes p) = false).
  { rewrite <- Ef. symmetry. apply isfile_same. now rewrite F2, G2. }
  assert (Hw1 : isdir w (strip_slashes (GetParentDir (strip_slashes p))) = false).
  { destruct (isdir w (strip_slashes (GetParentDir (strip_slashes p)))) eqn:X; [|reflexivity].
    assert (M : strip_slashes p ∈ dirs (fs w1)).
    { unfold w1, os_mkdir. rewrite Ed0, Ef0, X. cbn. apply elem_of_union_l.
      now apply elem_of_singleton. }
    apply isdir_false in Ed as [_ Ed]. exfalso. apply Ed, F5, M. }
  assert (E1 : w1 = w).
  { unfold w1, os_mkdir. now rewrite Ed0, Ef0, Hw1. }
  apply isdir_false in Hw1 as [Hn Hnot]. apply isdir_false in Ed0 as [Hd _].
  unfold isdir in P. apply orb_true_iff in P as [P|P].
  - apply String.eqb_eq in P. contradiction.
  - apply bool_decide_eq_true in P. apply make_levels_new in P as [P|P].
    + rewrite E1 in P. contradiction.
    + pose proof (parent_shorter p Hd). lia.
Qed.

Lemma make_levels_again l pre w :
  let W := snd (fold_left make_level l (pre, w)) in
  snd (fold_left make_level l (pre, W)) = W.
Proof.
  cbv zeta. revert pre w. induction l as [|s l IH]; intros pre w; [reflexivity|].
  cbn [fold_left make_level snd]. rewrite os_mkdir_again. apply IH.
Qed.

(** X6. A second [MakeOutputDir] of the same path changes nothing,
    whatever the path and whatever was on disk before the first. *)
Theorem MakeOutputDir_twice savedir w :
  MakeOutputDir savedir (MakeOutputDir savedir w) = MakeOutputDir savedir w.
Proof. rewrite !MakeOutputDir_fold. apply make_levels_again. Qed.

(** ** [__init__] from end to end *)

Lemma LoadGeom_world o w : snd (snd (LoadGeom (o, w))) = w.
Proof.
  destruct (naca o) eqn:Hn.
  - now rewrite LoadGeom_naca.
  - rewrite LoadGeom_file by exact Hn.
    destruct (files (fs w) !! foil o) as [text|]; [|reflexivity].
    destruct (count_lines text <? 2)%nat; reflexivity.
Qed.

(** When the name cannot be derived, [__init__] ends there. *)
Lemma init_name_error path Re Iter xfoilpath headless w e :
  executable_found w xfoilpath = true ->
  derived_name path false = Raise e ->
  exists o,
    init path false Re Iter xfoilpath headless (blank, w) = (Raise e, (o, checked w xfoilpath))
    /\ input o = "".
Proof.
  intros Hx Hn. unfold init, derived_name in *. mrun. cbn [win set_win].
  destruct xfoilpath as [p|]; cbn [executable_found resolved_path checked] in *; mrun.
  - rewrite Hn. mrun. eexists. split; reflexivity.
  - destruct (IsItWindows w); mrun; rewrite Hx; cbn [negb]; mrun.
    + rewrite Hn. mrun. eexists. split; reflexivity.
    + destruct (isfile w "/opt/X11/bin/xquartz"); cbn [negb]; mrun;
        rewrite ?ErrorMessage_banner; mrun; rewrite Hn; mrun; eexists; split; reflexivity.
Qed.

Lemma init_exits_without_executable path naca Re Iter headless w :
  executable_found w None = false ->
  exists o,
    init path naca Re Iter None headless (blank, w)
    = (Raise (SystemExit (banner (missing_executable_text w))), (o, w))
    /\ input o = "" /\ o = set_xfoilpath (resolved_path w None) (set_win (IsItWindows w) blank).
Proof.
  intros Hx. unfold init, missing_executable_text. mrun. cbn [win set_win].
  cbn [executable_found resolved_path] in *.
  destruct (IsItWindows w); mrun; rewrite Hx; cbn [negb]; mrun;
    eexists; repeat split; reflexivity.
Qed.

Lemma executable_found_given w p : executable_found w (Some p) = true.
Proof. reflexivity. Qed.

(** The outcome, object and world of [__init__] in its three cases. *)
Lemma init_cases path naca Re Iter xfoilpath headless w :
  (executable_found w xfoilpath = false /\ xfoilpath = None /\
   snd (snd (init path naca Re Iter xfoilpath headless (blank, w))) = w /\
   exists msg, fst (init path naca Re Iter xfoilpath headless (blank, w)) = Raise (SystemExit msg))
  \/
  (executable_found w xfoilpath = true /\ naca = false /\
   snd (snd (init path naca Re Iter xfoilpath headless (blank, w))) = checked w xfoilpath /\
   exists e, derived_name path naca = Raise e /\
     fst (init path naca Re Iter xfoilpath headless (blank, w)) = Raise e)
  \/
  (executable_found w xfoilpath = true /\
   exists nm, derived_name path naca = Ret nm /\
     init path naca Re Iter xfoilpath headless (blank, w) =
     LoadGeom (configured w path naca Re Iter xfoilpath headless nm,
               MakeOutputDir ("Data/" +:+ nm) (checked w xfoilpath))).
Proof.
  destruct (executable_found w xfoilpath) eqn:Hx.
  - right. destruct (derived_name path naca) as [nm|e] eqn:Hn.
    + right. split; [reflexivity|]. exists nm. split; [reflexivity|].
      now apply init_reaches_LoadGeom.
    + left. destruct naca; [discriminate Hn|].
      destruct (init_name_error path Re Iter xfoilpath headless w e Hx Hn) as (o & E & _).
      rewrite E. repeat split. now exists e.
  - left. destruct xfoilpath as [p|]; [discriminate Hx|].
    destruct (init_exits_without_executable path naca Re Iter headless w Hx) as (o & E & _).
    rewrite E. repeat split. eexists. reflexivity.
Qed.

Lemma console_checked w xfoilpath :
  console (checked w xfoilpath) = console w \/
  console (checked w xfoilpath)
  = console w ++ [banner "PYXFOIL ERROR: X11/xquartz not installed"].
Proof.
  unfold checked. destruct xfoilpath; [now left|].
  destruct (IsItWindows w); [now left|].
  destruct (isfile w "/opt/X11/bin/xquartz"); [now left | now right].
Qed.

Lemma checked_frame w xfoilpath :
  os_name (checked w xfoilpath) = os_name w /\ fs (checked w xfoilpath) = fs w /\
  started (checked w xfoilpath) = started w.
Proof.
  unfold checked. destruct xfoilpath; [repeat split|].
  destruct (IsItWindows w); [repeat split|].
  destruct (isfile w "/opt/X11/bin/xquartz"); repeat split.
Qed.

(** X7. Whatever its arguments and however it ends, [__init__] leaves
    every file as it was and starts no process; directories are only
    added; and the console gains at most the one warning about
    XQuartz. *)
Theorem init_leaves_files_alone path naca Re Iter xfoilpath headless w :
  let w' := snd (snd (init path naca Re Iter xfoilpath headless (blank, w))) in
  os_name w' = os_name w /\
  files (fs w') = files (fs w) /\
  started w' = started w /\
  dirs (fs w) ⊆ dirs (fs w') /\
  (console w' = console w \/
   console w' = console w ++ [banner "PYXFOIL ERROR: X11/xquartz not installed"]).
Proof.
  cbv zeta. destruct (checked_frame w xfoilpath) as (C1 & C2 & C3).
  destruct (init_cases path naca Re Iter xfoilpath headless w)
    as [(_ & _ & -> & _) | [(_ & _ & -> & _) | (_ & nm & _ & ->)]].
  - repeat split; try reflexivity. now left.
  - rewrite C1, C2, C3. repeat split; try reflexivity. apply console_checked.
  - rewrite LoadGeom_world.
    destruct (make_levels_frame (split "/" ("Data/" +:+ nm)) "" (checked w xfoilpath))
      as (H1 & H2 & H3 & H4 & H5).
    rewrite MakeOutputDir_fold, H1, H2, H3, H4, C1, C2, C3.
    repeat split; try reflexivity; [now rewrite <- C2 | apply console_checked].
Qed.

Lemma input_configured w path naca Re Iter xfoilpath headless nm :
  input (configured w path naca Re Iter xfoilpath headless nm)
  = unlines (graphics_block headless).
Proof. now destruct headless. Qed.

(** X8. For NACA digits, once the executable is found, [__init__]
    returns, whatever the digits are and whatever is on disk: the
    session is named [naca] and the digits, its output directory is
    [Data/] and the name, and the buffer holds the graphics block, if
    asked for, and then the one line that loads the airfoil. *)
Theorem init_naca_session digits Re Iter xp headless w :
  executable_found w xp = true ->
  exists o,
    init digits true Re Iter xp headless (blank, w)
    = (Ret tt, (o, MakeOutputDir ("Data/naca" +:+ digits) (checked w xp))) /\
    name o = "naca" +:+ digits /\
    savepath o = "Data/naca" +:+ digits /\
    xfoilpath o = resolved_path w xp /\
    input o = unlines (graphics_block headless ++ ["naca " +:+ digits]) /\
    SaveNameGeom o = Ret ("Data/naca" +:+ digits +:+ "/naca" +:+ digits +:+ ".dat").
Proof.
  intros Hx.
  rewrite (init_reaches_LoadGeom digits true Re Iter xp headless w ("naca" +:+ digits)
             Hx eq_refl).
  rewrite LoadGeom_naca by reflexivity. eexists. split; [reflexivity|].
  split; [reflexivity|]. split; [reflexivity|]. split; [reflexivity|]. split.
  - cbn [input set_input foil]. now rewrite input_configured, unlines_app.
  - rewrite SaveNameGeom_eq. cbn [savepath name set_input configured].
    now autorewrite with str.
Qed.

(** Digits that are none, on Windows with the executable in place. *)
Lemma init_naca_session_witness :
  let w := {| os_name := "nt"; fs := {| files := {[ "xfoil.exe" := "" ]}; dirs := ∅ |};
              console := []; started := [] |} in
  executable_found w None = true /\
  exists o,
    init "" true (PyInt 0) (PyInt 20) None false (blank, w)
    = (Ret tt, (o, MakeOutputDir ("Data/naca" +:+ "") (checked w None))) /\
    name o = "naca" +:+ "" /\
    savepath o = "Data/naca" +:+ "" /\
    xfoilpath o = resolved_path w None /\
    input o = unlines (graphics_block false ++ ["naca " +:+ ""]) /\
    SaveNameGeom o = Ret ("Data/naca" +:+ "" +:+ "/naca" +:+ "" +:+ ".dat").
Proof.
  cbv zeta. split; [reflexivity|].
  apply (init_naca_session "" (PyInt 0) (PyInt 20) None false). reflexivity.
Defined.

(** X9. For a geometry file in a plain parent directory, named by a
    stem without dot or line feed, a dot and an extension, and holding
    two lines or more: once the executable is found, [__init__]
    returns, the session is named by the stem, and the buffer holds
    the graphics block, if asked for, and then [load] and the path as
    given. *)
Theorem init_geometry_session path stem rest text Re Iter xfoilpath headless w :
  executable_found w xfoilpath = true ->
  plain (GetParentDir path) = true ->
  file_part path = stem +:+ "." +:+ rest ->
  dotless stem = true -> one_line stem = true ->
  files (fs w) !! path = Some text ->
  (2 <= count_lines text)%nat ->
  exists o,
    init path false Re Iter xfoilpath headless (blank, w)
    = (Ret tt, (o, MakeOutputDir ("Data/" +:+ stem) (checked w xfoilpath))) /\
    name o = stem /\
    savepath o = "Data/" +:+ stem /\
    input o = unlines (graphics_block headless ++ ["load " +:+ path]) /\
    SaveNameGeom o = Ret ("Data/" +:+ stem +:+ "/" +:+ stem +:+ ".dat").
Proof.
  intros Hx Hp Hf Hd Hn Ht Hc.
  rewrite (init_reaches_LoadGeom path false Re Iter xfoilpath headless w stem Hx
             (FindBetween_stem_of path stem rest Hp Hf Hd Hn)).
  rewrite LoadGeom_file by reflexivity. cbn [foil configured].
  rewrite files_MakeOutputDir, files_checked, Ht.
  apply Nat.ltb_ge in Hc. rewrite Hc. eexists. split; [reflexivity|].
  split; [reflexivity|]. split; [reflexivity|]. split.
  - cbn [input set_input]. fold (graphics_block headless).
    destruct headless; cbn [graphics_block app unlines]; now autorewrite with str.
  - rewrite SaveNameGeom_eq. cbn [savepath name set_input]. now autorewrite with str.
Qed.

(** The geometry file of the repository's own example. *)
Lemma init_geometry_session_witness :
  let w := world_of [(mac_xfoil, ""); ("Data/s1223.dat", two_lines)] in
  executable_found w None = true /\
  plain (GetParentDir "Data/s1223.dat") = true /\
  file_part "Data/s1223.dat" = "s1223" +:+ "." +:+ "dat" /\
  dotless "s1223" = true /\ one_line "s1223" = true /\
  files (fs w) !! "Data/s1223.dat" = Some two_lines /\
  (2 <= count_lines two_lines)%nat /\
  exists o,
    init "Data/s1223.dat" false (PyFloat (S754_finite false 200000 0)) (PyInt 30) None true
      (blank, w)
    = (Ret tt, (o, MakeOutputDir ("Data/" +:+ "s1223") (checked w None))) /\
    name o = "s1223" /\
    savepath o = "Data/" +:+ "s1223" /\
    input o = unlines (graphics_block true ++ ["load " +:+ "Data/s1223.dat"]) /\
    SaveNameGeom o = Ret ("Data/" +:+ "s1223" +:+ "/" +:+ "s1223" +:+ ".dat").
Proof.
  cbv zeta. split; [reflexivity|]. split; [reflexivity|]. split; [reflexivity|].
  split; [reflexivity|]. split; [reflexivity|]. split; [reflexivity|].
  split; [vm_compute; lia|].
  apply (init_geometry_session "Data/s1223.dat" "s1223" "dat" two_lines);
    first [reflexivity | vm_compute; lia].
Defined.

Lemma one_line_append a b : one_line (a +:+ b) = one_line a && one_line b.
Proof. unfold one_line. now rewrite chars_append, forallb_app. Qed.

Lemma one_line_graphics headless :
  Forall (fun c => one_line c = true) (graphics_block headless).
Proof. destruct headless; repeat constructor. Qed.

(** The object [__init__] leaves when it returns. *)
Lemma init_returns path naca Re Iter xp headless w :
  fst (init path naca Re Iter xp headless (blank, w)) = Ret tt ->
  executable_found w xp = true /\
  (naca = false ->
   exists text, files (fs w) !! path = Some text /\ (2 <= count_lines text)%nat) /\
  exists nm,
    derived_name path naca = Ret nm /\
    init path naca Re Iter xp headless (blank, w) =
    (Ret tt,
     (set_input (unlines (graphics_block headless ++ [load_command path naca]))
        (configured w path naca Re Iter xp headless nm),
      MakeOutputDir ("Data/" +:+ nm) (checked w xp))).
Proof.
  intros Hr.
  destruct (init_cases path naca Re Iter xp headless w)
    as [(_ & _ & _ & msg & E) | [(_ & _ & _ & e & _ & E) | (Hx & nm & Hn & E)]];
    [rewrite E in Hr; discriminate Hr | rewrite E in Hr; discriminate Hr |].
  split; [exact Hx|]. rewrite E in Hr |- *. destruct naca.
  - split; [discriminate|]. exists nm. split; [exact Hn|].
    rewrite LoadGeom_naca by reflexivity.
    now rewrite input_configured, unlines_app.
  - rewrite LoadGeom_file in Hr |- * by reflexivity. cbn [foil configured] in Hr |- *.
    rewrite files_MakeOutputDir, files_checked in Hr |- *.
    destruct (files (fs w) !! path) as [text|]; [|discriminate Hr].
    destruct (count_lines text <? 2)%nat eqn:C; [discriminate Hr|].
    split; [intros _; exists text; split; [reflexivity | now apply Nat.ltb_ge in C]|].
    exists nm. split; [exact Hn|]. destruct headless; reflexivity.
Qed.

(** X10. Whenever [__init__] returns, the buffer holds the graphics
    block, if asked for, and after it exactly one command, which loads
    the airfoil: [naca] and the digits, or [load] and the path of a file
    that is on disk with two lines or more.  The executable was found
    or given, and no angles and no process are recorded yet. *)
Theorem init_graphics_then_load path naca Re Iter xp headless w :
  fst (init path naca Re Iter xp headless (blank, w)) = Ret tt ->
  let o := fst (snd (init path naca Re Iter xp headless (blank, w))) in
  input o = unlines (graphics_block headless ++ [load_command path naca]) /\
  (one_line path = true ->
   commands (input o) = graphics_block headless ++ [load_command path naca]) /\
  executable_found w xp = true /\
  (naca = false ->
   exists text, files (fs w) !! path = Some text /\ (2 <= count_lines text)%nat) /\
  foil o = path /\ xfoilpath o = resolved_path w xp /\ alfs o = None /\ xf o = None.
Proof.
  intros Hr. cbv zeta.
  destruct (init_returns path naca Re Iter xp headless w Hr) as (Hx & Hf & nm & _ & E).
  rewrite E. cbn [fst snd input set_input foil xfoilpath alfs xf configured].
  split; [reflexivity|]. split; [|repeat split; try reflexivity; assumption].
  intros Hp. apply commands_unlines_all, Forall_app. split; [apply one_line_graphics|].
  constructor; [|constructor]. unfold load_command. rewrite one_line_append, Hp.
  now destruct naca.
Qed.

(** A geometry file of two lines, read without the graphics block. *)
Lemma init_graphics_then_load_witness :
  let w := world_of [("xfoil", ""); ("Data/s1223.dat", two_lines)] in
  let st := init "Data/s1223.dat" false (PyInt 0) (PyInt 100) (Some "xfoil") false (blank, w) in
  fst st = Ret tt /\
  input (fst (snd st)) = unlines (graphics_block false ++ [load_command "Data/s1223.dat" false]) /\
  (one_line "Data/s1223.dat" = true ->
   commands (input (fst (snd st)))
   = graphics_block false ++ [load_command "Data/s1223.dat" false]) /\
  executable_found w (Some "xfoil") = true /\
  (false = false ->
   exists text, files (fs w) !! "Data/s1223.dat" = Some text /\ (2 <= count_lines text)%nat) /\
  foil (fst (snd st)) = "Data/s1223.dat" /\
  xfoilpath (fst (snd st)) = resolved_path w (Some "xfoil") /\
  alfs (fst (snd st)) = None /\ xf (fst (snd st)) = None.
Proof.
  cbv zeta. split; [vm_compute; reflexivity|].
  apply (init_graphics_then_load "Data/s1223.dat" false (PyInt 0) (PyInt 100) (Some "xfoil")
           false (world_of [("xfoil", ""); ("Data/s1223.dat", two_lines)])).
  vm_compute. reflexivity.
Defined.

(** X11. When no path to the executable is given and the default one
    for the platform is no file, [__init__] exits with the message for
    that platform before it does anything else: the world is as it was
    (no directory is made, no warning printed), nothing is queued, and
    no name or output directory has been set. *)
Theorem init_missing_executable path naca Re Iter headless w :
  executable_found w None = false ->
  exists o,
    init path naca Re Iter None headless (blank, w)
    = (Raise (SystemExit (banner (missing_executable_text w))), (o, w)) /\
    input o = "" /\ name o = "" /\ savepath o = "" /\
    xfoilpath o = (if IsItWindows w then "xfoil.exe" else mac_xfoil).
Proof.
  intros Hx.
  destruct (init_exits_without_executable path naca Re Iter headless w Hx) as (o & E & Hi & ->).
  eexists. split; [exact E|]. repeat split.
Qed.

(** Windows without [xfoil.exe], and a geometry file that is missing
    as well. *)
Lemma init_missing_executable_witness :
  let w := {| os_name := "nt"; fs := {| files := ∅; dirs := ∅ |};
              console := []; started := [] |} in
  executable_found w None = false /\
  exists o,
    init "Data/s1223.dat" false (PyInt 0) (PyInt 100) None true (blank, w)
    = (Raise (SystemExit (banner (missing_executable_text w))), (o, w)) /\
    input o = "" /\ name o = "" /\ savepath o = "" /\
    xfoilpath o = (if IsItWindows w then "xfoil.exe" else mac_xfoil).
Proof.
  cbv zeta. split; [reflexivity|].
  apply (init_missing_executable "Data/s1223.dat" false (PyInt 0) (PyInt 100) true).
  reflexivity.
Defined.

(** X12. Off Windows, with Xfoil.app in its default place and XQuartz
    missing, [__init__] prints the warning and goes on: for NACA digits
    it returns, the console has gained the one message, and the buffer
    is what it is with XQuartz installed, with or without the graphics
    block. *)
Theorem init_warns_without_xquartz digits Re Iter headless w :
  IsItWindows w = false ->
  isfile w mac_xfoil = true ->
  isfile w "/opt/X11/bin/xquartz" = false ->
  exists o w',
    init digits true Re Iter None headless (blank, w) = (Ret tt, (o, w')) /\
    console w' = console w ++ [banner "PYXFOIL ERROR: X11/xquartz not installed"] /\
    input o = unlines (graphics_block headless ++ ["naca " +:+ digits]).
Proof.
  intros Hw Hx Hq.
  assert (Hf : executable_found w None = true) by (cbn [executable_found]; now rewrite Hw).
  rewrite (init_reaches_LoadGeom digits true Re Iter None headless w ("naca" +:+ digits)
             Hf eq_refl).
  rewrite LoadGeom_naca by reflexivity. eexists. eexists. split; [reflexivity|]. split.
  - destruct (make_levels_frame (split "/" ("Data/" +:+ ("naca" +:+ digits))) ""
                (checked w None)) as (_ & _ & H3 & _).
    rewrite MakeOutputDir_fold, H3. cbn [checked]. now rewrite Hw, Hq.
  - cbn [input set_input foil]. now rewrite input_configured, unlines_app.
Qed.

(** A Mac with Xfoil.app and nothing else. *)
Lemma init_warns_without_xquartz_witness :
  IsItWindows mac_world = false /\
  isfile mac_world mac_xfoil = true /\
  isfile mac_world "/opt/X11/bin/xquartz" = false /\
  exists o w',
    init "2412" true (PyInt 0) (PyInt 100) None false (blank, mac_world) = (Ret tt, (o, w')) /\
    console w' = console mac_world ++ [banner "PYXFOIL ERROR: X11/xquartz not installed"] /\
    input o = unlines (graphics_block false ++ ["naca " +:+ "2412"]).
Proof.
  split; [reflexivity|]. split; [reflexivity|]. split; [reflexivity|].
  apply (init_warns_without_xquartz "2412" (PyInt 0) (PyInt 100) false mac_world);
    reflexivity.
Defined.

(** ** SaveGeom *)

(** X13. [SaveGeom] returns in every state, leaves the world alone and
    changes at most the buffer: it queues [save] and the geometry file
    name when that file is absent and [overwrite] is set, and nothing
    when the file exists or [overwrite] is not set. *)
Theorem SaveGeom_only_when_absent overwrite o w :
  let geom := savepath o +:+ "/" +:+ name o +:+ ".dat" in
  exists o',
    SaveGeom overwrite (o, w) = (Ret tt, (o', w)) /\
    SaveNameGeom o = Ret geom /\
    (isfile w geom = false -> overwrite = true ->
     o' = set_input (input o +:+ "save " +:+ geom +:+ nl) o) /\
    (isfile w geom = true \/ overwrite = false -> o' = o).
Proof.
  cbv zeta. rewrite SaveGeom_run. eexists. split; [reflexivity|].
  split; [apply SaveNameGeom_eq|]. split.
  - intros -> ->. cbn [negb andb unlines]. now autorewrite with str.
  - intros [-> | ->]; [reflexivity|]. now rewrite andb_false_r.
Qed.

(** ** Polar *)

Lemma py_format_converts x spec sp :
  parse_spec spec = Some sp -> spec <> "" -> converts x = true ->
  exists t, py_format (VNum x) spec = Ret t.
Proof.
  intros Hs Hne Hx. unfold py_format, converts in *. destruct spec; [contradiction|].
  rewrite Hs. destruct (as_float x); [|discriminate]. eexists. reflexivity.
Qed.

Lemma format_e2_converts x : converts x = true -> exists t, py_format (VNum x) "1.2e" = Ret t.
Proof. now apply (py_format_converts x "1.2e" {| width := 1; precision := 2; kind := Scientific |}). Qed.

Lemma format_f1_converts x : converts x = true -> exists t, py_format (VNum x) "1.1f" = Ret t.
Proof. now apply (py_format_converts x "1.1f" {| width := 1; precision := 1; kind := Fixed |}). Qed.

Lemma format_f2_converts x : converts x = true -> exists t, py_format (VNum x) "1.2f" = Ret t.
Proof. now apply (py_format_converts x "1.2f" {| width := 1; precision := 2; kind := Fixed |}). Qed.

Lemma SaveNameSurfCp_converts o alf :
  converts (Re o) = true -> converts alf = true -> exists p, SaveNameSurfCp o alf = Ret p.
Proof.
  intros Hr Ha. rewrite SaveNameSurfCp_eq.
  destruct (format_e2_converts _ Hr) as [r ->]. destruct (format_f1_converts _ Ha) as [a ->].
  eexists. reflexivity.
Qed.

Lemma Forall_last {A} (P : A -> Prop) (l : list A) (d : A) :
  P d -> Forall P l -> P (List.last l d).
Proof.
  intros Hd H. induction H as [|x l Hx Hl IH]; [exact Hd|].
  destruct l; [exact Hx | exact IH].
Qed.

Lemma SaveNamePolar_converts o a rest :
  converts (Re o) = true -> Forall (fun x => converts x = true) (a :: rest) ->
  exists p, SaveNamePolar o (Sequence (a :: rest)) = Ret p.
Proof.
  intros Hr Hl. inversion Hl as [|? ? Ha Hrest]; subst.
  destruct (format_e2_converts _ Hr) as [r Er]. destruct rest as [|b rest].
  - rewrite SaveNamePolar_single. destruct (format_f2_converts _ Ha) as [t ->].
    unfold polar_name. rewrite Er. eexists. reflexivity.
  - rewrite SaveNamePolar_range. destruct (format_f1_converts _ Ha) as [t ->].
    assert (Hb : converts (List.last (b :: rest) a) = true)
      by (apply (Forall_last (fun x => converts x = true)); assumption).
    destruct (format_f1_converts _ Hb) as [u ->].
    unfold polar_name. rewrite Er. eexists. reflexivity.
Qed.

(** When every name can be formatted, the angle loop runs to its end. *)
Lemma alfa_commands_converts o cp l :
  (cp = true -> converts (Re o) = true /\ Forall (fun x => converts x = true) l) ->
  alfa_commands o cp l = (concat (map (angle_lines o cp) l), None).
Proof.
  intros H. induction l as [|alf l IH]; [reflexivity|].
  cbn [alfa_commands map concat]. unfold angle_lines at 1. destruct cp.
  - destruct (H eq_refl) as [Hr Hl]. inversion Hl as [|? ? Ha Hl']; subst.
    destruct (SaveNameSurfCp_converts o alf Hr Ha) as [p Hp].
    rewrite Hp, IH by (intros _; now split). reflexivity.
  - rewrite IH by discriminate. reflexivity.
Qed.

Lemma filter_length_app {A} (f : A -> bool) (a b : list A) :
  List.length (List.filter f (a ++ b))
  = (List.length (List.filter f a) + List.length (List.filter f b))%nat.
Proof. now rewrite List.filter_app, length_app. Qed.

Lemma occurrences_app c a b : occurrences c (a ++ b) = (occurrences c a + occurrences c b)%nat.
Proof. apply filter_length_app. Qed.

Lemma pacc_not_oper o : occurrences "pacc" (oper_commands o) = 0%nat.
Proof.
  unfold occurrences, oper_commands. destruct (py_nonzero (Re o)); reflexivity.
Qed.

Lemma pacc_not_angle o cp l : occurrences "pacc" (concat (map (angle_lines o cp) l)) = 0%nat.
Proof.
  induction l as [|alf l IH]; [reflexivity|].
  cbn [map concat]. rewrite occurrences_app, IH. unfold angle_lines, occurrences.
  destruct cp; [destruct (SaveNameSurfCp o alf)|]; reflexivity.
Qed.

Lemma pacc_not_path a b : String.eqb "pacc" (a +:+ "/" +:+ b) = false.
Proof.
  apply String.eqb_neq. intros H. apply (f_equal list_ascii_of_string) in H.
  rewrite chars_append in H.
  assert (I : In "/"%char (list_ascii_of_string a ++ list_ascii_of_string ("/" +:+ b)))
    by (apply in_or_app; right; now left).
  rewrite <- H in I. cbn in I. repeat (destruct I as [I|I]; [discriminate I|]). exact I.
Qed.

(** The accumulation is switched twice. *)
Lemma pacc_twice o p cp l :
  (exists a b, p = a +:+ "/" +:+ b) -> occurrences "pacc" (polar_script o p cp l) = 2%nat.
Proof.
  intros (a & b & ->). unfold polar_script.
  rewrite !occurrences_app, pacc_not_oper, pacc_not_angle. unfold occurrences.
  cbn [List.filter]. rewrite pacc_not_path. reflexivity.
Qed.

Lemma Polar_returns alfs cp ow o w p :
  SaveNamePolar o alfs = Ret p ->
  (cp = true ->
   converts (Re o) = true /\ Forall (fun x => converts x = true) (as_sequence alfs)) ->
  Polar alfs cp ow (o, w) =
  (Ret tt,
   (set_input (input o +:+ unlines (polar_script o p cp (as_sequence alfs)))
      (set_alfs (Some (as_sequence alfs)) o),
    if isfile w p && ow then os_remove p w else w)).
Proof.
  intros Hp Hc. rewrite Polar_run, Hp. cbv zeta. unfold polar_commands, polar_script.
  rewrite (alfa_commands_converts o cp _ Hc). reflexivity.
Qed.

(** X14. When the Reynolds number and the angles are floats, or ints
    that convert to a float, and there is at least one angle, [Polar]
    returns; it has stored the angles and queued, in this order: the
    commands of [EnterOperMenu], [pacc], the name of the polar file, a
    blank line, for each angle [alfa] and the angle and, with
    [SaveCP], [cpwr] and the name of its pressure file, and [pacc]
    again, which so occurs exactly twice. *)
Theorem Polar_queues first rest SaveCP overwrite o w :
  converts (Re o) = true ->
  Forall (fun x => converts x = true) (first :: rest) ->
  exists p o' w',
    SaveNamePolar o (Sequence (first :: rest)) = Ret p /\
    Polar (Sequence (first :: rest)) SaveCP overwrite (o, w) = (Ret tt, (o', w')) /\
    input o' = input o +:+ unlines (polar_script o p SaveCP (first :: rest)) /\
    alfs o' = Some (first :: rest) /\
    occurrences "pacc" (polar_script o p SaveCP (first :: rest)) = 2%nat /\
    List.last (polar_script o p SaveCP (first :: rest)) "" = "pacc".
Proof.
  intros Hr Hl. destruct (SaveNamePolar_converts o first rest Hr Hl) as [p Hp].
  exists p. eexists. eexists. split; [exact Hp|]. split.
  - apply (Polar_returns (Sequence (first :: rest)) SaveCP overwrite o w p Hp).
    intros _. now split.
  - split; [reflexivity|]. split; [reflexivity|]. split.
    + apply pacc_twice. apply SaveNamePolar_under in Hp as [b ->]. eauto.
    + unfold polar_script. rewrite !app_assoc. apply last_last.
Qed.

(** A viscous polar of three angles, one of them a float. *)
Lemma Polar_queues_witness :
  let o := set_Re (PyFloat (S754_finite false 200000 0)) stored in
  let first := PyInt 0 in
  let rest := [PyFloat (S754_finite false 5 (-1)); PyInt 5] in
  converts (Re o) = true /\
  Forall (fun x => converts x = true) (first :: rest) /\
  exists p o' w',
    SaveNamePolar o (Sequence (first :: rest)) = Ret p /\
    Polar (Sequence (first :: rest)) true true (o, mac_world) = (Ret tt, (o', w')) /\
    input o' = input o +:+ unlines (polar_script o p true (first :: rest)) /\
    alfs o' = Some (first :: rest) /\
    occurrences "pacc" (polar_script o p true (first :: rest)) = 2%nat /\
    List.last (polar_script o p true (first :: rest)) "" = "pacc".
Proof.
  cbv zeta.
  assert (H : Forall (fun x => converts x = true)
                [PyInt 0; PyFloat (S754_finite false 5 (-1)); PyInt 5])
    by (repeat constructor).
  split; [reflexivity|]. split; [exact H|].
  apply (Polar_queues (PyInt 0) [PyFloat (S754_finite false 5 (-1)); PyInt 5] true true
           (set_Re (PyFloat (S754_finite false 200000 0)) stored) mac_world eq_refl H).
Defined.

(** X15. [Polar] of an empty list raises [IndexError] when it comes to
    name the polar file: by then it has stored the empty list and
    queued the commands of [EnterOperMenu]; no [pacc] is queued and no
    file is touched. *)
Theorem Polar_of_no_angles SaveCP overwrite o w :
  Polar (Sequence []) SaveCP overwrite (o, w) =
  (Raise IndexError,
   (set_input (input o +:+ unlines (oper_commands o)) (set_alfs (Some []) o), w)) /\
  occurrences "pacc" (oper_commands o) = 0%nat.
Proof.
  split; [|apply pacc_not_oper]. rewrite Polar_run. reflexivity.
Qed.

Lemma lookup_os_remove p q w :
  files (fs (os_remove p w)) !! q = if String.eqb p q then None else files (fs w) !! q.
Proof.
  cbn. destruct (String.eqb_spec p q) as [->|Hne].
  - apply lookup_delete_eq.
  - now apply lookup_delete_ne.
Qed.

(** X16. [Polar] makes and changes no file, and removes at most the one
    it names as the polar file: every other path is as before, and so
    is the whole world when [overwrite] is not set.  The console, the
    directories and the processes are never touched. *)
Theorem Polar_removes_at_most_its_file alfs SaveCP overwrite o w :
  let w' := snd (snd (Polar alfs SaveCP overwrite (o, w))) in
  os_name w' = os_name w /\ console w' = console w /\ started w' = started w /\
  dirs (fs w') = dirs (fs w) /\
  (forall q, files (fs w') !! q = None \/ files (fs w') !! q = files (fs w) !! q) /\
  (forall q, SaveNamePolar o alfs <> Ret q -> files (fs w') !! q = files (fs w) !! q) /\
  (overwrite = false -> w' = w).
Proof.
  cbv zeta. rewrite Polar_run. cbv zeta.
  destruct (SaveNamePolar o alfs) as [p|e]; cbn [snd].
  - destruct (isfile w p && overwrite) eqn:E.
    + repeat split; try reflexivity.
      * intros q. rewrite lookup_os_remove. destruct (String.eqb p q); [now left | now right].
      * intros q Hq. rewrite lookup_os_remove. destruct (String.eqb_spec p q) as [->|_];
          [now contradiction Hq | reflexivity].
      * intros ->. now rewrite andb_false_r in E.
    + repeat split; try reflexivity; intros; now right.
  - repeat split; try reflexivity; intros; now right.
Qed.

(** ** From [__init__] to the run *)

Lemma isfile_os_remove_other p q w : p <> q -> isfile (os_remove p w) q = isfile w q.
Proof.
  intros Hne. rewrite !isfile_lookup, lookup_os_remove.
  destruct (String.eqb_spec p q); [contradiction | reflexivity].
Qed.

(** No output file of a session is the default executable. *)
Lemma output_not_executable w nm rest :
  ("Data/" +:+ nm) +:+ "/" +:+ rest <> resolved_path w None.
Proof.
  unfold resolved_path, mac_xfoil. autorewrite with str.
  destruct (IsItWindows w); discriminate.
Qed.

Lemma executable_found_isfile w :
  executable_found w None = true -> isfile w (resolved_path w None) = true.
Proof. cbn [executable_found resolved_path]. now destruct (IsItWindows w). Qed.

Lemma init_naca_run digits Re Iter xp headless w :
  executable_found w xp = true ->
  init digits true Re Iter xp headless (blank, w) =
  (Ret tt,
   (set_input (unlines (graphics_block headless ++ ["naca " +:+ digits]))
      (configured w digits true Re Iter xp headless ("naca" +:+ digits)),
    MakeOutputDir ("Data/naca" +:+ digits) (checked w xp))).
Proof.
  intros Hx.
  rewrite (init_reaches_LoadGeom digits true Re Iter xp headless w ("naca" +:+ digits)
             Hx eq_refl).
  rewrite LoadGeom_naca by reflexivity. now rewrite input_configured, unlines_app.
Qed.

Lemma pane_run (pane : bool) o w :
  (if pane then AddInput "pane" else mret tt) (o, w)
  = (Ret tt, (set_input (input o +:+ unlines (if pane then ["pane"] else [])) o, w)).
Proof.
  destruct pane; [now rewrite AddInput_run|].
  rewrite run_ret. cbn [unlines]. now rewrite append_nil_r, set_input_same.
Qed.

Lemma SaveGeom_true_run o w :
  SaveGeom true (o, w) =
  (Ret tt,
   (set_input
      (input o +:+
       unlines (if isfile w (savepath o +:+ "/" +:+ name o +:+ ".dat") then []
                else ["save " +:+ savepath o +:+ "/" +:+ name o +:+ ".dat"])) o, w)).
Proof.
  rewrite SaveGeom_run. destruct (isfile w _); cbn [negb andb]; [|reflexivity].
  cbn [unlines]. now rewrite append_nil_r, set_input_same.
Qed.

(** The script of a polar depends on the Reynolds number, the
    iterations, the name and the output directory. *)
Lemma polar_script_same o o' p cp l :
  Re o = Re o' -> Iter o = Iter o' -> savepath o = savepath o' -> name o = name o' ->
  polar_script o p cp l = polar_script o' p cp l.
Proof.
  intros H1 H2 H3 H4. unfold polar_script, oper_commands. rewrite H1, H2.
  do 3 f_equal. f_equal. apply map_ext. intros alf. unfold angle_lines.
  replace (SaveNameSurfCp o alf) with (SaveNameSurfCp o' alf); [reflexivity|].
  unfold SaveNameSurfCp. now rewrite H1, H3, H4.
Qed.

Section Run.
Variable tool : string -> list Byte.byte -> filesystem -> filesystem * string.

(** After a polar the default executable is still in place. *)
Lemma executable_after_polar w nm o p (ow : bool) w1 :
  executable_found w None = true ->
  (forall q, isfile w1 q = isfile w q) ->
  savepath o = "Data/" +:+ nm ->
  SaveNamePolar o p.1 = Ret p.2 ->
  isfile (if isfile w1 p.2 && ow then os_remove p.2 w1 else w1) (resolved_path w None) = true.
Proof.
  intros Hx F Hs Hp. apply SaveNamePolar_under in Hp as [rest Hp]. rewrite Hs in Hp.
  destruct (isfile w1 p.2 && ow).
  - rewrite isfile_os_remove_other, F; [now apply executable_found_isfile|].
    rewrite Hp. apply output_not_executable.
  - rewrite F. now apply executable_found_isfile.
Qed.

(** X17. [GetPolar] for NACA digits, when the default executable is
    found, the Reynolds number and the angles convert to floats and
    there is at least one angle: it returns, having started the
    executable exactly once and handed it the whole buffer, which
    holds the graphics block, [naca] and the digits, [pane] if asked
    for, the save command if the geometry file was absent, the
    commands of the polar, four blank lines and [quit]. *)
Theorem GetPolar_naca digits first rest Re SaveCP Iter pane overwrite quiet w :
  executable_found w None = true ->
  converts Re = true ->
  Forall (fun x => converts x = true) (first :: rest) ->
  let geom := "Data/naca" +:+ digits +:+ "/naca" +:+ digits +:+ ".dat" in
  exists o w' p,
    GetPolar tool digits true (Sequence (first :: rest)) Re SaveCP Iter pane overwrite quiet
      (blank, w) = (Ret tt, (o, w')) /\
    SaveNamePolar o (Sequence (first :: rest)) = Ret p /\
    input o = unlines (["plop"; "g f"; ""; "naca " +:+ digits]
                       ++ (if pane then ["pane"] else [])
                       ++ (if isfile w geom then [] else ["save " +:+ geom])
                       ++ polar_script o p SaveCP (first :: rest)
                       ++ [""; ""; ""; ""; "quit"]) /\
    started w' = started w ++ [transmitted o] /\
    xfoilpath o = resolved_path w None /\
    xf o = Some (List.length (started w)).
Proof.
  intros Hx Hr Hl. cbv zeta. unfold GetPolar.
  rewrite run_bind, (init_naca_run digits Re Iter None true w Hx).
  set (w1 := MakeOutputDir ("Data/naca" +:+ digits) (checked w None)).
  assert (F : forall q, isfile w1 q = isfile w q)
    by (intros q; unfold w1; now rewrite isfile_MakeOutputDir, isfile_checked).
  rewrite run_bind, pane_run, run_bind, SaveGeom_true_run, run_bind. mrun.
  cbn [savepath name set_input configured].
  match goal with
  | |- context [Polar _ _ _ (?o, _)] => set (oA := o)
  end.
  destruct (SaveNamePolar_converts oA first rest Hr Hl) as [p Hp].
  rewrite (Polar_returns (Sequence (first :: rest)) SaveCP overwrite oA w1 p Hp
             (fun _ => conj Hr Hl)).
  rewrite run_bind, Quit_run.
  set (w2 := if isfile w1 p && overwrite then os_remove p w1 else w1).
  assert (St : started w2 = started w).
  { destruct (make_levels_frame (split "/" ("Data/naca" +:+ digits)) "" (checked w None))
      as (_ & _ & _ & H4 & _).
    destruct (checked_frame w None) as (_ & _ & H5).
    unfold w2, w1. rewrite MakeOutputDir_fold.
    destruct (isfile _ p && overwrite); cbn [os_remove with_fs started]; now rewrite H4. }
  match goal with
  | |- context [RunXfoil tool quiet (?o, w2)] =>
      destruct (RunXfoil_run tool quiet o w2) as (w' & E & S & _)
  end.
  { apply (executable_after_polar w ("naca" +:+ digits) oA (Sequence (first :: rest), p)
             overwrite w1 Hx F eq_refl Hp). }
  rewrite E. eexists. exists w', p. split; [reflexivity|]. split; [exact Hp|].
  split; [|split; [|split]].
  - change (polar_script (set_xf _ _) p SaveCP (first :: rest))
      with (polar_script oA p SaveCP (first :: rest)).
    cbn [input set_xf set_input set_alfs as_sequence]. unfold oA. cbn [input set_input].
    rewrite F, !unlines_app. autorewrite with str.
    destruct pane; destruct (isfile w _);
      cbn [app unlines graphics_block]; now autorewrite with str.
  - rewrite S, St. reflexivity.
  - reflexivity.
  - cbn [xf set_xf]. now rewrite St.
Qed.

Lemma started_MakeOutputDir savedir w : started (MakeOutputDir savedir w) = started w.
Proof.
  rewrite MakeOutputDir_fold.
  now destruct (make_levels_frame (split "/" savedir) "" w) as (_ & _ & _ & H4 & _).
Qed.

Lemma started_checked w xp : started (checked w xp) = started w.
Proof. now destruct (checked_frame w xp) as (_ & _ & H). Qed.

(** X18. [main] for NACA digits, under the same conditions: it
    returns, having started the executable once with the whole buffer
    and printed [done] last.  The buffer enters the operations menu
    twice and runs the first angle twice: once on its own, with its
    pressure file, and again within the polar. *)
Theorem main_naca digits first rest Re Iter w :
  executable_found w None = true ->
  converts Re = true ->
  Forall (fun x => converts x = true) (first :: rest) ->
  let geom := "Data/naca" +:+ digits +:+ "/naca" +:+ digits +:+ ".dat" in
  exists o w' p q,
    main tool digits true (first :: rest) Re Iter (blank, w) = (Ret tt, (o, w')) /\
    SaveNamePolar o (Sequence (first :: rest)) = Ret p /\
    SaveNameSurfCp o first = Ret q /\
    input o = unlines (["plop"; "g f"; ""; "naca " +:+ digits]
                       ++ (if isfile w geom then [] else ["save " +:+ geom])
                       ++ oper_commands o
                       ++ ["alfa " +:+ py_str first; "cpwr " +:+ q]
                       ++ polar_script o p true (first :: rest)
                       ++ [""; ""; ""; ""; "quit"]) /\
    started w' = started w ++ [transmitted o] /\
    List.last (console w') "" = "done".
Proof.
  intros Hx Hr Hl. cbv zeta. unfold main.
  rewrite run_bind, (init_naca_run digits Re Iter None true w Hx).
  set (w1 := MakeOutputDir ("Data/naca" +:+ digits) (checked w None)).
  assert (F : forall q, isfile w1 q = isfile w q)
    by (intros q; unfold w1; now rewrite isfile_MakeOutputDir, isfile_checked).
  rewrite run_bind, SaveGeom_true_run, run_bind, EnterOperMenu_run.
  cbn [first_item]. mrun. rewrite SingleAlfa_run. mrun.
  cbn [savepath name set_input configured].
  match goal with
  | |- context [SaveNameSurfCp ?o first] => set (o0 := o)
  end.
  inversion Hl as [|? ? Ha _]; subst.
  destruct (SaveNameSurfCp_converts o0 first Hr Ha) as [q Hq]. rewrite Hq. mrun.
  match goal with
  | |- context [Polar _ _ _ (?o, _)] => set (oA := o)
  end.
  destruct (SaveNamePolar_converts oA first rest Hr Hl) as [p Hp].
  rewrite (Polar_returns (Sequence (first :: rest)) true true oA w1 p Hp
             (fun _ => conj Hr Hl)).
  rewrite run_bind, Quit_run.
  set (w2 := if isfile w1 p && true then os_remove p w1 else w1).
  assert (St : started w2 = started w).
  { unfold w2, w1. destruct (isfile _ p && true); cbn [os_remove with_fs started];
      now rewrite started_MakeOutputDir, started_checked. }
  rewrite run_bind.
  match goal with
  | |- context [RunXfoil tool true (?o, w2)] =>
      destruct (RunXfoil_run tool true o w2) as (w' & E & S & _)
  end.
  { apply (executable_after_polar w ("naca" +:+ digits) oA (Sequence (first :: rest), p)
             true w1 Hx F eq_refl Hp). }
  rewrite E, run_act. cbn [fst snd]. eexists. eexists. exists p, q.
  split; [reflexivity|]. split; [exact Hp|]. split; [exact Hq|].
  split; [|split].
  - change (polar_script (set_xf _ _) p true (first :: rest))
      with (polar_script oA p true (first :: rest)).
    change (oper_commands (set_xf _ _)) with (oper_commands o0).
    cbn [input set_xf set_input set_alfs as_sequence]. unfold oA. cbn [input set_input].
    rewrite F, !unlines_app. autorewrite with str.
    destruct (isfile w _); cbn [app unlines graphics_block]; now autorewrite with str.
  - cbn [print with_console started]. rewrite S, St. reflexivity.
  - cbn [print with_console console]. apply last_last.
Qed.

(** X19. With an empty list of angles neither [GetPolar] nor [main]
    starts the executable: each raises [IndexError], [GetPolar] when
    the polar file is named and [main] at the first angle, with the
    buffer built up to the commands of [EnterOperMenu]. *)
Theorem no_angles_no_run digits Re SaveCP Iter pane overwrite quiet w :
  executable_found w None = true ->
  let geom := "Data/naca" +:+ digits +:+ "/naca" +:+ digits +:+ ".dat" in
  (exists o w',
     GetPolar tool digits true (Sequence []) Re SaveCP Iter pane overwrite quiet (blank, w)
     = (Raise IndexError, (o, w')) /\
     started w' = started w /\
     input o = unlines (["plop"; "g f"; ""; "naca " +:+ digits]
                        ++ (if pane then ["pane"] else [])
                        ++ (if isfile w geom then [] else ["save " +:+ geom])
                        ++ oper_commands o)) /\
  (exists o w',
     main tool digits true [] Re Iter (blank, w) = (Raise IndexError, (o, w')) /\
     started w' = started w /\
     input o = unlines (["plop"; "g f"; ""; "naca " +:+ digits]
                        ++ (if isfile w geom then [] else ["save " +:+ geom])
                        ++ oper_commands o)).
Proof.
  intros Hx. cbv zeta.
  set (w1 := MakeOutputDir ("Data/naca" +:+ digits) (checked w None)).
  assert (F : forall q, isfile w1 q = isfile w q)
    by (intros q; unfold w1; now rewrite isfile_MakeOutputDir, isfile_checked).
  assert (St : started w1 = started w)
    by (unfold w1; now rewrite started_MakeOutputDir, started_checked).
  split.
  - unfold GetPolar. rewrite run_bind, (init_naca_run digits Re Iter None true w Hx).
    fold w1. rewrite run_bind, pane_run, run_bind, SaveGeom_true_run, run_bind, Polar_run.
    cbv zeta. mrun. cbn [savepath name set_input configured].
    change (SaveNamePolar _ (Sequence [])) with (@Raise string IndexError). cbv iota.
    eexists. eexists. split; [reflexivity|]. split; [exact St|].
    cbn [input set_input set_alfs]. rewrite F, !unlines_app. autorewrite with str.
    destruct pane; destruct (isfile w _);
      cbn [app unlines graphics_block]; now autorewrite with str.
  - unfold main. rewrite run_bind, (init_naca_run digits Re Iter None true w Hx).
    fold w1. rewrite run_bind, SaveGeom_true_run, run_bind, EnterOperMenu_run.
    cbn [first_item]. mrun. cbn [savepath name set_input configured].
    eexists. eexists. split; [reflexivity|]. split; [exact St|].
    cbn [input set_input]. rewrite F, !unlines_app. autorewrite with str.
    destruct (isfile w _); cbn [app unlines graphics_block]; now autorewrite with str.
Qed.
End Run.

(** The polar of the repository's own example, on a Mac with Xfoil.app. *)
Lemma GetPolar_naca_witness :
  let first := PyInt 0 in
  let rest := [PyInt 10] in
  let Re := PyFloat (S754_finite false 200000 0) in
  let geom := "Data/naca" +:+ "0012" +:+ "/naca" +:+ "0012" +:+ ".dat" in
  executable_found mac_world None = true /\
  converts Re = true /\
  Forall (fun x => converts x = true) (first :: rest) /\
  exists o w' p,
    GetPolar silent_tool "0012" true (Sequence (first :: rest)) Re true (PyInt 100) false
      true true (blank, mac_world) = (Ret tt, (o, w')) /\
    SaveNamePolar o (Sequence (first :: rest)) = Ret p /\
    input o = unlines (["plop"; "g f"; ""; "naca " +:+ "0012"]
                       ++ (if false then ["pane"] else [])
                       ++ (if isfile mac_world geom then [] else ["save " +:+ geom])
                       ++ polar_script o p true (first :: rest)
                       ++ [""; ""; ""; ""; "quit"]) /\
    started w' = started mac_world ++ [transmitted o] /\
    xfoilpath o = resolved_path mac_world None /\
    xf o = Some (List.length (started mac_world)).
Proof.
  cbv zeta.
  assert (H : Forall (fun x => converts x = true) [PyInt 0; PyInt 10])
    by (repeat constructor).
  split; [reflexivity|]. split; [reflexivity|]. split; [exact H|].
  apply (GetPolar_naca silent_tool "0012" (PyInt 0) [PyInt 10]
           (PyFloat (S754_finite false 200000 0)) true (PyInt 100) false true true mac_world
           eq_refl eq_refl H).
Defined.

(** The first airfoil of the repository's own run. *)
Lemma main_naca_witness :
  let first := PyInt 0 in
  let rest := [PyInt 10] in
  let Re := PyFloat (S754_finite false 200000 0) in
  let geom := "Data/naca" +:+ "0012" +:+ "/naca" +:+ "0012" +:+ ".dat" in
  executable_found mac_world None = true /\
  converts Re = true /\
  Forall (fun x => converts x = true) (first :: rest) /\
  exists o w' p q,
    main silent_tool "0012" true (first :: rest) Re (PyInt 30) (blank, mac_world)
    = (Ret tt, (o, w')) /\
    SaveNamePolar o (Sequence (first :: rest)) = Ret p /\
    SaveNameSurfCp o first = Ret q /\
    input o = unlines (["plop"; "g f"; ""; "naca " +:+ "0012"]
                       ++ (if isfile mac_world geom then [] else ["save " +:+ geom])
                       ++ oper_commands o
                       ++ ["alfa " +:+ py_str first; "cpwr " +:+ q]
                       ++ polar_script o p true (first :: rest)
                       ++ [""; ""; ""; ""; "quit"]) /\
    started w' = started mac_world ++ [transmitted o] /\
    List.last (console w') "" = "done".
Proof.
  cbv zeta.
  assert (H : Forall (fun x => converts x = true) [PyInt 0; PyInt 10])
    by (repeat constructor).
  split; [reflexivity|]. split; [reflexivity|]. split; [exact H|].
  apply (main_naca silent_tool "0012" (PyInt 0) [PyInt 10]
           (PyFloat (S754_finite false 200000 0)) (PyInt 30) mac_world eq_refl eq_refl H).
Defined.

(** No angles, on a Mac with Xfoil.app. *)
Lemma no_angles_no_run_witness :
  let geom := "Data/naca" +:+ "0012" +:+ "/naca" +:+ "0012" +:+ ".dat" in
  executable_found mac_world None = true /\
  (exists o w',
     GetPolar silent_tool "0012" true (Sequence []) (PyInt 0) true (PyInt 100) true true true
       (blank, mac_world)
     = (Raise IndexError, (o, w')) /\
     started w' = started mac_world /\
     input o = unlines (["plop"; "g f"; ""; "naca " +:+ "0012"]
                        ++ (if true then ["pane"] else [])
                        ++ (if isfile mac_world geom then [] else ["save " +:+ geom])
                        ++ oper_commands o)) /\
  (exists o w',
     main silent_tool "0012" true [] (PyInt 0) (PyInt 100) (blank, mac_world)
     = (Raise IndexError, (o, w')) /\
     started w' = started mac_world /\
     input o = unlines (["plop"; "g f"; ""; "naca " +:+ "0012"]
                        ++ (if isfile mac_world geom then [] else ["save " +:+ geom])
                        ++ oper_commands o)).
Proof.
  cbv zeta. split; [reflexivity|].
  apply (no_angles_no_run silent_tool "0012" (PyInt 0) true (PyInt 100) true true true
           mac_world eq_refl).
Defined.

(** ** Writing a geometry file *)

Lemma unbroken_append a b : unbroken (a +:+ b) = unbroken a && unbroken b.
Proof. unfold unbroken. now rewrite chars_append, forallb_app. Qed.

Lemma unbroken_spaces n : unbroken (spaces n) = true.
Proof. induction n as [|n IH]; [reflexivity | exact IH]. Qed.

Lemma unbroken_zeros n : unbroken (zeros n) = true.
Proof. induction n as [|n IH]; [reflexivity | exact IH]. Qed.

Lemma unbroken_digits d : unbroken (NilEmpty.string_of_uint d) = true.
Proof. induction d; [reflexivity | exact IHd ..]. Qed.

Lemma unbroken_dec k : unbroken (dec k) = true.
Proof.
  unfold dec, NilZero.string_of_uint.
  destruct (N.to_uint (Z.to_N k)) eqn:E; [reflexivity | rewrite <- E; apply unbroken_digits ..].
Qed.

Lemma unbroken_substring n m s : unbroken s = true -> unbroken (substring n m s) = true.
Proof.
  unfold unbroken. revert n m. induction s as [|c s IH]; intros n m H.
  - destruct n, m; reflexivity.
  - cbn [list_ascii_of_string forallb] in H. apply andb_prop in H as [Hc Hs].
    destruct n as [|n]; cbn [substring].
    + destruct m as [|m]; [reflexivity|]. cbn [list_ascii_of_string forallb].
      now rewrite Hc, (IH 0%nat m Hs).
    + now apply IH.
Qed.

Lemma unbroken_point_digits prec k : unbroken (point_digits prec k) = true.
Proof.
  unfold point_digits.
  assert (Z : unbroken (zfill (S prec) (dec k)) = true)
    by (unfold zfill; now rewrite unbroken_append, unbroken_zeros, unbroken_dec).
  destruct prec; [exact Z|].
  now rewrite !unbroken_append, !unbroken_substring.
Qed.

Lemma unbroken_fixed prec f : unbroken (float_text Fixed prec f) = true.
Proof.
  unfold float_text, fixed_text.
  destruct f as [s|s| |s m e]; try destruct s; try reflexivity;
    try (destruct (fraction m e)); rewrite unbroken_append, unbroken_point_digits; reflexivity.
Qed.

Lemma unbroken_format_left w prec x t :
  format_left_fixed w prec x = Ret t -> unbroken t = true.
Proof.
  unfold format_left_fixed. destruct (as_float x) as [f|e]; [|discriminate].
  intros H. injection H as <-. unfold pad_right.
  now rewrite unbroken_append, unbroken_fixed, unbroken_spaces.
Qed.

(** A row is one line. *)
Lemma point_line_unbroken xx zz line :
  point_line xx zz = Ret line -> exists b, line = b +:+ nl /\ unbroken b = true.
Proof.
  unfold point_line.
  destruct (format_left_fixed 14 7 xx) as [a|e] eqn:Ea; [|discriminate].
  destruct (format_left_fixed 14 7 zz) as [b|e] eqn:Eb; [|discriminate].
  intros H. injection H as <-. exists ("    " +:+ a +:+ b). split; [now rewrite !append_assoc|].
  rewrite !unbroken_append, (unbroken_format_left _ _ _ _ Ea), (unbroken_format_left _ _ _ _ Eb).
  reflexivity.
Qed.

Lemma text_mode_app w a b : text_mode w (a +:+ b) = text_mode w a +:+ text_mode w b.
Proof.
  induction a as [|c a IH]; [reflexivity|].
  rewrite append_cons. cbn [text_mode]. now rewrite IH, append_assoc.
Qed.

Lemma text_mode_unbroken w b : unbroken b = true -> text_mode w b = b.
Proof.
  unfold unbroken. induction b as [|c b IH]; intros H; [reflexivity|].
  cbn [list_ascii_of_string forallb] in H. apply andb_prop in H as [Hc Hb].
  cbn [text_mode]. rewrite (IH Hb). unfold is_break in Hc. apply negb_true_iff in Hc.
  apply orb_false_elim in Hc as [Hc _]. now rewrite Hc.
Qed.

Lemma text_mode_line w b :
  unbroken b = true -> text_mode w (b +:+ nl) = b +:+ linesep w.
Proof.
  intros H. rewrite text_mode_app, (text_mode_unbroken w b H). cbn [text_mode nl].
  unfold newline. rewrite Ascii.eqb_refl. now rewrite append_nil_r.
Qed.

(** Python reads an unbroken text and a line end as one line. *)
Lemma count_lines_line w b rest open_line :
  unbroken b = true ->
  count_lines_from open_line (b +:+ linesep w +:+ rest) = S (count_lines_from false rest).
Proof.
  unfold unbroken. revert open_line. induction b as [|c b IH]; intros open_line H.
  - rewrite append_nil_l. unfold linesep. destruct (IsItWindows w); reflexivity.
  - cbn [list_ascii_of_string forallb] in H. apply andb_prop in H as [Hc Hb].
    unfold is_break in Hc. apply negb_true_iff in Hc. apply orb_false_elim in Hc as [H1 H2].
    rewrite append_cons. cbn [count_lines_from]. rewrite H1, H2. now apply IH.
Qed.

Lemma points_text_lines w l body :
  points_text l = Ret body ->
  count_lines_from false (text_mode w body) = List.length l.
Proof.
  revert body. induction l as [|[xx zz] l IH]; intros body H.
  - now injection H as <-.
  - cbn [points_text] in H.
    destruct (point_line xx zz) as [line|e] eqn:E; [|discriminate].
    destruct (points_text l) as [rest|e] eqn:R; [|discriminate].
    cbn [mbind outcome_bind obind] in H. injection H as <-.
    destruct (point_line_unbroken xx zz line E) as (b & -> & Hb).
    rewrite text_mode_app, (text_mode_line w b Hb), append_assoc,
      (count_lines_line w b _ false Hb), (IH rest eq_refl).
    reflexivity.
Qed.

(** The file holds the title line and a line for each point. *)
Lemma geometry_text_lines w l body :
  points_text l = Ret body ->
  count_lines (text_mode w ("foil" +:+ nl +:+ body)) = S (List.length l).
Proof.
  intros H. unfold count_lines.
  change ("foil" +:+ nl +:+ body) with (("foil" +:+ nl) +:+ body).
  rewrite text_mode_app, (text_mode_line w "foil" eq_refl), append_assoc,
    (count_lines_line w "foil" _ false eq_refl), (points_text_lines w l body H).
  reflexivity.
Qed.

Lemma text_mode_same w w' s : os_name w' = os_name w -> text_mode w' s = text_mode w s.
Proof.
  intros H. induction s as [|c s IH]; [reflexivity|].
  cbn [text_mode]. unfold linesep, IsItWindows. now rewrite H, IH.
Qed.

Lemma set_file_twice p a b w : set_file p b (set_file p a w) = set_file p b w.
Proof. unfold set_file, with_fs. cbn. now rewrite insert_insert_eq. Qed.

Lemma lookup_set_file p text w : files (fs (set_file p text w)) !! p = Some text.
Proof. cbn. apply lookup_insert_eq. Qed.

Lemma file_write_set_file p s a w :
  file_write p s (set_file p a w) = set_file p (a +:+ text_mode w s) w.
Proof.
  unfold file_write. rewrite lookup_set_file, set_file_twice. cbn [default].
  now rewrite (text_mode_same w (set_file p a w) s eq_refl).
Qed.

Lemma write_points_run l p a w :
  write_points l p (set_file p a w) =
  match points_text l with
  | Ret body => (Ret tt, set_file p (a +:+ text_mode w body) w)
  | Raise e => (Raise e, snd (write_points l p (set_file p a w)))
  end.
Proof.
  revert a. induction l as [|[xx zz] l IH]; intros a.
  - cbn [write_points points_text text_mode]. now rewrite append_nil_r.
  - cbn [write_points points_text].
    destruct (point_line xx zz) as [line|e]; [|reflexivity].
    cbn [mbind outcome_bind obind]. rewrite file_write_set_file, IH.
    destruct (points_text l) as [rest|e]; cbn [mbind outcome_bind obind snd]; [|reflexivity].
    now rewrite text_mode_app, append_assoc.
Qed.

(** [WriteXfoilFile] once the file is open. *)
Lemma WriteXfoilFile_run fname x z w :
  fst (open_w fname w) = Ret tt ->
  WriteXfoilFile fname x z w =
  match points_text (combine x z) with
  | Ret body => (Ret tt, set_file fname (text_mode w ("foil" +:+ nl +:+ body)) w)
  | Raise e => (Raise e, snd (WriteXfoilFile fname x z w))
  end.
Proof.
  unfold WriteXfoilFile, open_w.
  destruct (String.eqb _ "" || isdir w fname); [discriminate|].
  destruct (isdir w (strip_slashes (GetParentDir fname))); [|discriminate].
  intros _. rewrite file_write_set_file, append_nil_l, write_points_run.
  destruct (points_text (combine x z)) as [body|e]; [|reflexivity].
  now rewrite !text_mode_app, !append_assoc.
Qed.

Lemma WriteXfoilFile_returns fname x z w w' :
  WriteXfoilFile fname x z w = (Ret tt, w') ->
  exists body,
    points_text (combine x z) = Ret body /\
    w' = set_file fname (text_mode w ("foil" +:+ nl +:+ body)) w.
Proof.
  intros H. assert (O : fst (open_w fname w) = Ret tt).
  { unfold WriteXfoilFile in H. destruct (open_w fname w) as [[[]|e] w1]; [reflexivity|].
    discriminate H. }
  rewrite (WriteXfoilFile_run fname x z w O) in H.
  destruct (points_text (combine x z)) as [body|e]; [|discriminate H].
  exists body. split; [reflexivity|]. now injection H as <-.
Qed.

Lemma points_text_converts x z :
  Forall (fun a => converts a = true) x -> Forall (fun a => converts a = true) z ->
  exists body, points_text (combine x z) = Ret body.
Proof.
  intros Hx. revert z. induction Hx as [|a x Ha Hx IH]; intros z Hz; [now exists ""|].
  destruct Hz as [|b z Hb Hz]; [now exists ""|].
  destruct (IH z Hz) as [rest Hr]. cbn [combine points_text]. rewrite Hr.
  unfold point_line, format_left_fixed, converts in *.
  destruct (as_float a); [|discriminate]. destruct (as_float b); [|discriminate].
  eexists. reflexivity.
Qed.

Lemma set_file_frame p text w :
  os_name (set_file p text w) = os_name w /\
  dirs (fs (set_file p text w)) = dirs (fs w) /\
  console (set_file p text w) = console w /\
  started (set_file p text w) = started w /\
  (forall q, q <> p -> files (fs (set_file p text w)) !! q = files (fs w) !! q).
Proof.
  repeat split. intros q Hq. cbn. now apply lookup_insert_ne.
Qed.

Lemma open_w_ok fname w :
  file_part fname <> "" -> isdir w fname = false ->
  isdir w (strip_slashes (GetParentDir fname)) = true ->
  fst (open_w fname w) = Ret tt.
Proof.
  intros Hf Hd Hp. unfold open_w. fold (file_part fname). rewrite Hd, Hp.
  destruct (String.eqb_spec (file_part fname) ""); [contradiction | reflexivity].
Qed.

(** X21. [WriteXfoilFile], given a file name in a directory that
    exists and coordinates that are floats, or ints that convert:
    it returns, and the file then holds the title line [foil],
    whatever the file is called, and one row for each pair of
    [zip(x, z)], so that Python reads back one line more than the
    shorter of the two sequences has elements, on either platform.
    What the file held before is gone; no other file, no directory
    and nothing on the console is touched. *)
Theorem WriteXfoilFile_writes fname x z w :
  file_part fname <> "" ->
  isdir w fname = false ->
  isdir w (strip_slashes (GetParentDir fname)) = true ->
  Forall (fun a => converts a = true) x ->
  Forall (fun a => converts a = true) z ->
  exists body w',
    WriteXfoilFile fname x z w = (Ret tt, w') /\
    points_text (combine x z) = Ret body /\
    files (fs w') !! fname = Some (text_mode w ("foil" +:+ nl +:+ body)) /\
    count_lines (text_mode w ("foil" +:+ nl +:+ body))
    = S (Nat.min (List.length x) (List.length z)) /\
    (forall q, q <> fname -> files (fs w') !! q = files (fs w) !! q) /\
    dirs (fs w') = dirs (fs w) /\ console w' = console w /\ started w' = started w.
Proof.
  intros Hf Hd Hp Hx Hz. destruct (points_text_converts x z Hx Hz) as [body Hb].
  exists body. eexists. split.
  - rewrite (WriteXfoilFile_run fname x z w (open_w_ok fname w Hf Hd Hp)), Hb. reflexivity.
  - split; [exact Hb|]. split; [apply lookup_set_file|]. split.
    + rewrite (geometry_text_lines w _ body Hb). now rewrite length_combine.
    + destruct (set_file_frame fname (text_mode w ("foil" +:+ nl +:+ body)) w)
        as (_ & H2 & H3 & H4 & H5).
      repeat split; assumption.
Qed.

(** Three points and four ordinates, written on Windows over an older
    file. *)
Lemma WriteXfoilFile_writes_witness :
  let w := {| os_name := "nt"; fs := {| files := {[ "wing.dat" := "old" ]}; dirs := ∅ |};
              console := []; started := [] |} in
  let x := [PyInt 1; PyFloat (S754_finite false 1 (-1)); PyInt 0] in
  let z := [PyInt 0; PyFloat (S754_finite false 1 (-4)); PyInt 0; PyInt 7] in
  file_part "wing.dat" <> "" /\
  isdir w "wing.dat" = false /\
  isdir w (strip_slashes (GetParentDir "wing.dat")) = true /\
  Forall (fun a => converts a = true) x /\
  Forall (fun a => converts a = true) z /\
  exists body w',
    WriteXfoilFile "wing.dat" x z w = (Ret tt, w') /\
    points_text (combine x z) = Ret body /\
    files (fs w') !! "wing.dat" = Some (text_mode w ("foil" +:+ nl +:+ body)) /\
    count_lines (text_mode w ("foil" +:+ nl +:+ body))
    = S (Nat.min (List.length x) (List.length z)) /\
    (forall q, q <> "wing.dat" -> files (fs w') !! q = files (fs w) !! q) /\
    dirs (fs w') = dirs (fs w) /\ console w' = console w /\ started w' = started w.
Proof.
  cbv zeta.
  assert (H1 : file_part "wing.dat" <> "") by discriminate.
  assert (H4 : Forall (fun a => converts a = true)
                 [PyInt 1; PyFloat (S754_finite false 1 (-1)); PyInt 0])
    by (repeat constructor).
  assert (H5 : Forall (fun a => converts a = true)
                 [PyInt 0; PyFloat (S754_finite false 1 (-4)); PyInt 0; PyInt 7])
    by (repeat constructor).
  split; [exact H1|]. split; [reflexivity|]. split; [reflexivity|].
  split; [exact H4|]. split; [exact H5|].
  apply WriteXfoilFile_writes; [exact H1 | reflexivity | reflexivity | exact H4 | exact H5].
Defined.

(** Two points, as they stand in the file. *)
Example WriteXfoilFile_rows :
  files (fs (snd (WriteXfoilFile "wing.dat"
                    [PyInt 1; PyFloat (S754_finite false 1 (-1))]
                    [PyInt 0; PyFloat (S754_finite true 1 (-4))] (world_with []))))
  !! "wing.dat"
  = Some ("foil" +:+ nl +:+ "    1.0000000     0.0000000     " +:+ nl
          +:+ "    0.5000000     -0.0625000    " +:+ nl).
Proof. vm_compute. reflexivity. Qed.

(** X22. A file that [WriteXfoilFile] has written is taken by
    [LoadGeom] as a geometry exactly when at least one point was
    written: with an empty [x] or [z] the file has the title line
    alone, and [LoadGeom] exits with the message for an empty file. *)
Theorem written_geometry_loads fname x z w o :
  fst (WriteXfoilFile fname x z w) = Ret tt ->
  naca o = false -> foil o = fname ->
  let w' := snd (WriteXfoilFile fname x z w) in
  LoadGeom (o, w') =
  if (Nat.min (List.length x) (List.length z) =? 0)%nat
  then (Raise (SystemExit (banner (empty_text fname))), (o, w'))
  else (Ret tt, (set_input (input o +:+ "load " +:+ fname +:+ nl) o, w')).
Proof.
  intros Hr Hn Hf. cbv zeta.
  destruct (WriteXfoilFile fname x z w) as [r w'] eqn:E. cbn [fst snd] in *. subst r.
  destruct (WriteXfoilFile_returns fname x z w w' E) as (body & Hb & ->).
  rewrite (LoadGeom_file o _ Hn), Hf, lookup_set_file, (geometry_text_lines w _ body Hb).
  rewrite length_combine.
  destruct (Nat.min (List.length x) (List.length z)); cbn [Nat.ltb Nat.leb Nat.eqb];
    [reflexivity|]. cbn [unlines]. now autorewrite with str.
Qed.

(** A geometry of two points, and one of none. *)
Lemma written_geometry_loads_witness :
  let o := configured (world_with []) "wing.dat" false (PyInt 0) (PyInt 100) (Some "xfoil")
             false "wing" in
  let x := [PyInt 1; PyInt 0] in
  let z := [PyInt 0; PyInt 0] in
  fst (WriteXfoilFile "wing.dat" x z (world_with [])) = Ret tt /\
  naca o = false /\ foil o = "wing.dat" /\
  let w' := snd (WriteXfoilFile "wing.dat" x z (world_with [])) in
  LoadGeom (o, w') =
  if (Nat.min (List.length x) (List.length z) =? 0)%nat
  then (Raise (SystemExit (banner (empty_text "wing.dat"))), (o, w'))
  else (Ret tt, (set_input (input o +:+ "load " +:+ "wing.dat" +:+ nl) o, w')).
Proof.
  cbv zeta. split; [vm_compute; reflexivity|]. split; [reflexivity|]. split; [reflexivity|].
  apply (written_geometry_loads "wing.dat" [PyInt 1; PyInt 0] [PyInt 0; PyInt 0] (world_with []));
    [vm_compute; reflexivity | reflexivity | reflexivity].
Defined.

(** ** One command, one line *)

Lemma commands_unlines_app cs b :
  commands (unlines cs +:+ b) = commands (unlines cs) ++ commands b.
Proof.
  induction cs as [|c cs IH]; [reflexivity|].
  cbn [unlines]. rewrite !append_assoc, !commands_line, IH. now rewrite app_assoc.
Qed.

(** X23. On a buffer of whole lines [AddInput] adds the command and a
    line feed: the lines of the buffer are those it had and, after
    them, the command, as one line when it holds no line feed and
    otherwise as the several lines it is made of. *)
Theorem AddInput_adds_a_line cmd cs o w :
  input o = unlines cs ->
  let o' := fst (snd (AddInput cmd (o, w))) in
  AddInput cmd (o, w) = (Ret tt, (o', w)) /\
  input o' = unlines (cs ++ [cmd]) /\
  commands (input o') = commands (input o) ++ split newline cmd /\
  (one_line cmd = true -> commands (input o') = commands (input o) ++ [cmd]).
Proof.
  intros Hi. cbv zeta. rewrite AddInput_run. cbn [fst snd input set_input].
  split; [reflexivity|]. rewrite Hi.
  assert (C : commands (unlines cs +:+ cmd +:+ nl) = commands (unlines cs) ++ split newline cmd).
  { rewrite commands_unlines_app.
    rewrite <- (append_nil_r (cmd +:+ nl)), append_assoc, commands_line.
    now rewrite app_nil_r. }
  split; [|split; [exact C|]].
  - rewrite unlines_app. cbn [unlines]. now autorewrite with str.
  - intros H. now rewrite C, (split_one_line cmd H).
Qed.

(** The session of NACA 0012 and the command that smooths the panels. *)
Lemma AddInput_adds_a_line_witness :
  let o' := fst (snd (AddInput "pane" (stored, mac_world))) in
  input stored = unlines ["plop"; "g f"; ""; "naca 0012"] /\
  AddInput "pane" (stored, mac_world) = (Ret tt, (o', mac_world)) /\
  input o' = unlines (["plop"; "g f"; ""; "naca 0012"] ++ ["pane"]) /\
  commands (input o') = commands (input stored) ++ split newline "pane" /\
  (one_line "pane" = true -> commands (input o') = commands (input stored) ++ ["pane"]).
Proof.
  cbv zeta. split; [reflexivity|].
  apply (AddInput_adds_a_line "pane" ["plop"; "g f"; ""; "naca 0012"] stored mac_world).
  reflexivity.
Defined.

(** ** Pressure files that coincide *)

Lemma append_cancel_l a x y : a +:+ x = a +:+ y -> x = y.
Proof.
  induction a as [|c a IH]; [trivial|]. rewrite !append_cons. intros H.
  injection H as H. now apply IH.
Qed.

Lemma append_cancel_r x y s : x +:+ s = y +:+ s -> x = y.
Proof.
  intros H. apply (f_equal list_ascii_of_string) in H. rewrite !chars_append in H.
  apply app_inv_tail in H. apply (f_equal string_of_list_ascii) in H.
  now rewrite !string_of_chars in H.
Qed.

(** X24. Two angles of one session get the same pressure file exactly
    when they print alike with one decimal: the file of the later one
    replaces that of the earlier. *)
Theorem SaveNameSurfCp_same_file o a b r ta tb :
  py_format (VNum (Re o)) "1.2e" = Ret r ->
  py_format (VNum a) "1.1f" = Ret ta ->
  py_format (VNum b) "1.1f" = Ret tb ->
  SaveNameSurfCp o a = SaveNameSurfCp o b <-> ta = tb.
Proof.
  intros Hr Ha Hb. rewrite !SaveNameSurfCp_eq, Hr, Ha, Hb.
  cbn [mbind outcome_bind obind]. unfold surface_name. split.
  - intros H. injection H as H.
    do 6 apply append_cancel_l in H. now apply append_cancel_r in H.
  - now intros ->.
Qed.

(** The angles 0 and 0.04 of NACA 0012. *)
Lemma SaveNameSurfCp_same_file_witness :
  let a := PyInt 0 in
  let b := PyFloat (S754_finite false 5764607523034235 (-57)) in
  py_format (VNum (Re stored)) "1.2e" = Ret "0.00e+00" /\
  py_format (VNum a) "1.1f" = Ret "0.0" /\
  py_format (VNum b) "1.1f" = Ret "0.0" /\
  (SaveNameSurfCp stored a = SaveNameSurfCp stored b <-> "0.0" = "0.0").
Proof.
  cbv zeta. split; [reflexivity|]. split; [reflexivity|]. split; [vm_compute; reflexivity|].
  apply (SaveNameSurfCp_same_file stored (PyInt 0)
           (PyFloat (S754_finite false 5764607523034235 (-57))) "0.00e+00" "0.0" "0.0");
    [reflexivity | reflexivity | vm_compute; reflexivity].
Defined.
